(** * tec_util: a shallow embedding of [tec_util/core.py]

    The development follows the layout of the Python module: helper
    functions first (entity selection, the temporary frame, the writer),
    then the API functions (statistics, differencing, extraction,
    revolution, renaming, slicing).

    Conventions of the embedding.
    - A Python call either returns a value or raises: [Result].
    - Calls that touch the Tecplot session (frames of the active page, the
      grid store, the logger, the files written) run in the monad [M],
      which threads a [World] and keeps it when an exception propagates.
    - A float is a real number (its value), an infinity or not-a-number;
      the two zeros of the format are one value.  The arithmetic on
      floats, rounding included, is numpy's and not code of the
      repository: it is the interface [Numpy], a parameter of every
      function that computes with values.
    - [LOG.info] and [LOG.debug] calls only report progress and are left
      out; [LOG.warning], [LOG.error] and [LOG.exception] write a record
      with their format string and arguments, unless the arguments do not
      fit the format string: the logging module then reports a logging
      error and writes no record.  [frame.activate()] only moves the
      focus of the session and is left out as well.
    - The writer of the grid store is recorded by its calls: the file
      name, the format chosen from the extension, the dataset and the
      variable and zone indices it is given.
    - The name matching of [Dataset.variables]/[Dataset.zones] belongs to
      the Tecplot bindings, which are not part of the repository: it is
      the interface [Bindings], a parameter of every function that
      selects entities.  The accessors by name ([Accessors]) and the
      slice extraction ([Slicer]) are interfaces of the same kind; a
      name handed to an accessor is a pattern, and the first entity that
      matches it is the one accessed. *)

From Stdlib Require Import String Ascii List Bool Arith ZArith Lia Reals Lra.
From Stdlib Require Import DecimalString.
Import ListNotations.
Open Scope string_scope.
Open Scope list_scope.

(** ** Python values and exceptions *)

Inductive exn : Type :=
| NameError (name : string)
| AssertionError (msg : string)
| RuntimeError (msg : string)
| IndexError (msg : string)
| TypeError (msg : string)
| ValueError (msg : string)
| StatisticsError (msg : string)
| TecplotError (msg : string).

Inductive Result (A : Type) : Type :=
| Ok (a : A)
| Raise (e : exn).

Arguments Ok {A} a.
Arguments Raise {A} e.

Definition rbind {A B} (r : Result A) (k : A -> Result B) : Result B :=
  match r with
  | Ok a => k a
  | Raise e => Raise e
  end.

Declare Scope result_scope.
Delimit Scope result_scope with res.
Notation "x <~ r ; k" := (rbind r (fun x => k))
  (at level 61, r at next level, right associativity) : result_scope.

(** [assert cond, msg]: the message is an expression that is evaluated
    only when the condition is false, and may itself raise. *)
Definition py_assert (cond : bool) (msg : Result string) : Result unit :=
  if cond then Ok tt
  else rbind msg (fun m => Raise (AssertionError m)).

(** A float: a real number, an infinity, or not-a-number. *)
Inductive float : Type :=
| Num (r : R)
| PInf
| NInf
| NaN.

(** The floating-point arithmetic the module takes from numpy.
    - [fsub a b], [fmul a b]: one element of [np.subtract(a, b)] and of
      [np.multiply(a, b)], as it is stored.
    - [np_sin], [np_cos], [np_radians]: the functions of these names.
    - [linspace_sample start stop n k]: sample [k] of
      [np.linspace(start, stop, n)]. *)
Class Numpy : Type := {
  fsub : float -> float -> float;
  fmul : float -> float -> float;
  np_sin : float -> float;
  np_cos : float -> float;
  np_radians : float -> float;
  linspace_sample : float -> float -> nat -> nat -> float
}.

(** ** Dictionaries

    A Python [dict] keeps its keys in insertion order; assigning to a key
    that is present replaces the value and leaves the position alone. *)

Definition dict (V : Type) : Type := list (string * V).

Fixpoint dict_set {V} (d : dict V) (k : string) (v : V) : dict V :=
  match d with
  | [] => [(k, v)]
  | (k', v') :: d' =>
      if String.eqb k' k then (k', v) :: d'
      else (k', v') :: dict_set d' k v
  end.

Fixpoint dict_get {V} (d : dict V) (k : string) : option V :=
  match d with
  | [] => None
  | (k', v') :: d' => if String.eqb k' k then Some v' else dict_get d' k
  end.

Definition dict_mem {V} (d : dict V) (k : string) : bool :=
  match dict_get d k with Some _ => true | None => false end.

Definition dict_keys {V} (d : dict V) : list string := map fst d.
Definition dict_values {V} (d : dict V) : list V := map snd d.

(** [{**a, **b}] *)
Definition dict_merge {V} (a b : dict V) : dict V :=
  fold_left (fun d kv => dict_set d (fst kv) (snd kv)) b a.

(** [x in names] for a list of strings *)
Definition str_in (x : string) (names : list string) : bool :=
  existsb (String.eqb x) names.

(** [sep.join(parts)] *)
Fixpoint str_join (sep : string) (parts : list string) : string :=
  match parts with
  | [] => EmptyString
  | [p] => p
  | p :: rest => (p ++ sep ++ str_join sep rest)%string
  end.

(** The characters of a string, each as a one-character string: what
    iterating over a [str] yields. *)
Fixpoint str_chars (s : string) : list string :=
  match s with
  | EmptyString => []
  | String c s' => String c EmptyString :: str_chars s'
  end.

(** The double quote, as a one-character string *)
Definition dquote : string := String (Ascii.ascii_of_nat 34) EmptyString.

(** [str(n)] for a non-negative integer *)
Definition str_of_nat (n : nat) : string := NilZero.string_of_uint (Nat.to_uint n).

(** [str(n)] for an integer *)
Definition str_of_Z (n : Z) : string :=
  if (n <? 0)%Z then ("-" ++ str_of_nat (Z.to_nat (- n)))%string
  else str_of_nat (Z.to_nat n).

(** ** Data model: the grid dataset *)

Record Zone : Type := mkZone {
  zone_name : string;
  rank : nat;
  dimensions : list nat;
  is_ordered : bool
}.

(** [np.prod(dims)] *)
Definition prod (dims : list nat) : nat := fold_right Nat.mul 1 dims.

Definition num_points (z : Zone) : nat := prod (dimensions z).

(** A dataset: variable names and zones by index, and the value array of
    each (variable index, zone index) pair. *)
Record Dataset : Type := mkDataset {
  variable_names : list string;
  zone_list : list Zone;
  values : nat -> nat -> list float
}.

Definition num_variables (ds : Dataset) : nat := length (variable_names ds).
Definition num_zones (ds : Dataset) : nat := length (zone_list ds).

(** A variable or zone handle: what [ds.variables()] and [ds.zones()]
    yield, with its [.name] and [.index]. *)
Record Entity : Type := mkEntity {
  name : string;
  index : nat
}.

Fixpoint enumerate_from (i : nat) (names : list string) : list Entity :=
  match names with
  | [] => []
  | n :: rest => mkEntity n i :: enumerate_from (S i) rest
  end.

Definition variable_catalog (ds : Dataset) : list Entity :=
  enumerate_from 0 (variable_names ds).

Definition zone_catalog (ds : Dataset) : list Entity :=
  enumerate_from 0 (map zone_name (zone_list ds)).

Definition no_zone : Zone := mkZone EmptyString 0 [] false.

(** [ds.add_variable(name)]: the new variable takes the next index and
    holds a zero-filled array on every zone. *)
Definition add_variable (ds : Dataset) (n : string) : Dataset :=
  let i := num_variables ds in
  mkDataset (variable_names ds ++ [n]) (zone_list ds)
    (fun v z =>
       if Nat.eqb v i
       then repeat (Num 0) (num_points (nth z (zone_list ds) no_zone))
       else values ds v z).

(** [ds.variable(v).values(z)[:] = arr], once the lengths are known to
    agree *)
Definition set_values (ds : Dataset) (v z : nat) (arr : list float) : Dataset :=
  mkDataset (variable_names ds) (zone_list ds)
    (fun v' z' => if Nat.eqb v' v && Nat.eqb z' z then arr else values ds v' z').

(** ** Entity selection: [get_variables], [get_zones] *)

(** The [patterns] argument: [None], a bare string, or a list. *)
Inductive Patterns : Type :=
| PNone
| PStr (s : string)
| PList (ps : list string).

(** [not patterns] *)
Definition py_not (p : Patterns) : bool :=
  match p with
  | PNone => true
  | PStr s => String.eqb s EmptyString
  | PList ps => match ps with [] => true | _ => false end
  end.

Definition isinstance_str (p : Patterns) : bool :=
  match p with PStr _ => true | _ => false end.

(** [' '.join(patterns)] *)
Definition join_patterns (p : Patterns) : Result string :=
  match p with
  | PNone => Raise (TypeError "can only join an iterable")
  | PStr s => Ok (str_join " " (str_chars s))
  | PList ps => Ok (str_join " " ps)
  end.

(** The part of the Tecplot bindings that entity selection relies on.
    - [fnmatch n p]: the entity name [n] matches the pattern [p], as the
      catalog primitive decides it.
    - [match_list cat ps]: what the catalog primitive yields when it is
      handed a list object instead of [None] or a string (the source does
      so for the empty list only). *)
Class Bindings : Type := {
  fnmatch : string -> string -> bool;
  match_list : list Entity -> list string -> Result (list Entity)
}.

(** [list(ds.variables(pattern))], [list(ds.zones(pattern))] *)
Definition catalog_match {tp : Bindings} (cat : list Entity) (p : Patterns)
  : Result (list Entity) :=
  match p with
  | PNone => Ok cat
  | PStr s => Ok (filter (fun e => fnmatch (name e) s) cat)
  | PList ps => match_list cat ps
  end.

(** The loop of the list branch:
    [for p in patterns: for v in ds.variables(p): matches[v.name] = v] *)
Definition collect_matches {tp : Bindings} (cat : list Entity) (ps : list string)
  : dict Entity :=
  fold_left
    (fun matches p =>
       fold_left (fun m v => dict_set m (name v) v)
                 (filter (fun e => fnmatch (name e) p) cat) matches)
    ps [].

(** The common body of [get_variables] and [get_zones]; [kind] is the word
    the assertion message uses. *)
Definition select {tp : Bindings} (kind : string) (cat : list Entity)
  (patterns : Patterns) : Result (list Entity) :=
  (result <~ (if py_not patterns || isinstance_str patterns
              then catalog_match cat patterns
              else match patterns with
                   | PList ps => Ok (dict_values (collect_matches cat ps))
                   | _ => catalog_match cat patterns
                   end);
   _ <~ py_assert (match result with [] => false | _ => true end)
          (m <~ join_patterns patterns;
           Ok ("No " ++ kind ++ " in dataset matching " ++ m)%string);
   Ok result)%res.

Definition get_variables {tp : Bindings} (ds : Dataset) (patterns : Patterns)
  : Result (list Entity) :=
  select "variables" (variable_catalog ds) patterns.

Definition get_zones {tp : Bindings} (ds : Dataset) (patterns : Patterns)
  : Result (list Entity) :=
  select "zones" (zone_catalog ds) patterns.

(** The accessors by name of the Tecplot bindings ([dataset.variable],
    [dataset.zone], [zone.values]) take the name as a pattern and hand
    back the first entity whose name matches it.  What a lookup without a
    match raises (in the accessor, or in the use of what it returns) is
    left to the bindings: [lookup_error]. *)
Class Accessors : Type := {
  lookup_error : string -> exn
}.

Definition first_match {tp : Bindings} {acc : Accessors}
  (cat : list Entity) (pattern : string) : Result Entity :=
  match find (fun e => fnmatch (name e) pattern) cat with
  | Some e => Ok e
  | None => Raise (lookup_error pattern)
  end.

(** ** The Tecplot session *)

Inductive Level : Type := WARNING | ERROR | EXCEPTION.

Record LogRecord : Type := mkLog {
  log_level : Level;
  log_format : string;
  log_args : list string
}.

(** One call of [tp.data.save_tecplot_ascii] or [save_tecplot_plt]. *)
Record SaveCall : Type := mkSave {
  save_path : string;
  save_ascii : bool;
  save_dataset : Dataset;
  save_variables : option (list nat);
  save_zones : option (list nat)
}.

Record World : Type := mkWorld {
  page_frames : list nat;
  next_frame : nat;
  grid_store : string -> option Dataset;
  created : list string;
  log : list LogRecord;
  saved : list SaveCall
}.

Definition M (A : Type) : Type := World -> Result A * World.

Definition ret {A} (a : A) : M A := fun w => (Ok a, w).

Definition raise {A} (e : exn) : M A := fun w => (Raise e, w).

Definition bind {A B} (m : M A) (k : A -> M B) : M B :=
  fun w =>
    match m w with
    | (Ok a, w') => k a w'
    | (Raise e, w') => (Raise e, w')
    end.

Definition lift {A} (r : Result A) : M A := fun w => (r, w).

Declare Scope monad_scope.
Delimit Scope monad_scope with M.
Notation "x <- m ;; k" := (bind m (fun x => k))
  (at level 61, m at next level, right associativity) : monad_scope.
Notation "m ;; k" := (bind m (fun _ => k))
  (at level 61, right associativity) : monad_scope.

(** [try: body except: handler] with a bare [except] *)
Definition try_except {A} (body : M A) (handler : exn -> M A) : M A :=
  fun w =>
    match body w with
    | (Ok a, w') => (Ok a, w')
    | (Raise e, w') => handler e w'
    end.

(** A [for] loop whose body updates a local value *)
Fixpoint for_each {A S} (items : list A) (body : S -> A -> M S) (s : S) : M S :=
  match items with
  | [] => ret s
  | x :: rest => (s' <- body s x ;; for_each rest body s')%M
  end.

Definition add_log (w : World) (records : list LogRecord) : World :=
  mkWorld (page_frames w) (next_frame w) (grid_store w) (created w)
          (log w ++ records) (saved w).

(** [fmt % args] can be evaluated: every conversion specifier of the
    format string finds its argument and no argument is left over.  The
    format strings of the module hold the specifiers [%s] and [%d] only;
    [%%] stands for a percent sign. *)
Fixpoint formattable (fmt : string) (args : list string) : bool :=
  match fmt with
  | EmptyString => match args with [] => true | _ :: _ => false end
  | String c rest =>
      if Ascii.eqb c "%"%char
      then match rest with
           | EmptyString => false
           | String c' rest' =>
               if Ascii.eqb c' "%"%char then formattable rest' args
               else match args with
                    | [] => false
                    | _ :: args' => formattable rest' args'
                    end
           end
      else formattable rest args
  end.

(** The record reaches the handlers in a form they can write: a message
    without arguments is taken as it is, one with arguments is formatted
    first. *)
Definition writable (fmt : string) (args : list string) : bool :=
  match args with
  | [] => true
  | _ :: _ => formattable fmt args
  end.

(** [LOG.warning], [LOG.error], [LOG.exception].  The call returns in
    every case; a record that cannot be formatted is not written. *)
Definition emit (lvl : Level) (fmt : string) (args : list string) : M unit :=
  fun w => (Ok tt, if writable fmt args then add_log w [mkLog lvl fmt args] else w).

(** [page.add_frame()] *)
Definition add_frame : M nat :=
  fun w => (Ok (next_frame w),
            mkWorld (page_frames w ++ [next_frame w]) (S (next_frame w))
                    (grid_store w) (created w) (log w) (saved w)).

(** [page.delete_frame(frame)] *)
Definition delete_frame (frame : nat) : M unit :=
  fun w => (Ok tt,
            mkWorld (filter (fun f => negb (Nat.eqb f frame)) (page_frames w))
                    (next_frame w) (grid_store w) (created w) (log w) (saved w)).

(** [frame.create_dataset(name)] *)
Definition create_dataset (frame : nat) (n : string) : M unit :=
  fun w => (Ok tt,
            mkWorld (page_frames w) (next_frame w) (grid_store w)
                    (created w ++ [n]) (log w) (saved w)).

(** [tp.data.load_tecplot(path, frame=frame)] *)
Definition load_tecplot (path : string) (frame : nat) : M Dataset :=
  fun w =>
    match grid_store w path with
    | Some ds => (Ok ds, w)
    | None => (Raise (TecplotError path), w)
    end.

(** *** The temporary frame

    [temp_frame] is a generator function under [@contextmanager]:
    [[
        page  = tecplot.active_page()
        frame = page.add_frame()
        yield frame
        page.delete_frame(frame)
    ]]
    A generator with one [yield] splits into the statements run by
    [__enter__] and those run when the generator is resumed. *)

Record Generator (A : Type) : Type := mkGenerator {
  before_yield : M A;
  after_yield : A -> M unit
}.

Arguments mkGenerator {A} before_yield after_yield.
Arguments before_yield {A} g.
Arguments after_yield {A} g.

Definition temp_frame : Generator nat :=
  mkGenerator add_frame delete_frame.

(** [with gen() as x: body], for a generator whose [yield] is not inside
    a [try] statement.  When the body returns, [__exit__] resumes the
    generator, which runs the statements after the [yield].  When the body
    raises, [__exit__] throws the exception into the generator at the
    [yield]; nothing there catches it, so the generator is left at once
    and the exception propagates to the caller of the [with]. *)
Definition py_with {A B} (gen : Generator A) (body : A -> M B) : M B :=
  fun w =>
    match before_yield gen w with
    | (Raise e, w1) => (Raise e, w1)
    | (Ok x, w1) =>
        match body x w1 with
        | (Ok b, w2) =>
            match after_yield gen x w2 with
            | (Ok _, w3) => (Ok b, w3)
            | (Raise e, w3) => (Raise e, w3)
            end
        | (Raise e, w2) => (Raise e, w2)
        end
    end.

(** *** [write_dataset] *)

Definition dot : ascii := "."%char.
Definition slash : ascii := "/"%char.

Fixpoint basename_aux (path acc : string) : string :=
  match path with
  | EmptyString => acc
  | String c rest =>
      if Ascii.eqb c slash then basename_aux rest EmptyString
      else basename_aux rest (acc ++ String c EmptyString)%string
  end.

(** The extension of a file name: from its last dot, provided a character
    other than a dot comes before that dot. *)
Fixpoint ext_aux (base : string) (seen : bool) : option string :=
  match base with
  | EmptyString => None
  | String c rest =>
      match ext_aux rest (seen || negb (Ascii.eqb c dot)) with
      | Some e => Some e
      | None => if Ascii.eqb c dot && seen then Some base else None
      end
  end.

(** [os.path.splitext(filename)[1]] *)
Definition splitext_ext (filename : string) : string :=
  match ext_aux (basename_aux filename EmptyString) false with
  | Some e => e
  | None => EmptyString
  end.

Definition write_dataset (filename : string) (dataset : Dataset)
  (variables zones : option (list nat)) : M unit :=
  fun w =>
    let ext := splitext_ext filename in
    (Ok tt,
     mkWorld (page_frames w) (next_frame w) (grid_store w) (created w) (log w)
             (saved w ++ [mkSave filename (String.eqb ext ".dat") dataset variables zones])).

(** Name resolution inside a function body.  [locals] lists the names in
    scope that are bound to a value of the type the use expects; a name
    that is neither a local nor a module global nor a builtin raises. *)
Definition load_name {A} (locals : dict A) (n : string) : Result A :=
  match dict_get locals n with
  | Some a => Ok a
  | None => Raise (NameError ("name '" ++ n ++ "' is not defined")%string)
  end.

(** ** API functions *)

(** *** [compute_statistics] *)

Record ZoneStats : Type := mkStats {
  stats_name : string;
  stats_max : float;
  stats_min : float;
  stats_mean : float
}.

(** The exact sum of two floats *)
Definition fadd (a b : float) : float :=
  match a, b with
  | Num x, Num y => Num (x + y)
  | NaN, _ | _, NaN => NaN
  | PInf, NInf | NInf, PInf => NaN
  | PInf, _ | _, PInf => PInf
  | NInf, _ | _, NInf => NInf
  end.

Definition fmax (a b : float) : float :=
  match a, b with
  | Num x, Num y => Num (Rmax x y)
  | NaN, _ | _, NaN => NaN
  | PInf, _ | _, PInf => PInf
  | NInf, c | c, NInf => c
  end.

Definition fmin (a b : float) : float :=
  match a, b with
  | Num x, Num y => Num (Rmin x y)
  | NaN, _ | _, NaN => NaN
  | NInf, _ | _, NInf => NInf
  | PInf, c | c, PInf => c
  end.

(** [data.max()], [data.min()]: the reductions of the value array; a
    not-a-number entry propagates. *)
Definition array_max (data : list float) : Result float :=
  match data with
  | [] => Raise (TecplotError "max of an empty array")
  | x :: rest => Ok (fold_left fmax rest x)
  end.

Definition array_min (data : list float) : Result float :=
  match data with
  | [] => Raise (TecplotError "min of an empty array")
  | x :: rest => Ok (fold_left fmin rest x)
  end.

(** [statistics.mean(data)]: the function sums exact fractions, so the
    mean of finite data is the exact quotient (its conversion back to a
    float is left out); an infinity or a not-a-number among the data is
    what the sum becomes. *)
Definition mean (data : list float) : Result float :=
  match data with
  | [] => Raise (StatisticsError "mean requires at least one data point")
  | _ => Ok (match fold_left fadd data (Num 0) with
             | Num total => Num (total / INR (length data))
             | other => other
             end)
  end.

(** A [for] loop of pure statements that may raise *)
Fixpoint rfor_each {A S} (items : list A) (body : S -> A -> Result S) (s : S)
  : Result S :=
  match items with
  | [] => Ok s
  | x :: rest => rbind (body s x) (rfor_each rest body)
  end.

(** The inner loop: one [ZoneStats] per selected zone *)
Definition zone_statistics (dataset : Dataset) (var : Entity) (zones : list Entity)
  : Result (list ZoneStats) :=
  rfor_each zones
    (fun zone_stats zone =>
       let data := values dataset (index var) (index zone) in
       (mx <~ array_max data;
        mn <~ array_min data;
        me <~ mean data;
        Ok (zone_stats ++ [mkStats (name zone) mx mn me]))%res)
    [].

(** The outer loop: [var_stats[var.name] = zone_stats] *)
Definition variable_statistics (dataset : Dataset) (variables zones : list Entity)
  : Result (dict (list ZoneStats)) :=
  rfor_each variables
    (fun var_stats var =>
       (zone_stats <~ zone_statistics dataset var zones;
        Ok (dict_set var_stats (name var) zone_stats))%res)
    [].

(** The body reads the name [ds] at lines 138 and 140; the dataset was
    bound to [dataset] at line 131, and that is the only dataset in
    scope. *)
Definition compute_statistics {tp : Bindings} (datafile_in : string)
  (variable_patterns zone_patterns : Patterns) : M (dict (list ZoneStats)) :=
  py_with temp_frame (fun frame =>
    (dataset <- load_tecplot datafile_in frame ;;
     let datasets_in_scope := [("dataset", dataset)] in
     ds <- lift (load_name datasets_in_scope "ds") ;;
     variables <- lift (get_variables ds variable_patterns) ;;
     ds <- lift (load_name datasets_in_scope "ds") ;;
     zones <- lift (get_zones ds zone_patterns) ;;
     lift (variable_statistics dataset variables zones))%M).

(** *** [extract] *)

Definition extract {tp : Bindings} (datafile_in datafile_out : string)
  (zone_patterns var_patterns : Patterns) : M unit :=
  py_with temp_frame (fun frame =>
    (ds <- load_tecplot datafile_in frame ;;
     zones <- lift (get_zones ds zone_patterns) ;;
     variables <- lift (get_variables ds var_patterns) ;;
     write_dataset datafile_out ds
       (Some (map index variables)) (Some (map index zones)))%M).

(** *** [difference_datasets] *)

(** [str(patterns)], as [str.format] renders the argument *)
Definition str_of_patterns (p : Patterns) : string :=
  match p with
  | PNone => "None"
  | PStr s => s
  | PList ps => ("[" ++ str_join ", " (map (fun s => "'" ++ s ++ "'") ps) ++ "]")%string
  end.

Definition count_mismatch_message (kind : string) (pattern : Patterns)
  (n_new n_old : nat) : string :=
  ("The number of " ++ kind ++ " matching the glob pattern '"
   ++ str_of_patterns pattern ++ "' in datafile_new (" ++ str_of_nat n_new
   ++ ") does not match the number in datafile_old (" ++ str_of_nat n_old
   ++ ").")%string.

(** [np.subtract(a, b)] on one-dimensional arrays: element-wise when the
    lengths agree, an array of length one is broadcast, any other pair of
    lengths is rejected. *)
Definition np_subtract {np : Numpy} (a b : list float) : Result (list float) :=
  if Nat.eqb (length a) (length b)
  then Ok (map (fun xy => fsub (fst xy) (snd xy)) (combine a b))
  else match a, b with
       | _, [y] => Ok (map (fun x => fsub x y) a)
       | [x], _ => Ok (map (fun y => fsub x y) b)
       | _, _ => Raise (ValueError "operands could not be broadcast together")
       end.

(** [ds.variable(v).values(z)[:] = arr]: the array of a zone has a fixed
    size, a sequence of another length is rejected. *)
Definition assign_values (ds : Dataset) (v z : nat) (arr : list float)
  : Result Dataset :=
  if Nat.eqb (length arr) (length (values ds v z))
  then Ok (set_values ds v z arr)
  else Raise (ValueError "Can only assign sequence of same size").

(** [for i, (a, b) in enumerate(zip(new, old))]: warn on differing names *)
Fixpoint warn_name_mismatch (what : string) (i : nat) (pairs : list (Entity * Entity))
  : M unit :=
  match pairs with
  | [] => ret tt
  | (enew, eold) :: rest =>
      ((if String.eqb (name enew) (name eold) then ret tt
        else emit WARNING (what ++ " pair %d has mismatching names: %s != %s")%string
               [str_of_nat i; name enew; name eold]) ;;
       warn_name_mismatch what (S i) rest)%M
  end.

(** The format string of the [LOG.exception] call at line 231; it has
    three placeholders and is given two arguments, so the record cannot
    be formatted. *)
Definition delta_error_format : string :=
  ("Error while computing delta " ++ dquote ++ "%s" ++ dquote
   ++ " for zones " ++ dquote ++ "%s" ++ dquote ++ " and "
   ++ dquote ++ "%s" ++ dquote ++ ". Setting to NaN.")%string.

(** The body of the zone loop, lines 225 to 235 *)
Definition delta_zone {np : Numpy} (data_old : Dataset) (vnew vold : Entity) (delta : nat)
  (data_new : Dataset) (zpair : Entity * Entity) : M Dataset :=
  let znew := fst zpair in
  let zold := snd zpair in
  try_except
    (lift (arr <~ np_subtract (values data_new (index vnew) (index znew))
                              (values data_old (index vold) (index zold));
           assign_values data_new delta (index znew) arr)%res)
    (fun _ =>
       (emit EXCEPTION delta_error_format [name zold; name znew] ;;
        ret (set_values data_new delta (index znew)
               (repeat NaN (length (values data_new delta (index znew))))))%M).

(** The body of the variable loop, lines 220 to 235 *)
Definition delta_variable {np : Numpy} (data_old : Dataset) (nskip : Z)
  (zone_pairs : list (Entity * Entity))
  (data_new : Dataset) (vpair : Entity * Entity) : M Dataset :=
  let vnew := fst vpair in
  let vold := snd vpair in
  if (Z.of_nat (index vnew) <? nskip)%Z || (Z.of_nat (index vold) <? nskip)%Z
  then ret data_new
  else
    let delta := num_variables data_new in
    let data_new := add_variable data_new ("delta_" ++ name vnew)%string in
    for_each zone_pairs (delta_zone data_old vnew vold delta) data_new.

(** [range(a, b)] *)
Definition range (a b : nat) : list nat := seq a (b - a).

Definition difference_datasets {tp : Bindings} {np : Numpy}
  (datafile_new datafile_old datafile_out : string)
  (zone_patterns var_patterns : Patterns) (nskip : Z) : M unit :=
  py_with temp_frame (fun frame_new =>
  py_with temp_frame (fun frame_old =>
    (data_new <- load_tecplot datafile_new frame_new ;;
     data_old <- load_tecplot datafile_old frame_old ;;
     let patterns_in_scope :=
       [("zone_patterns", zone_patterns); ("var_patterns", var_patterns)] in
     var_new <- lift (get_variables data_new var_patterns) ;;
     var_old <- lift (get_variables data_old var_patterns) ;;
     (if negb (Nat.eqb (length var_new) (length var_old))
      then
        var_pattern <- lift (load_name patterns_in_scope "var_pattern") ;;
        let message := count_mismatch_message "variables" var_pattern
                         (length var_new) (length var_old) in
        emit ERROR message [] ;;
        raise (RuntimeError message)
      else ret tt) ;;
     warn_name_mismatch "Variable" 0 (combine var_new var_old) ;;
     zone_new <- lift (get_zones data_new zone_patterns) ;;
     zone_old <- lift (get_zones data_old zone_patterns) ;;
     (if negb (Nat.eqb (length zone_new) (length zone_old))
      then
        zone_pattern <- lift (load_name patterns_in_scope "zone_pattern") ;;
        let message := count_mismatch_message "zones" zone_pattern
                         (length zone_new) (length zone_old) in
        emit ERROR message [] ;;
        raise (RuntimeError message)
      else ret tt) ;;
     warn_name_mismatch "Zone" 0 (combine zone_new zone_old) ;;
     let initial_num_vars := num_variables data_new in
     data_new <- for_each (combine var_new var_old)
                   (delta_variable data_old nskip (combine zone_new zone_old))
                   data_new ;;
     let vars_to_save :=
       range 0 (Z.to_nat nskip) ++ range initial_num_vars (num_variables data_new) in
     write_dataset datafile_out data_new
       (Some vars_to_save) (Some (map index zone_new)))%M)).

(** *** [revolve_dataset] *)

(** The [vector_vars] argument: [None], a list of names, or a dict from a
    name to its pair of component names (given by its items). *)
Inductive VectorVars : Type :=
| VNone
| VList (vs : list string)
| VDict (items : list (string * (string * string))).

(** The [radial_coord] argument: [None], a name, or a dict. *)
Inductive RadialCoord : Type :=
| RNone
| RStr (s : string)
| RDict (items : list (string * (string * string))).

(** Lines 412 to 416: a list becomes
    [{ v:(v+'_cos',v+'_sin') for v in vector_vars }], a false value
    becomes the empty dict. *)
Definition vector_vars_dict (vector_vars : VectorVars) : dict (string * string) :=
  match vector_vars with
  | VNone => []
  | VList vs =>
      fold_left (fun d v => dict_set d v ((v ++ "_cos")%string, (v ++ "_sin")%string)) vs []
  | VDict items => dict_merge [] items
  end.

(** [set(names)], in order of first occurrence *)
Definition py_set (names : list string) : list string :=
  fold_left (fun s x => if str_in x s then s else s ++ [x]) names [].

(** Lines 428 to 450: the radial coordinate joins the vector mapping, and
    the mapping is checked against the input variables. *)
Definition select_radial (vars_in : list string) (radial_coord : RadialCoord)
  (vector_vars : dict (string * string)) : Result (dict (string * string)) :=
  let zname := "z" in
  let second_variable : Result (string + dict (string * string)) :=
    match nth_error vars_in 1 with
    | Some v => Ok (inl v)
    | None => Raise (IndexError "list index out of range")
    end in
  (radial_coord <~ match radial_coord with
                   | RNone => second_variable
                   | RStr s => if String.eqb s EmptyString then second_variable
                               else Ok (inl s)
                   | RDict items => match items with
                                    | [] => second_variable
                                    | _ => Ok (inr (dict_merge [] items))
                                    end
                   end;
   let default_zname := match radial_coord with inl _ => true | inr _ => false end in
   let radial_coord := match radial_coord with
                       | inl s => [(s, (s, zname))]
                       | inr d => d
                       end in
   let vector_vars := dict_merge radial_coord vector_vars in
   rname <~ match dict_keys radial_coord with
            | k :: _ => Ok k
            | [] => Raise (IndexError "list index out of range")
            end;
   _ <~ py_assert (str_in rname vars_in)
          (Ok ("ERROR: User-specified radial coordinate " ++ rname
               ++ " does not exist in dataset!")%string);
   _ <~ (if default_zname
         then py_assert (negb (str_in zname vars_in))
                (Ok ("ERROR: New coordinate " ++ dquote ++ zname ++ dquote
                     ++ " will clobber existing variable! "
                     ++ "Please use a dict argument to radial_coord to specify coordinate names.")%string)
         else Ok tt);
   _ <~ rfor_each (dict_keys vector_vars)
          (fun _ v =>
             py_assert (str_in v vars_in)
               (Ok ("ERROR: User requested vector variable " ++ v
                    ++ " not present in dataset.")%string))
          tt;
   Ok vector_vars)%res.

(** Lines 454 to 461: the variable list of the output dataset *)
Definition output_variables (vars_in : list string)
  (vector_vars : dict (string * string)) : list string :=
  fold_left
    (fun out v =>
       let out := out ++ [v] in
       match dict_get vector_vars v with
       | Some (cos_name, sin_name) =>
           fold_left
             (fun out component =>
                if negb (str_in component vars_in) then out ++ [component] else out)
             [cos_name; sin_name] out
       | None => out
       end)
    vars_in [].

(** [np.linspace(start, stop, num)]: [num] samples, or an error for a
    negative [num] *)
Definition linspace {np : Numpy} (start stop : float) (num : Z) : Result (list float) :=
  if (num <? 0)%Z
  then Raise (ValueError ("Number of samples, " ++ str_of_Z num
                          ++ ", must be non-negative.")%string)
  else
    let n := Z.to_nat num in
    Ok (map (linspace_sample start stop n) (seq 0 n)).

(** [names.index(x)], as an option *)
Fixpoint index_of (x : string) (names : list string) : option nat :=
  match names with
  | [] => None
  | n :: rest =>
      if String.eqb n x then Some 0
      else match index_of x rest with Some i => Some (S i) | None => None end
  end.

(** [arr[i] = x] on a list of arrays *)
Fixpoint replace_nth {A} (i : nat) (x : A) (l : list A) : list A :=
  match l, i with
  | [], _ => []
  | _ :: rest, 0 => x :: rest
  | y :: rest, S j => y :: replace_nth j x rest
  end.

(** [arr[start:stop] = block] on the fixed-size array of a zone: the slice
    bounds are clipped to the array, and a block of another length than
    the slice is rejected. *)
Definition set_slice (arr : list float) (start stop : nat) (block : list float)
  : Result (list float) :=
  let start := Nat.min start (length arr) in
  let stop := Nat.min stop (length arr) in
  if Nat.eqb (length block) (stop - start)
  then Ok (firstn start arr ++ block ++ skipn stop arr)
  else Raise (ValueError "Can only assign sequence of same size").

(** The arrays of the zone under construction, one per output variable *)
Definition ZoneData : Type := list (list float).

(** [zin.values(v)], [zout.values(v)] with a variable name: the name is
    taken as a pattern, and the array is that of the first variable that
    matches it; here, its position. *)
Definition zone_array {tp : Bindings} {acc : Accessors}
  (out_vars : list string) (v : string) : Result nat :=
  (e <~ first_match (enumerate_from 0 out_vars) v;
   Ok (index e))%res.

(** [vals[k*npt:(k+1)*npt] = block], on the array at position [i] *)
Definition write_block (i k npt : nat) (block : list float) (zdata : ZoneData)
  : Result ZoneData :=
  (arr <~ set_slice (nth i zdata []) (k * npt) ((k + 1) * npt) block;
   Ok (replace_nth i arr zdata))%res.

(** [np.multiply(vals, c)] *)
Definition np_multiply {np : Numpy} (vals : list float) (c : float) : list float :=
  map (fun x => fmul x c) vals.

(** The body of the variable loop, lines 477 to 487 *)
Definition revolve_variable {tp : Bindings} {acc : Accessors} {np : Numpy}
  (data_in : Dataset) (zindex : nat)
  (out_vars : list string) (vector_vars : dict (string * string))
  (ct st : list float) (planes npt : nat) (zdata : ZoneData) (v : string)
  : Result ZoneData :=
  (vin <~ zone_array (variable_names data_in) v;
   let vals_in := values data_in vin zindex in
   vals_out <~ zone_array out_vars v;
   zdata <~ rfor_each (seq 0 planes)
              (fun zdata k => write_block vals_out k npt vals_in zdata) zdata;
   match dict_get vector_vars v with
   | Some (vy, vz) =>
       vals_y <~ zone_array out_vars vy;
       vals_z <~ zone_array out_vars vz;
       rfor_each (seq 0 planes)
         (fun zdata k =>
            zdata <~ write_block vals_y k npt (np_multiply vals_in (nth k ct NaN)) zdata;
            write_block vals_z k npt (np_multiply vals_in (nth k st NaN)) zdata)
         zdata
   | None => Ok zdata
   end)%res.

(** The rank Tecplot reports for an ordered zone: the number of
    dimensions holding more than one point. *)
Definition rank_of (dims : list nat) : nat :=
  length (filter (fun d => Nat.ltb 1 d) dims).

(** The body of the zone loop, lines 470 to 487: the new zone and its
    arrays *)
Definition revolve_zone {tp : Bindings} {acc : Accessors} {np : Numpy}
  (data_in : Dataset) (out_vars : list string)
  (vector_vars : dict (string * string)) (ct st : list float) (planes : nat)
  (zindex : nat) (zin : Zone) : Result (Zone * ZoneData) :=
  (_ <~ py_assert (is_ordered zin)
          (Ok ("ERROR: Cannot revolve zone " ++ dquote ++ zone_name zin ++ dquote
               ++ ". Must be an OrderedZone.")%string);
   _ <~ py_assert (Nat.ltb (rank zin) 3)
          (Ok ("ERROR: Cannot revolve zone " ++ dquote ++ zone_name zin ++ dquote
               ++ ". Must be rank 1 or 2.")%string);
   let dims := firstn (rank zin) (dimensions zin) ++ [planes] in
   let zout := mkZone (zone_name zin) (rank_of dims) dims true in
   let npt := prod (dimensions zin) in
   zdata <~ rfor_each (variable_names data_in)
              (revolve_variable data_in zindex out_vars vector_vars ct st planes npt)
              (map (fun _ => repeat (Num 0) (num_points zout)) out_vars);
   Ok (zout, zdata))%res.

(** [enumerate(items)] *)
Definition enumerate {A} (items : list A) : list (nat * A) :=
  combine (seq 0 (length items)) items.

(** The zone loop *)
Definition revolve_zones {tp : Bindings} {acc : Accessors} {np : Numpy}
  (data_in : Dataset) (out_vars : list string)
  (vector_vars : dict (string * string)) (ct st : list float) (planes : nat)
  : Result (list (Zone * ZoneData)) :=
  rfor_each (enumerate (zone_list data_in))
    (fun done iz =>
       (z <~ revolve_zone data_in out_vars vector_vars ct st planes (fst iz) (snd iz);
        Ok (done ++ [z]))%res)
    [].

(** The output dataset, as the loops leave it *)
Definition assemble (out_vars : list string) (zones : list (Zone * ZoneData))
  : Dataset :=
  mkDataset out_vars (map fst zones)
    (fun v z => nth v (snd (nth z zones (no_zone, []))) []).

(** Lines 424 to 450: the checks made before the output dataset exists *)
Definition check_inputs (datafile_in : string) (data_in : Dataset)
  (radial_coord : RadialCoord) (vector_vars : dict (string * string))
  : Result (dict (string * string)) :=
  let vars_in := variable_names data_in in
  (_ <~ py_assert (Nat.eqb (length vars_in) (length (py_set vars_in)))
          (Ok ("ERROR: Cannot revolve " ++ datafile_in
               ++ ". All variables must have unique names.")%string);
   select_radial vars_in radial_coord vector_vars)%res.

(** Lines 454 to 487: the variables, the angles and the zones of the
    output dataset *)
Definition build_output {tp : Bindings} {acc : Accessors} {np : Numpy}
  (data_in : Dataset) (vector_vars : dict (string * string))
  (planes : Z) (angle : float) : Result Dataset :=
  let out_vars := output_variables (variable_names data_in) vector_vars in
  (t <~ linspace (Num 0) (np_radians angle) planes;
   let st := map np_sin t in
   let ct := map np_cos t in
   zones <~ revolve_zones data_in out_vars vector_vars ct st (Z.to_nat planes);
   Ok (assemble out_vars zones))%res.

Definition revolve_dataset {tp : Bindings} {acc : Accessors} {np : Numpy}
  (datafile_in datafile_out : string)
  (radial_coord : RadialCoord) (planes : Z) (angle : float)
  (vector_vars : VectorVars) : M unit :=
  let vector_vars := vector_vars_dict vector_vars in
  py_with temp_frame (fun frame_in =>
  py_with temp_frame (fun frame_out =>
    (data_in <- load_tecplot datafile_in frame_in ;;
     vector_vars <- lift (check_inputs datafile_in data_in radial_coord vector_vars) ;;
     create_dataset frame_out "anchor3d" ;;
     data_out <- lift (build_output data_in vector_vars planes angle) ;;
     write_dataset datafile_out data_out None None)%M)).

(** *** [rename_variables], [rename_zones] *)

(** The lookups [dataset.variable(old_name)] and [dataset.zone(old_name)]
    are those of [first_match]. *)

(** [var.name = new_name] on the variable of index [i] *)
Definition set_variable_name (ds : Dataset) (i : nat) (n : string) : Dataset :=
  mkDataset (replace_nth i n (variable_names ds)) (zone_list ds) (values ds).

(** [zone.name = new_name] on the zone of index [i] *)
Definition set_zone_name (ds : Dataset) (i : nat) (n : string) : Dataset :=
  let z := nth i (zone_list ds) no_zone in
  mkDataset (variable_names ds)
    (replace_nth i (mkZone n (rank z) (dimensions z) (is_ordered z)) (zone_list ds))
    (values ds).

(** [name_map] is a dict from old to new names, given by its items.  The
    body adds a frame of its own and rebinds [frame] to it; no statement
    deletes that frame. *)
Definition rename_variables {tp : Bindings} {acc : Accessors}
  (datafile_in datafile_out : string) (name_map : dict string) : M unit :=
  py_with temp_frame (fun frame =>
    (frame <- add_frame ;;
     dataset <- load_tecplot datafile_in frame ;;
     dataset <- lift (rfor_each name_map
                        (fun dataset item =>
                           (var <~ first_match (variable_catalog dataset) (fst item);
                            Ok (set_variable_name dataset (index var) (snd item)))%res)
                        dataset) ;;
     write_dataset datafile_out dataset None None)%M).

Definition rename_zones {tp : Bindings} {acc : Accessors}
  (datafile_in datafile_out : string) (name_map : dict string) : M unit :=
  py_with temp_frame (fun frame =>
    (dataset <- load_tecplot datafile_in frame ;;
     dataset <- lift (rfor_each name_map
                        (fun dataset item =>
                           (zone <~ first_match (zone_catalog dataset) (fst item);
                            Ok (set_zone_name dataset (index zone) (snd item)))%res)
                        dataset) ;;
     write_dataset datafile_out dataset None None)%M).

(** *** [slice_surfaces] *)

(** The zone specifier of a slice definition: a string or a list of zone
    indices. *)
Inductive ZoneSpec : Type :=
| ZStr (s : string)
| ZList (zs : list nat).

(** A slice definition: the tuple [(name, origin, normal, zones)] *)
Record SliceDef : Type := mkSlice {
  slice_name : string;
  slice_origin : R * R * R;
  slice_normal : R * R * R;
  slice_zones : ZoneSpec
}.

(** What [slice_surfaces] takes from outside the repository.
    - [load_module path]: the module that [SourceFileLoader] builds from
      the slice file.
    - [config_slices config]: its attribute [slices].
    - [extract_slice origin normal zones ds]: [frame.active_zones(zones)]
      followed by [tp.data.extract.extract_slice(...)], which appends one
      zone to the dataset and hands it back: the zone and its value array
      for each variable index. *)
Class Slicer : Type := {
  Config : Type;
  load_module : string -> Result Config;
  config_slices : Config -> Result (list SliceDef);
  extract_slice : R * R * R -> R * R * R -> list nat -> Dataset
                  -> Result (Zone * (nat -> list float))
}.

(** The dataset with one more zone, which takes the next zone index *)
Definition add_zone (ds : Dataset) (z : Zone) (vals : nat -> list float) : Dataset :=
  mkDataset (variable_names ds) (zone_list ds ++ [z])
    (fun v zi => if Nat.eqb zi (num_zones ds) then vals v else values ds v zi).

(** [try: body finally: final] *)
Definition try_finally {A} (body : M A) (final : M unit) : M A :=
  fun w =>
    match body w with
    | (r, w1) =>
        match final w1 with
        | (Ok _, w2) => (r, w2)
        | (Raise e, w2) => (Raise e, w2)
        end
    end.

(** The body of the loop over the slice definitions: the dataset and the
    list [slice_zones] (by zone index) are updated. *)
Definition extract_one {sl : Slicer} (state : Dataset * list nat) (sd : SliceDef)
  : Result (Dataset * list nat) :=
  let (dataset, slice_zones_) := state in
  (zones <~ match slice_zones sd with
            | ZStr s =>
                if String.eqb s "all" then Ok (range 0 (num_zones dataset))
                else Raise (RuntimeError
                              ("String '" ++ s ++ "' is not a valid zone specifier")%string)
            | ZList zs => Ok zs
            end;
   zone <~ extract_slice (slice_origin sd) (slice_normal sd) zones dataset;
   let i := num_zones dataset in
   Ok (set_zone_name (add_zone dataset (fst zone) (snd zone)) i (slice_name sd),
       slice_zones_ ++ [i]))%res.

(** The first statement of the [try] block binds [frame]; [add_frame]
    always returns, so the binding is in place when the [finally] block
    runs. *)
Definition slice_surfaces {sl : Slicer}
  (slice_file datafile_in datafile_out : string) : M unit :=
  (config <- lift (load_module slice_file) ;;
   frame <- add_frame ;;
   try_finally
     (dataset <- load_tecplot datafile_in frame ;;
      slices <- lift (config_slices config) ;;
      state <- lift (rfor_each slices extract_one (dataset, [])) ;;
      write_dataset datafile_out (fst state) None (Some (snd state)))
     (delete_frame frame))%M.

(** ** Vocabulary of the statements *)

(** No pattern of the list matches any entity of the catalog. *)
Definition no_match {tp : Bindings} (cat : list Entity) (ps : list string) : Prop :=
  forall e p, In e cat -> In p ps -> fnmatch (name e) p = false.

(** The session after [temp_frame] has added its frame *)
Definition with_new_frame (w : World) : World :=
  mkWorld (page_frames w ++ [next_frame w]) (S (next_frame w))
          (grid_store w) (created w) (log w) (saved w).

(** The statement of the [try] block at line 226 on the two value
    arrays: the subtraction, then the assignment to a delta array of
    [len] values. *)
Definition zone_difference {np : Numpy} (a b : list float) (len : nat) : Result (list float) :=
  (arr <~ np_subtract a b;
   if Nat.eqb (length arr) len then Ok arr
   else Raise (ValueError "Can only assign sequence of same size"))%res.

(** The delta values of one zone: the difference, or not-a-number
    throughout when the [try] block raises. *)
Definition delta_block {np : Numpy} (a b : list float) (len : nat) : list float :=
  match zone_difference a b len with
  | Ok arr => arr
  | Raise _ => repeat NaN len
  end.

(** The test of line 220 *)
Definition skipped (nskip : Z) (vpair : Entity * Entity) : bool :=
  (Z.of_nat (index (fst vpair)) <? nskip)%Z || (Z.of_nat (index (snd vpair)) <? nskip)%Z.

(** The variable pairs that get a delta variable: both indices are at
    least [nskip]. *)
Definition kept_pairs (nskip : Z) (pairs : list (Entity * Entity))
  : list (Entity * Entity) :=
  filter (fun vpair => negb (skipped nskip vpair)) pairs.

(** The component variables of [v] that the output dataset gains: those
    named by the mapping of [v] that are not input variables. *)
Definition new_components (vars_in : list string)
  (vector_vars : dict (string * string)) (v : string) : list string :=
  match dict_get vector_vars v with
  | Some (cos_name, sin_name) =>
      filter (fun component => negb (str_in component vars_in)) [cos_name; sin_name]
  | None => []
  end.

(** The variable list the description of the revolution asks for: the
    input variables in order, each followed by its new components. *)
Definition expected_variables (vars_in : list string)
  (vector_vars : dict (string * string)) : list string :=
  flat_map (fun v => v :: new_components vars_in vector_vars v) vars_in.

(** The value block of plane [k] in the array of an output zone: [npt]
    values from position [k * npt] on. *)
Definition plane_block (npt k : nat) (arr : list float) : list float :=
  firstn npt (skipn (k * npt) arr).

(** The block of plane [k] in the array at position [j] of a zone under
    construction *)
Definition block_at (npt : nat) (zdata : ZoneData) (j k : nat) : list float :=
  plane_block npt k (nth j zdata []).

(** [ds.zone(z).values(v)], by variable name; empty when there is no such
    variable *)
Definition zone_values (ds : Dataset) (v : string) (z : nat) : list float :=
  match index_of v (variable_names ds) with
  | Some i => values ds i z
  | None => []
  end.

(** [w] is one of the two component names that the mapping gives to the
    variable [u]. *)
Definition component_of (vector_vars : dict (string * string)) (w u : string) : Prop :=
  exists c s, dict_get vector_vars u = Some (c, s) /\ (c = w \/ s = w).

(** The pass over the variables writes the array of [w] while it handles
    [u]: [u] is [w] itself, or [w] is a component of [u]. *)
Definition touches (vector_vars : dict (string * string)) (u w : string) : Prop :=
  u = w \/ component_of vector_vars w u.

(** Every value of the array is finite. *)
Definition all_finite (vals : list float) : Prop :=
  Forall (fun x => exists r, x = Num r) vals.

(** The angle of plane [k] among [n] planes spanning [angle] degrees:
    sample [k] of [np.linspace(0.0, np.radians(angle), n)] *)
Definition theta {np : Numpy} (angle : float) (n k : nat) : float :=
  linspace_sample (Num 0) (np_radians angle) n k.

(** What the values of plane 0 rest on: the first of the [n] angles is
    the start 0 of the interval, the cosine of 0 is 1 and its sine 0, a
    product with 1 is the other factor, and the product of a finite value
    with 0 is 0. *)
Definition plane_zero_arithmetic {np : Numpy} (angle : float) (n : nat) : Prop :=
  linspace_sample (Num 0) (np_radians angle) n 0 = Num 0
  /\ np_cos (Num 0) = Num 1
  /\ np_sin (Num 0) = Num 0
  /\ (forall x, fmul x (Num 1) = x)
  /\ (forall r, fmul (Num r) (Num 0) = Num 0).

(** The last value that the items of a dict display give to the key [k] *)
Definition items_get {V} (items : list (string * V)) (k : string) : option V :=
  fold_left (fun found kv => if String.eqb (fst kv) k then Some (snd kv) else found)
            items None.

(** The component names that the [vector_vars] argument gives to [v]: a
    list gives each of its entries the names [<v>_cos] and [<v>_sin], a
    dict gives what it holds. *)
Definition vector_components (vector_vars : VectorVars) (v : string)
  : option (string * string) :=
  match vector_vars with
  | VNone => None
  | VList vs => if str_in v vs then Some ((v ++ "_cos")%string, (v ++ "_sin")%string)
                else None
  | VDict items => items_get items v
  end.

(** The component names that the [radial_coord] argument gives to [v]: a
    name [r] (by default the second variable) gives [r] the names [r] and
    [z], a dict gives what it holds. *)
Definition radial_components (vars_in : list string) (radial_coord : RadialCoord)
  (v : string) : option (string * string) :=
  let named := fun r => if String.eqb r v then Some (r, "z") else None in
  let second := match nth_error vars_in 1 with
                | Some r => named r
                | None => None
                end in
  match radial_coord with
  | RNone => second
  | RStr s => if String.eqb s EmptyString then second else named s
  | RDict [] => second
  | RDict items => items_get items v
  end.

(** The components of [v] in the revolution: those of [vector_vars], or
    else those of the radial coordinate. *)
Definition revolve_mapping (vars_in : list string) (radial_coord : RadialCoord)
  (vector_vars : VectorVars) (v : string) : option (string * string) :=
  match vector_components vector_vars v with
  | Some components => Some components
  | None => radial_components vars_in radial_coord v
  end.

(** The variable list that the description of the revolution asks for,
    from the components of each variable: the input variables in order,
    each followed by those of its components that are not input
    variables. *)
Definition described_variables (vars_in : list string)
  (mapping : string -> option (string * string)) : list string :=
  flat_map
    (fun v =>
       v :: match mapping v with
            | Some (cos_name, sin_name) =>
                filter (fun component => negb (str_in component vars_in))
                       [cos_name; sin_name]
            | None => []
            end)
    vars_in.

(** The session after a successful [revolve_dataset]: both frames deleted,
    one dataset created, one file written. *)
Definition after_revolve (w : World) (datafile_out : string) (data_out : Dataset)
  : World :=
  mkWorld
    (filter (fun f => negb (Nat.eqb f (next_frame w)))
       (filter (fun f => negb (Nat.eqb f (S (next_frame w))))
          ((page_frames w ++ [next_frame w]) ++ [S (next_frame w)])))
    (S (S (next_frame w))) (grid_store w) (created w ++ ["anchor3d"]) (log w)
    (saved w ++ [mkSave datafile_out (String.eqb (splitext_ext datafile_out) ".dat")
                        data_out None None]).

(** The dict of the list branch holds entities of the catalog, each under
    its own name, and no key twice. *)
Definition matches_ok (cat : list Entity) (m : dict Entity) : Prop :=
  (forall k v, In (k, v) m -> In v cat /\ name v = k) /\ NoDup (dict_keys m).

(** The arrays of a zone under construction all have the size of the
    output zone. *)
Definition zone_sized (out_vars : list string) (size : nat) (zd : ZoneData) : Prop :=
  length zd = length out_vars
  /\ forall j, j < length zd -> length (nth j zd []) = size.

(** Zones that are ordered, of rank 1 or 2, with one point along the axes
    beyond the rank, whose arrays have the size of the zone. *)
Definition revolvable (data_in : Dataset) : Prop :=
  forall zindex zin,
    nth_error (zone_list data_in) zindex = Some zin ->
    is_ordered zin = true
    /\ rank zin < 3
    /\ prod (firstn (rank zin) (dimensions zin)) = num_points zin
    /\ forall u, In u (variable_names data_in) ->
                 length (zone_values data_in u zindex) = num_points zin.

(** The entity belongs to the catalog and its name matches one of the
    patterns. *)
Definition matched_by {tp : Bindings} (cat : list Entity) (ps : list string)
  (e : Entity) : Prop :=
  In e cat /\ exists q, In q ps /\ fnmatch (name e) q = true.

(** The frame identifiers handed out so far are below the next one. *)
Definition fresh_frames (w : World) : Prop :=
  forall f, In f (page_frames w) -> f < next_frame w.

(** The computation writes no file and leaves the frames alone, however
    it ends. *)
Definition untouched {A} (m : M A) : Prop :=
  forall w r w', m w = (r, w') ->
    saved w' = saved w
    /\ page_frames w' = page_frames w
    /\ next_frame w' = next_frame w.

(** When the computation raises, it has written no file and the page
    holds [n] frames more than before, the ones added last. *)
Definition fails_leaving {A} (n : nat) (m : M A) : Prop :=
  forall w e w', m w = (Raise e, w') ->
    saved w' = saved w
    /\ page_frames w' = page_frames w ++ seq (next_frame w) n
    /\ next_frame w' = next_frame w + n.

(** The warnings of the loops at lines 191 and 209: one record per
    positional pair whose names differ, numbered from [i]. *)
Fixpoint name_warnings (what : string) (i : nat) (pairs : list (Entity * Entity))
  : list LogRecord :=
  match pairs with
  | [] => []
  | (enew, eold) :: rest =>
      (if String.eqb (name enew) (name eold) then []
       else [mkLog WARNING (what ++ " pair %d has mismatching names: %s != %s")%string
                   [str_of_nat i; name enew; name eold]])
      ++ name_warnings what (S i) rest
  end.

(** Every array of the dataset has the size of its zone. *)
Definition sized_arrays (ds : Dataset) : Prop :=
  forall v z, v < num_variables ds -> z < num_zones ds ->
              length (values ds v z) = num_points (nth z (zone_list ds) no_zone).

(** The name that the map gives to [n]: its entry, or [n] itself. *)
Definition renamed (name_map : dict string) (n : string) : string :=
  match dict_get name_map n with
  | Some n' => n'
  | None => n
  end.

(** The pattern holds no wildcard: it matches its own text only. *)
Definition literal {tp : Bindings} (pattern : string) : Prop :=
  forall n, fnmatch n pattern = String.eqb n pattern.

(** None of the names holds a wildcard. *)
Definition literal_names {tp : Bindings} (names : list string) : Prop :=
  forall u, In u names -> literal u.

(** The names that the turn of the variable loop for [v] looks up hold no
    wildcard: [v] and its component names. *)
Definition turn_literal {tp : Bindings} (vector_vars : dict (string * string))
  (v : string) : Prop :=
  literal v
  /\ forall vy vz, dict_get vector_vars v = Some (vy, vz) -> literal vy /\ literal vz.

(** A name map that renames in one step: its keys are distinct literal
    names, each the name of exactly one entity, and no new name is a
    key. *)
Definition one_step_map {tp : Bindings} (names : list string) (name_map : dict string)
  : Prop :=
  NoDup (dict_keys name_map)
  /\ (forall k, In k (dict_keys name_map) ->
                literal k /\ count_occ string_dec names k = 1)
  /\ (forall n', In n' (dict_values name_map) -> ~ In n' (dict_keys name_map)).

(** The zone under its new name *)
Definition renamed_zone (name_map : dict string) (z : Zone) : Zone :=
  mkZone (renamed name_map (zone_name z)) (rank z) (dimensions z) (is_ordered z).

(** ** Sample sessions, used to run the model on concrete inputs *)

(** A catalog primitive that knows the pattern [*] and literal names, and
    rejects a list object. *)
Definition literal_bindings : Bindings := {|
  fnmatch := fun n p => String.eqb p "*" || String.eqb n p;
  match_list := fun _ _ =>
    Raise (TypeError "expected str, bytes or os.PathLike object, not list")
|}.

(** One variable, one zone, values 1, 2, 3 *)
Definition stats_sample : Dataset :=
  mkDataset ["p"] [mkZone "zone1" 1 [3] true]
    (fun _ _ => [Num 1; Num 2; Num 3]).

Definition session (files : list (string * Dataset)) : World :=
  mkWorld [] 0 (dict_get files) [] [] [].

(** Two variables, one zone *)
Definition pair_sample : Dataset :=
  mkDataset ["p"; "q"] [mkZone "zone1" 1 [3] true]
    (fun v _ => match v with
                | 0 => [Num 1; Num 2; Num 3]
                | _ => [Num 4; Num 5; Num 6]
                end).

(** The acceptance scenario of the test suite: six variables, one curve
    zone of eleven points. *)
Definition axi_sample : Dataset :=
  mkDataset ["x"; "y"; "q1"; "q2"; "v1"; "v2"]
    [mkZone "axi_sphere_surf" 1 [11; 1] true]
    (fun v _ => map (fun i => Num (INR (v + i))) (seq 0 11)).

Definition axi_session : World := session [("axi_sphere_surf.plt", axi_sample)].

(** The vector mapping of the acceptance scenario: [v2] with its two
    component names, and the bare entry [q2] with the names that lines
    412 to 416 give to the entry of a list. *)
Definition axi_vector_vars : VectorVars :=
  VDict (("v2", ("v2y", "v2z")) :: vector_vars_dict (VList ["q2"])).

(** Three variables on a curve zone of two points; the last variable
    holds a not-a-number value. *)
Definition overlap_sample : Dataset :=
  mkDataset ["x"; "r"; "u"] [mkZone "curve" 1 [2; 1] true]
    (fun v _ => match v with
                | 0 => [Num 1; Num 2]
                | 1 => [Num 3; Num 4]
                | _ => [NaN; Num 6]
                end).

Definition overlap_session : World := session [("curve.plt", overlap_sample)].

(** Two runs of one case: the second zone has three points in the new
    run and two in the old one. *)
Definition new_sample : Dataset :=
  mkDataset ["x"; "p"] [mkZone "a" 1 [2] true; mkZone "b" 1 [3] true]
    (fun v z => match v, z with
                | 0, 0 => [Num 0; Num 1]
                | 0, _ => [Num 0; Num 1; Num 2]
                | _, 0 => [Num 5; Num 7]
                | _, _ => [Num 1; Num 2; Num 3]
                end).

Definition old_sample : Dataset :=
  mkDataset ["x"; "p"] [mkZone "a" 1 [2] true; mkZone "b" 1 [2] true]
    (fun v z => match v, z with
                | 0, _ => [Num 0; Num 1]
                | _, _ => [Num 1; Num 2]
                end).

Definition diff_session : World :=
  session [("new.plt", new_sample); ("old.plt", old_sample)].

(** The two variables of [pair_sample] with the second one under another
    name, on a zone of another name *)
Definition renamed_sample : Dataset :=
  mkDataset ["p"; "rho"] [mkZone "main" 1 [3] true]
    (fun v _ => match v with
                | 0 => [Num 1; Num 2; Num 3]
                | _ => [Num 4; Num 5; Num 7]
                end).

Definition renaming_session : World :=
  session [("new.plt", pair_sample); ("old.plt", renamed_sample)].

Definition literal_accessors : Accessors := {|
  lookup_error := fun pattern => TecplotError ("No match for " ++ pattern)%string
|}.

(** The product of an infinity (positive or not) with the finite [x] *)
Definition scale_infinity (positive : bool) (x : R) : float :=
  if Req_dec_T x 0 then NaN
  else if Rlt_dec 0 x then (if positive then PInf else NInf)
       else (if positive then NInf else PInf).

(** Arithmetic without rounding: exact on finite values, with the IEEE
    rules on infinities and not-a-number; [np.linspace] in exact
    arithmetic. *)
Definition ideal_numpy : Numpy := {|
  fsub := fun a b =>
    match a, b with
    | Num x, Num y => Num (x - y)
    | NaN, _ | _, NaN => NaN
    | PInf, PInf | NInf, NInf => NaN
    | PInf, _ | _, NInf => PInf
    | NInf, _ | _, PInf => NInf
    end;
  fmul := fun a b =>
    match a, b with
    | Num x, Num y => Num (x * y)
    | NaN, _ | _, NaN => NaN
    | PInf, Num y | Num y, PInf => scale_infinity true y
    | NInf, Num y | Num y, NInf => scale_infinity false y
    | PInf, PInf | NInf, NInf => PInf
    | PInf, NInf | NInf, PInf => NInf
    end;
  np_sin := fun a => match a with Num x => Num (sin x) | _ => NaN end;
  np_cos := fun a => match a with Num x => Num (cos x) | _ => NaN end;
  np_radians := fun a => match a with Num x => Num (x * PI / 180) | other => other end;
  linspace_sample := fun start stop n k =>
    match start, stop with
    | Num a, Num b => Num (a + INR k * ((b - a) / INR (n - 1)))
    | _, _ => NaN
    end
|}.

(** Two slice definitions: one through all zones, one through the first *)
Definition sample_slices : list SliceDef :=
  [mkSlice "mid" (0, 0, 0)%R (1, 0, 0)%R (ZStr "all");
   mkSlice "tip" (1, 0, 0)%R (1, 0, 0)%R (ZList [0])].

(** A slicer that knows one slice file and cuts one point out of each
    active zone *)
Definition sample_slicer : Slicer := {|
  Config := list SliceDef;
  load_module := fun path =>
    if String.eqb path "slices.py" then Ok sample_slices
    else Raise (RuntimeError path);
  config_slices := fun config => Ok config;
  extract_slice := fun _ _ zones _ =>
    Ok (mkZone "Slice" 1 [length zones] true, fun _ => repeat (Num 0) (length zones))
|}.

(** * Properties *)

(** ** Results and the session monad *)

Lemma rbind_ok {A B} (r : Result A) (k : A -> Result B) (b : B) :
  rbind r k = Ok b -> exists a, r = Ok a /\ k a = Ok b.
Proof.
  destruct r as [a|e]; simpl; intros H.
  - exists a; split; [reflexivity | exact H].
  - discriminate H.
Qed.

Lemma py_assert_ok (cond : bool) (msg : Result string) :
  py_assert cond msg = Ok tt -> cond = true.
Proof.
  unfold py_assert. destruct cond; [reflexivity|].
  destruct msg; simpl; discriminate.
Qed.

Lemma py_assert_true (msg : Result string) : py_assert true msg = Ok tt.
Proof. reflexivity. Qed.

Lemma bind_ok {A B} (m : M A) (k : A -> M B) (w w' : World) (a : A) :
  m w = (Ok a, w') -> bind m k w = k a w'.
Proof. intros H. unfold bind. rewrite H. reflexivity. Qed.

Lemma bind_raise {A B} (m : M A) (k : A -> M B) (w w' : World) (e : exn) :
  m w = (Raise e, w') -> bind m k w = (Raise e, w').
Proof. intros H. unfold bind. rewrite H. reflexivity. Qed.

Lemma lift_run {A} (r : Result A) (w : World) : lift r w = (r, w).
Proof. reflexivity. Qed.

Lemma load_tecplot_run (path : string) (frame : nat) (w : World) (ds : Dataset) :
  grid_store w path = Some ds -> load_tecplot path frame w = (Ok ds, w).
Proof. intros H. unfold load_tecplot. rewrite H. reflexivity. Qed.

(** One statement of a body that returns: rewrite with its run. *)
Ltac run_ok H := erewrite bind_ok by (first [exact H | rewrite lift_run, H; reflexivity]).
Ltac run_load H := erewrite bind_ok by (apply load_tecplot_run; exact H).

(** ** Entity selection *)

Section SelectorFacts.
Context {tp : Bindings}.

Lemma dict_set_not_nil {V} (d : dict V) k v : dict_set d k v <> [].
Proof.
  destruct d as [|[k' v'] d']; simpl; [discriminate|].
  destruct (String.eqb k' k); discriminate.
Qed.

Lemma record_matches_nil (found : list Entity) (m : dict Entity) :
  fold_left (fun m v => dict_set m (name v) v) found m = [] <->
  found = [] /\ m = [].
Proof.
  revert m. induction found as [|v found IH]; intros m; simpl.
  - split; [intros ->; auto | intros [_ ->]; reflexivity].
  - rewrite IH. split.
    + intros [_ H]. exfalso. exact (dict_set_not_nil _ _ _ H).
    + intros [H _]. discriminate H.
Qed.

Lemma collect_from_nil (cat : list Entity) (ps : list string) (m : dict Entity) :
  fold_left
    (fun matches p =>
       fold_left (fun m v => dict_set m (name v) v)
                 (filter (fun e => fnmatch (name e) p) cat) matches)
    ps m = [] <->
  m = [] /\ forall p, In p ps -> filter (fun e => fnmatch (name e) p) cat = [].
Proof.
  revert m. induction ps as [|p ps IH]; intros m; simpl.
  - split; [intros ->; split; [reflexivity | intros p []] | intros [-> _]; reflexivity].
  - rewrite IH, record_matches_nil. split.
    + intros [[Hp ->] Hps]. split; [reflexivity|].
      intros q [<-|Hq]; [exact Hp | exact (Hps q Hq)].
    + intros [-> H]. split; [split; [apply H; left; reflexivity | reflexivity]|].
      intros q Hq. apply H. right. exact Hq.
Qed.

Lemma collect_matches_nil (cat : list Entity) (ps : list string) :
  collect_matches cat ps = [] <->
  forall p, In p ps -> filter (fun e => fnmatch (name e) p) cat = [].
Proof.
  unfold collect_matches. rewrite collect_from_nil. split.
  - intros [_ H]. exact H.
  - intros H. split; [reflexivity | exact H].
Qed.

Lemma filter_nil_iff {A} (f : A -> bool) (l : list A) :
  filter f l = [] <-> forall x, In x l -> f x = false.
Proof.
  induction l as [|a l IH]; simpl.
  - split; [intros _ x [] | reflexivity].
  - destruct (f a) eqn:Hfa.
    + split; [discriminate|]. intros H.
      specialize (H a (or_introl eq_refl)). congruence.
    + rewrite IH. split.
      * intros H x [<-|Hx]; [exact Hfa | exact (H x Hx)].
      * intros H x Hx. apply H. right. exact Hx.
Qed.

Lemma collect_matches_no_match (cat : list Entity) (ps : list string) :
  collect_matches cat ps = [] <-> no_match cat ps.
Proof.
  rewrite collect_matches_nil. unfold no_match. split.
  - intros H e p He Hp. specialize (H p Hp).
    rewrite filter_nil_iff in H. exact (H e He).
  - intros H p Hp. apply filter_nil_iff. intros e He. exact (H e p He Hp).
Qed.

(** A selection that returns never returns the empty list, whatever the
    form of the patterns. *)
Lemma select_never_empty kind cat patterns result :
  select kind cat patterns = Ok result -> result <> [].
Proof.
  unfold select. intros H.
  apply rbind_ok in H. destruct H as [r [_ H]].
  apply rbind_ok in H. destruct H as [[] [Ha H]].
  injection H as <-. apply py_assert_ok in Ha.
  destruct r; [discriminate Ha | discriminate].
Qed.

(** For a non-empty list of patterns, the selection raises the assertion
    error that names the patterns exactly when nothing matches, and
    returns otherwise. *)
Lemma select_list_no_match_iff kind cat p ps :
  select kind cat (PList (p :: ps)) =
    Raise (AssertionError
             ("No " ++ kind ++ " in dataset matching " ++ str_join " " (p :: ps))%string)
  <-> no_match cat (p :: ps).
Proof.
  rewrite <- collect_matches_no_match.
  unfold select. cbn [py_not isinstance_str orb rbind].
  unfold dict_values.
  destruct (collect_matches cat (p :: ps)) as [|kv d] eqn:Hc.
  - cbn. split; reflexivity.
  - cbn. split; discriminate.
Qed.

Lemma select_list_match kind cat p ps :
  ~ no_match cat (p :: ps) ->
  exists result, select kind cat (PList (p :: ps)) = Ok result /\ result <> [].
Proof.
  rewrite <- collect_matches_no_match. intros Hne.
  unfold select. cbn [py_not isinstance_str orb rbind].
  unfold dict_values.
  destruct (collect_matches cat (p :: ps)) as [|kv d] eqn:Hc.
  - exfalso. apply Hne. reflexivity.
  - cbn. eexists. split; [reflexivity | discriminate].
Qed.

(** C5 (defect in the message of the failed assertion).  With a bare
    string that matches nothing, the message of the assertion error holds
    the characters of the pattern separated by blanks and not the pattern;
    with [None] on an empty catalog the failure is a [TypeError] raised
    while the message is built. *)
Theorem select_message_of_bare_patterns kind cat s :
  filter (fun e => fnmatch (name e) s) cat = [] ->
  select kind cat (PStr s) =
    Raise (AssertionError
             ("No " ++ kind ++ " in dataset matching "
              ++ str_join " " (str_chars s))%string)
  /\ select kind [] PNone = Raise (TypeError "can only join an iterable").
Proof.
  intros Hf. split.
  - unfold select. cbn [isinstance_str]. rewrite orb_true_r.
    cbn [catalog_match rbind]. rewrite Hf. reflexivity.
  - reflexivity.
Qed.

End SelectorFacts.

Lemma select_message_of_bare_patterns_witness :
  filter (fun e => @fnmatch literal_bindings (name e) "q*")
         [mkEntity "x" 0; mkEntity "y" 1] = []
  /\ @select literal_bindings "variables" [mkEntity "x" 0; mkEntity "y" 1] (PStr "q*")
     = Raise (AssertionError "No variables in dataset matching q *")
  /\ @select literal_bindings "variables" [] PNone
     = Raise (TypeError "can only join an iterable").
Proof.
  split; [reflexivity|].
  exact (@select_message_of_bare_patterns literal_bindings "variables"
           [mkEntity "x" 0; mkEntity "y" 1] "q*" eq_refl).
Defined.

(** ** The temporary frame *)

Lemma add_frame_run (w : World) :
  add_frame w = (Ok (next_frame w), with_new_frame w).
Proof. reflexivity. Qed.

(** When the body returns, the frame is deleted. *)
Lemma temp_frame_deleted_on_return {B} (body : nat -> M B) (w w2 : World) (b : B) :
  body (next_frame w) (with_new_frame w) = (Ok b, w2) ->
  py_with temp_frame body w = (Ok b, snd (delete_frame (next_frame w) w2)).
Proof.
  intros H. unfold py_with. cbn [before_yield after_yield temp_frame].
  rewrite add_frame_run, H. reflexivity.
Qed.

(** C3 (defect of [temp_frame]).  When the body of the [with] statement
    raises, the session is left as the body left it: the statement after
    the [yield] is not run, and the frame stays on the page. *)
Theorem temp_frame_kept_on_exception {B} (body : nat -> M B) (w w2 : World) (e : exn) :
  body (next_frame w) (with_new_frame w) = (Raise e, w2) ->
  py_with temp_frame body w = (Raise e, w2).
Proof.
  intros H. unfold py_with. cbn [before_yield after_yield temp_frame].
  rewrite add_frame_run, H. reflexivity.
Qed.

Lemma temp_frame_kept_on_exception_witness :
  let w := session [("in.plt", stats_sample)] in
  let w2 := with_new_frame w in
  let e := AssertionError "No zones in dataset matching n o n e" in
  @extract literal_bindings "in.plt" "out.plt" (PStr "none") PNone w = (Raise e, w2)
  /\ page_frames w = [] /\ page_frames w2 = [0].
Proof.
  split; [|split; reflexivity].
  apply (@temp_frame_kept_on_exception unit
           (fun frame =>
              (ds <- load_tecplot "in.plt" frame ;;
               zones <- lift (@get_zones literal_bindings ds (PStr "none")) ;;
               variables <- lift (@get_variables literal_bindings ds PNone) ;;
               write_dataset "out.plt" ds
                 (Some (map index variables)) (Some (map index zones)))%M)
           (session [("in.plt", stats_sample)])).
  reflexivity.
Defined.

(** ** Statistics *)

(** C1 (defect of [compute_statistics]).  Once the data file is loaded
    the function reads the unbound name [ds]: it raises [NameError] for
    every choice of patterns and returns no statistics; the temporary
    frame stays on the page. *)
Theorem compute_statistics_name_error {tp : Bindings}
  (datafile_in : string) (variable_patterns zone_patterns : Patterns)
  (w : World) (dataset : Dataset) :
  grid_store w datafile_in = Some dataset ->
  compute_statistics datafile_in variable_patterns zone_patterns w
  = (Raise (NameError "name 'ds' is not defined"), with_new_frame w).
Proof.
  intros Hload. unfold compute_statistics.
  apply temp_frame_kept_on_exception.
  unfold bind, load_tecplot. cbn [grid_store with_new_frame].
  rewrite Hload. reflexivity.
Qed.

Lemma compute_statistics_name_error_witness :
  grid_store (session [("in.plt", stats_sample)]) "in.plt" = Some stats_sample
  /\ @compute_statistics literal_bindings "in.plt" PNone PNone
       (session [("in.plt", stats_sample)])
     = (Raise (NameError "name 'ds' is not defined"),
        with_new_frame (session [("in.plt", stats_sample)])).
Proof.
  split; [reflexivity|].
  apply (@compute_statistics_name_error literal_bindings "in.plt" PNone PNone
           (session [("in.plt", stats_sample)]) stats_sample).
  reflexivity.
Defined.

(** What the two loops compute on the values 1, 2, 3 when they are given
    the selected entities: max 3, min 1, mean 2. *)
Lemma variable_statistics_sample :
  variable_statistics stats_sample [mkEntity "p" 0] [mkEntity "zone1" 0]
  = Ok [("p", [mkStats "zone1" (Num 3) (Num 1) (Num 2)])].
Proof.
  unfold variable_statistics, zone_statistics. cbn.
  assert (Hmax : Rmax (Rmax 1 2) 3 = 3%R).
  { unfold Rmax. repeat (destruct (Rle_dec _ _)); lra. }
  assert (Hmin : Rmin (Rmin 1 2) 3 = 1%R).
  { unfold Rmin. repeat (destruct (Rle_dec _ _)); lra. }
  assert (Hmean : ((0 + 1 + 2 + 3) / (1 + 1 + 1) = 2)%R) by lra.
  rewrite Hmax, Hmin, Hmean. reflexivity.
Qed.

(** ** Differencing: the failure on a count mismatch *)

Lemma add_log_nil (w : World) : add_log w [] = w.
Proof. destruct w. unfold add_log. cbn. rewrite app_nil_r. reflexivity. Qed.

Lemma add_log_app (w : World) (a b : list LogRecord) :
  add_log (add_log w a) b = add_log w (a ++ b).
Proof. unfold add_log. cbn. rewrite app_assoc. reflexivity. Qed.

Lemma emit_run lvl fmt args w :
  emit lvl fmt args w
  = (Ok tt, add_log w (if writable fmt args then [mkLog lvl fmt args] else [])).
Proof.
  unfold emit. destruct (writable fmt args); [reflexivity|].
  rewrite add_log_nil. reflexivity.
Qed.

Lemma warn_name_mismatch_run what i pairs w :
  exists records, warn_name_mismatch what i pairs w = (Ok tt, add_log w records).
Proof.
  revert i w. induction pairs as [|[enew eold] pairs IH]; intros i w.
  - exists []. rewrite add_log_nil. reflexivity.
  - cbn [warn_name_mismatch]. unfold bind.
    destruct (String.eqb (name enew) (name eold)).
    + cbn. apply IH.
    + rewrite emit_run.
      destruct (IH (S i) (add_log w
         (if writable (what ++ " pair %d has mismatching names: %s != %s")%string
                      [str_of_nat i; name enew; name eold]
          then [mkLog WARNING (what ++ " pair %d has mismatching names: %s != %s")%string
                      [str_of_nat i; name enew; name eold]]
          else []))) as [records Hr].
      rewrite Hr, add_log_app. eexists. reflexivity.
Qed.

(** C4 (defect of the count check).  When the two selected variable
    lists differ in length, building the message reads the unbound name
    [var_pattern]: the call raises [NameError], no [RuntimeError] with the
    descriptive message is raised and nothing is logged. *)
Theorem difference_variable_count_mismatch {tp : Bindings} {np : Numpy}
  (datafile_new datafile_old datafile_out : string)
  (zone_patterns var_patterns : Patterns) (nskip : Z) (w : World)
  (data_new data_old : Dataset) (var_new var_old : list Entity) :
  grid_store w datafile_new = Some data_new ->
  grid_store w datafile_old = Some data_old ->
  get_variables data_new var_patterns = Ok var_new ->
  get_variables data_old var_patterns = Ok var_old ->
  length var_new <> length var_old ->
  difference_datasets datafile_new datafile_old datafile_out
    zone_patterns var_patterns nskip w
  = (Raise (NameError "name 'var_pattern' is not defined"),
     with_new_frame (with_new_frame w)).
Proof.
  intros Hnew Hold Hvn Hvo Hlen. unfold difference_datasets.
  apply temp_frame_kept_on_exception.
  apply temp_frame_kept_on_exception.
  run_load Hnew. run_load Hold. run_ok Hvn. run_ok Hvo.
  apply Nat.eqb_neq in Hlen. rewrite Hlen. reflexivity.
Qed.

(** The same defect on the zone lists: the name read is [zone_pattern]. *)
Lemma difference_zone_count_mismatch {tp : Bindings} {np : Numpy}
  (datafile_new datafile_old datafile_out : string)
  (zone_patterns var_patterns : Patterns) (nskip : Z) (w : World)
  (data_new data_old : Dataset) (var_new var_old zone_new zone_old : list Entity) :
  grid_store w datafile_new = Some data_new ->
  grid_store w datafile_old = Some data_old ->
  get_variables data_new var_patterns = Ok var_new ->
  get_variables data_old var_patterns = Ok var_old ->
  length var_new = length var_old ->
  get_zones data_new zone_patterns = Ok zone_new ->
  get_zones data_old zone_patterns = Ok zone_old ->
  length zone_new <> length zone_old ->
  exists warnings,
    difference_datasets datafile_new datafile_old datafile_out
      zone_patterns var_patterns nskip w
    = (Raise (NameError "name 'zone_pattern' is not defined"),
       add_log (with_new_frame (with_new_frame w)) warnings).
Proof.
  intros Hnew Hold Hvn Hvo Hlen Hzn Hzo Hzlen.
  destruct (warn_name_mismatch_run "Variable" 0 (combine var_new var_old)
              (with_new_frame (with_new_frame w))) as [warnings Hw].
  exists warnings. unfold difference_datasets.
  apply temp_frame_kept_on_exception.
  apply temp_frame_kept_on_exception.
  run_load Hnew. run_load Hold. run_ok Hvn. run_ok Hvo.
  apply Nat.eqb_eq in Hlen. rewrite Hlen. cbn [negb].
  erewrite bind_ok by reflexivity.
  run_ok Hw. run_ok Hzn. run_ok Hzo.
  apply Nat.eqb_neq in Hzlen. rewrite Hzlen. reflexivity.
Qed.

Lemma difference_variable_count_mismatch_witness :
  let w := session [("new.plt", pair_sample); ("old.plt", stats_sample)] in
  grid_store w "new.plt" = Some pair_sample
  /\ grid_store w "old.plt" = Some stats_sample
  /\ @get_variables literal_bindings pair_sample PNone
     = Ok [mkEntity "p" 0; mkEntity "q" 1]
  /\ @get_variables literal_bindings stats_sample PNone = Ok [mkEntity "p" 0]
  /\ 2 <> 1
  /\ @difference_datasets literal_bindings ideal_numpy "new.plt" "old.plt" "out.plt"
       PNone PNone 3%Z w
     = (Raise (NameError "name 'var_pattern' is not defined"),
        with_new_frame (with_new_frame w)).
Proof.
  repeat (split; [first [reflexivity | discriminate]|]).
  apply (@difference_variable_count_mismatch literal_bindings ideal_numpy
           "new.plt" "old.plt" "out.plt" PNone PNone 3%Z
           (session [("new.plt", pair_sample); ("old.plt", stats_sample)])
           pair_sample stats_sample
           [mkEntity "p" 0; mkEntity "q" 1] [mkEntity "p" 0]);
    first [reflexivity | discriminate].
Defined.

(** ** Revolution: the default radial coordinate *)

Lemma check_inputs_default_radial (datafile_in : string) (data_in : Dataset)
  (vector_vars : dict (string * string)) :
  length (variable_names data_in) < 2 ->
  check_inputs datafile_in data_in RNone vector_vars
  = Raise (IndexError "list index out of range").
Proof.
  intros Hlen. unfold check_inputs.
  destruct (variable_names data_in) as [|a [|b rest]].
  - reflexivity.
  - reflexivity.
  - cbn [length] in Hlen. lia.
Qed.

Lemma revolve_default_radial_run {tp : Bindings} {acc : Accessors} {np : Numpy}
  (datafile_in datafile_out : string) (planes : Z) (angle : float)
  (vector_vars : VectorVars) (w : World) (data_in : Dataset) :
  grid_store w datafile_in = Some data_in ->
  length (variable_names data_in) < 2 ->
  revolve_dataset datafile_in datafile_out RNone planes angle vector_vars w
  = (Raise (IndexError "list index out of range"),
     with_new_frame (with_new_frame w)).
Proof.
  intros Hload Hlen. unfold revolve_dataset. cbv zeta.
  apply temp_frame_kept_on_exception.
  apply temp_frame_kept_on_exception.
  run_load Hload.
  apply bind_raise.
  rewrite lift_run, (check_inputs_default_radial datafile_in data_in _ Hlen).
  reflexivity.
Qed.

(** C10.  With [radial_coord] omitted and fewer than two input
    variables, reading [vars_in[1]] raises [IndexError]; this happens
    before the output dataset is created, and nothing is written. *)
Theorem revolve_default_radial_index_error {tp : Bindings} {acc : Accessors} {np : Numpy}
  (datafile_in datafile_out : string) (planes : Z) (angle : float)
  (vector_vars : VectorVars) (w : World) (data_in : Dataset) :
  grid_store w datafile_in = Some data_in ->
  length (variable_names data_in) < 2 ->
  let run := revolve_dataset datafile_in datafile_out RNone planes angle vector_vars w in
  fst run = Raise (IndexError "list index out of range")
  /\ created (snd run) = created w
  /\ saved (snd run) = saved w.
Proof.
  intros Hload Hlen run. subst run.
  rewrite (revolve_default_radial_run datafile_in datafile_out planes angle
             vector_vars w data_in Hload Hlen).
  cbn. auto.
Qed.

Lemma revolve_default_radial_index_error_witness :
  let w := session [("in.plt", stats_sample)] in
  grid_store w "in.plt" = Some stats_sample
  /\ length (variable_names stats_sample) < 2
  /\ fst (@revolve_dataset literal_bindings literal_accessors ideal_numpy
            "in.plt" "out.plt" RNone 25 (Num 180) VNone w)
     = Raise (IndexError "list index out of range")
  /\ created (snd (@revolve_dataset literal_bindings literal_accessors ideal_numpy
                     "in.plt" "out.plt" RNone 25 (Num 180) VNone w)) = []
  /\ saved (snd (@revolve_dataset literal_bindings literal_accessors ideal_numpy
                   "in.plt" "out.plt" RNone 25 (Num 180) VNone w)) = [].
Proof.
  split; [reflexivity|]. split; [cbn; lia|].
  apply (@revolve_default_radial_index_error literal_bindings literal_accessors ideal_numpy
           "in.plt" "out.plt" 25 (Num 180) VNone
           (session [("in.plt", stats_sample)]) stats_sample);
    [reflexivity | cbn; lia].
Defined.

(** ** Revolution: running [revolve_dataset] *)

Lemma bind_ok_inv {A B} (m : M A) (k : A -> M B) (w w' : World) (b : B) :
  bind m k w = (Ok b, w') ->
  exists a w1, m w = (Ok a, w1) /\ k a w1 = (Ok b, w').
Proof.
  unfold bind. destruct (m w) as [[a|e] w1]; intros H.
  - exists a, w1. split; [reflexivity | exact H].
  - discriminate H.
Qed.

Lemma py_with_temp_frame_ok_inv {B} (body : nat -> M B) (w w' : World) (b : B) :
  py_with temp_frame body w = (Ok b, w') ->
  exists w2, body (next_frame w) (with_new_frame w) = (Ok b, w2)
             /\ w' = snd (delete_frame (next_frame w) w2).
Proof.
  unfold py_with. cbn [before_yield after_yield temp_frame].
  rewrite add_frame_run.
  destruct (body (next_frame w) (with_new_frame w)) as [[b'|e] w2]; intros H.
  - cbn in H. injection H as -> <-. exists w2. split; reflexivity.
  - discriminate H.
Qed.

Lemma lift_ok_inv {A} (r : Result A) (w w' : World) (a : A) :
  lift r w = (Ok a, w') -> r = Ok a /\ w' = w.
Proof. unfold lift. intros H. injection H as -> <-. split; reflexivity. Qed.

Lemma load_tecplot_ok_inv path frame w w' ds :
  load_tecplot path frame w = (Ok ds, w') -> grid_store w path = Some ds /\ w' = w.
Proof.
  unfold load_tecplot. destruct (grid_store w path) as [d|]; intros H.
  - injection H as -> <-. split; reflexivity.
  - discriminate H.
Qed.

(** A run that returns went through the load, the checks and the
    construction, and left one more file written. *)
Lemma revolve_dataset_ok_inv {tp : Bindings} {acc : Accessors} {np : Numpy}
  datafile_in datafile_out radial_coord planes angle
  vector_vars w w' :
  revolve_dataset datafile_in datafile_out radial_coord planes angle vector_vars w
  = (Ok tt, w') ->
  exists data_in vvd data_out,
    grid_store w datafile_in = Some data_in
    /\ check_inputs datafile_in data_in radial_coord (vector_vars_dict vector_vars)
       = Ok vvd
    /\ build_output data_in vvd planes angle = Ok data_out
    /\ w' = after_revolve w datafile_out data_out.
Proof.
  unfold revolve_dataset. cbv zeta. intros H.
  apply py_with_temp_frame_ok_inv in H. destruct H as [w2 [H ->]].
  apply py_with_temp_frame_ok_inv in H. destruct H as [w3 [H ->]].
  apply bind_ok_inv in H. destruct H as [data_in [w4 [Hload H]]].
  apply load_tecplot_ok_inv in Hload. destruct Hload as [Hload ->].
  apply bind_ok_inv in H. destruct H as [vvd [w5 [Hcheck H]]].
  apply lift_ok_inv in Hcheck. destruct Hcheck as [Hcheck ->].
  apply bind_ok_inv in H. destruct H as [[] [w6 [Hcreate H]]].
  apply bind_ok_inv in H. destruct H as [data_out [w7 [Hbuild H]]].
  apply lift_ok_inv in Hbuild. destruct Hbuild as [Hbuild ->].
  unfold create_dataset in Hcreate. injection Hcreate as <-.
  unfold write_dataset in H. injection H as <-.
  exists data_in, vvd, data_out. repeat split; assumption.
Qed.

(** Conversely, a loadable file that passes the checks and whose zones
    can be built is revolved and written. *)
Lemma revolve_dataset_ok {tp : Bindings} {acc : Accessors} {np : Numpy}
  datafile_in datafile_out radial_coord planes angle
  vector_vars w data_in vvd data_out :
  grid_store w datafile_in = Some data_in ->
  check_inputs datafile_in data_in radial_coord (vector_vars_dict vector_vars)
  = Ok vvd ->
  build_output data_in vvd planes angle = Ok data_out ->
  revolve_dataset datafile_in datafile_out radial_coord planes angle vector_vars w
  = (Ok tt, after_revolve w datafile_out data_out).
Proof.
  intros Hload Hcheck Hbuild. unfold revolve_dataset. cbv zeta.
  erewrite temp_frame_deleted_on_return.
  2: { erewrite temp_frame_deleted_on_return.
       2: { run_load Hload. run_ok Hcheck.
            erewrite bind_ok by reflexivity.
            run_ok Hbuild. reflexivity. }
       reflexivity. }
  reflexivity.
Qed.

(** ** Revolution: the variable list of the output *)

Lemma output_variables_from (all : list string) (vector_vars : dict (string * string))
  (vars out : list string) :
  fold_left
    (fun out v =>
       let out := out ++ [v] in
       match dict_get vector_vars v with
       | Some (cos_name, sin_name) =>
           fold_left
             (fun out component =>
                if negb (str_in component all) then out ++ [component] else out)
             [cos_name; sin_name] out
       | None => out
       end)
    vars out
  = out ++ flat_map (fun v => v :: new_components all vector_vars v) vars.
Proof.
  revert out. induction vars as [|v vars IH]; intros out.
  - cbn. rewrite app_nil_r. reflexivity.
  - cbn [fold_left flat_map]. rewrite IH. unfold new_components.
    destruct (dict_get vector_vars v) as [[c s]|].
    + cbn [fold_left filter].
      destruct (negb (str_in c all)); destruct (negb (str_in s all));
        cbn [app]; repeat rewrite <- app_assoc; reflexivity.
    + cbn [app]. rewrite <- app_assoc. reflexivity.
Qed.

(** The loop of lines 454 to 461 builds the list the description asks
    for. *)
Lemma output_variables_expected vars_in vector_vars :
  output_variables vars_in vector_vars = expected_variables vars_in vector_vars.
Proof.
  unfold output_variables, expected_variables.
  rewrite output_variables_from. reflexivity.
Qed.

Lemma build_output_variables {tp : Bindings} {acc : Accessors} {np : Numpy}
  data_in vvd planes angle data_out :
  build_output data_in vvd planes angle = Ok data_out ->
  variable_names data_out = expected_variables (variable_names data_in) vvd.
Proof.
  unfold build_output. cbv zeta. intros H.
  apply rbind_ok in H. destruct H as [t [_ H]].
  apply rbind_ok in H. destruct H as [zones [_ H]].
  injection H as <-. cbn [assemble variable_names].
  apply output_variables_expected.
Qed.

(** ** Revolution: writing value blocks *)

Lemma plane_block_empty (k : nat) (arr : list float) : plane_block 0 k arr = [].
Proof. reflexivity. Qed.

Lemma set_slice_inv (arr : list float) (k npt : nat) (blk arr' : list float) :
  set_slice arr (k * npt) ((k + 1) * npt) blk = Ok arr' ->
  length blk = npt ->
  arr' = firstn (k * npt) arr ++ blk ++ skipn ((k + 1) * npt) arr
  /\ (npt = 0 \/ (k + 1) * npt <= length arr).
Proof.
  unfold set_slice. intros H Hlen.
  destruct (Nat.eqb_spec (length blk)
              (Nat.min ((k + 1) * npt) (length arr) - Nat.min (k * npt) (length arr)))
    as [Heq|Hne]; [|discriminate H].
  injection H as <-.
  destruct (Nat.eq_dec npt 0) as [Hz|Hnz].
  - rewrite Hz, !Nat.mul_0_r. cbn [Nat.min]. split; [reflexivity | left; reflexivity].
  - assert (Hfit : (k + 1) * npt <= length arr) by lia.
    rewrite (Nat.min_l (k * npt)) by lia.
    rewrite (Nat.min_l ((k + 1) * npt)) by lia.
    split; [reflexivity | right; exact Hfit].
Qed.

Lemma set_slice_fits (arr : list float) (k npt : nat) (blk : list float) :
  (k + 1) * npt <= length arr ->
  length blk = npt ->
  set_slice arr (k * npt) ((k + 1) * npt) blk
  = Ok (firstn (k * npt) arr ++ blk ++ skipn ((k + 1) * npt) arr).
Proof.
  intros Hfit Hlen. unfold set_slice.
  rewrite (Nat.min_l (k * npt)) by lia.
  rewrite (Nat.min_l ((k + 1) * npt)) by lia.
  replace ((k + 1) * npt - k * npt) with npt by lia.
  rewrite Hlen, Nat.eqb_refl. reflexivity.
Qed.

Lemma spliced_length (arr blk : list float) (k npt : nat) :
  (k + 1) * npt <= length arr ->
  length blk = npt ->
  length (firstn (k * npt) arr ++ blk ++ skipn ((k + 1) * npt) arr) = length arr.
Proof.
  intros Hfit Hlen.
  rewrite !length_app, length_firstn, length_skipn. lia.
Qed.

Lemma plane_block_spliced_same (arr blk : list float) (k npt : nat) :
  (k + 1) * npt <= length arr ->
  length blk = npt ->
  plane_block npt k (firstn (k * npt) arr ++ blk ++ skipn ((k + 1) * npt) arr) = blk.
Proof.
  intros Hfit Hlen. unfold plane_block.
  rewrite skipn_app, length_firstn.
  rewrite (Nat.min_l (k * npt)) by lia.
  rewrite skipn_all2 by (rewrite length_firstn; lia).
  rewrite Nat.sub_diag. cbn [skipn app].
  rewrite firstn_app, Hlen, Nat.sub_diag. cbn [firstn].
  rewrite app_nil_r. apply firstn_all2. lia.
Qed.

Lemma plane_block_spliced_other (arr blk : list float) (k k' npt : nat) :
  (k + 1) * npt <= length arr ->
  length blk = npt ->
  k' <> k ->
  plane_block npt k' (firstn (k * npt) arr ++ blk ++ skipn ((k + 1) * npt) arr)
  = plane_block npt k' arr.
Proof.
  intros Hfit Hlen Hk. unfold plane_block.
  destruct (Nat.lt_ge_cases k' k) as [Hlt|Hge].
  - assert (Hb : k' * npt + npt <= k * npt) by nia.
    rewrite skipn_app, length_firstn.
    rewrite (Nat.min_l (k * npt)) by lia.
    replace (k' * npt - k * npt) with 0 by lia. cbn [skipn].
    rewrite firstn_app.
    rewrite length_skipn, length_firstn, (Nat.min_l (k * npt)) by lia.
    replace (npt - (k * npt - k' * npt)) with 0 by lia. cbn [firstn].
    rewrite app_nil_r.
    rewrite skipn_firstn_comm, firstn_firstn.
    rewrite Nat.min_l by lia. reflexivity.
  - assert (Hb : (k + 1) * npt <= k' * npt) by nia.
    rewrite app_assoc, skipn_app.
    rewrite length_app, length_firstn, (Nat.min_l (k * npt)) by lia.
    rewrite skipn_all2 by (rewrite length_app, length_firstn; lia).
    cbn [app]. rewrite skipn_skipn.
    replace (k' * npt - (k * npt + length blk) + (k + 1) * npt) with (k' * npt) by lia.
    reflexivity.
Qed.

Lemma length_replace_nth {A} (i : nat) (x : A) (l : list A) :
  length (replace_nth i x l) = length l.
Proof.
  revert i. induction l as [|y l IH]; intros [|i]; cbn; try reflexivity.
  rewrite IH. reflexivity.
Qed.

Lemma nth_replace_nth {A} (i j : nat) (x d : A) (l : list A) :
  i < length l ->
  nth j (replace_nth i x l) d = if Nat.eqb j i then x else nth j l d.
Proof.
  revert i j. induction l as [|y l IH]; intros i j Hi; cbn in Hi; [lia|].
  destruct i as [|i]; destruct j as [|j]; cbn; try reflexivity.
  apply IH. lia.
Qed.

Lemma write_block_inv (i k npt : nat) (blk : list float) (zd zd' : ZoneData) :
  write_block i k npt blk zd = Ok zd' ->
  length blk = npt ->
  i < length zd ->
  length zd' = length zd
  /\ (forall j, length (nth j zd' []) = length (nth j zd []))
  /\ (forall j k', block_at npt zd' j k'
                   = if Nat.eqb j i && Nat.eqb k' k then blk
                     else block_at npt zd j k').
Proof.
  unfold write_block. intros H Hlen Hi.
  apply rbind_ok in H. destruct H as [arr [Hset H]]. injection H as <-.
  apply set_slice_inv in Hset; [|exact Hlen].
  destruct Hset as [-> Hfit].
  split; [apply length_replace_nth|].
  unfold block_at.
  destruct Hfit as [Hz|Hfit].
  - assert (Hblk : blk = []) by (apply length_zero_iff_nil; lia).
    rewrite Hz, !Nat.mul_0_r, Hblk. cbn [firstn skipn app]. split.
    + intros j. rewrite nth_replace_nth by exact Hi.
      destruct (Nat.eqb_spec j i) as [->|]; reflexivity.
    + intros j k'. rewrite !plane_block_empty.
      destruct (Nat.eqb j i && Nat.eqb k' k); reflexivity.
  - split.
    + intros j. rewrite nth_replace_nth by exact Hi.
      destruct (Nat.eqb_spec j i) as [->|]; [|reflexivity].
      apply spliced_length; assumption.
    + intros j k'. rewrite nth_replace_nth by exact Hi.
      destruct (Nat.eqb_spec j i) as [->|]; cbn [andb]; [|reflexivity].
      destruct (Nat.eqb_spec k' k) as [->|Hk].
      * apply plane_block_spliced_same; assumption.
      * apply plane_block_spliced_other; assumption.
Qed.

Lemma write_block_fits (i k npt : nat) (blk : list float) (zd : ZoneData) :
  (k + 1) * npt <= length (nth i zd []) ->
  length blk = npt ->
  exists zd', write_block i k npt blk zd = Ok zd'.
Proof.
  intros Hfit Hlen. unfold write_block.
  rewrite (set_slice_fits _ _ _ _ Hfit Hlen). cbn. eexists. reflexivity.
Qed.

(** The loop [for k in range(planes): vals_out[k*npt:(k+1)*npt] = vals_in[:]],
    started at plane [a] *)
Lemma fill_planes_inv (i npt : nat) (blk : list float) (n a : nat) (zd zd' : ZoneData) :
  rfor_each (seq a n) (fun zdata k => write_block i k npt blk zdata) zd = Ok zd' ->
  length blk = npt ->
  i < length zd ->
  length zd' = length zd
  /\ (forall j, length (nth j zd' []) = length (nth j zd []))
  /\ (forall j k', block_at npt zd' j k'
                   = if Nat.eqb j i && (Nat.leb a k' && Nat.ltb k' (a + n)) then blk
                     else block_at npt zd j k').
Proof.
  revert a zd. induction n as [|n IH]; intros a zd H Hlen Hi.
  - cbn in H. injection H as <-. split; [reflexivity|]. split; [reflexivity|].
    intros j k'.
    replace (Nat.leb a k' && Nat.ltb k' (a + 0)) with false.
    + rewrite andb_false_r. reflexivity.
    + symmetry. destruct (Nat.leb_spec a k'); destruct (Nat.ltb_spec k' (a + 0));
        cbn; try reflexivity; lia.
  - cbn [seq rfor_each] in H.
    apply rbind_ok in H. destruct H as [zd1 [Hw H]].
    apply write_block_inv in Hw; [|exact Hlen|exact Hi].
    destruct Hw as [Hl1 [Ha1 Hb1]].
    apply IH in H; [|exact Hlen|lia].
    destruct H as [Hl2 [Ha2 Hb2]].
    split; [lia|]. split; [intros j; rewrite Ha2; apply Ha1|].
    intros j k'. rewrite Hb2, Hb1.
    destruct (Nat.eqb_spec j i) as [->|]; cbn [andb]; [|reflexivity].
    destruct (Nat.leb_spec (S a) k'); destruct (Nat.ltb_spec k' (S a + n));
      destruct (Nat.eqb_spec k' a); destruct (Nat.leb_spec a k');
      destruct (Nat.ltb_spec k' (a + S n)); cbn; try reflexivity; lia.
Qed.

(** The loop that writes the cosine and the sine block of each plane,
    started at plane [a] *)
Lemma fill_components_inv (iy iz npt : nat) (by_ bz : nat -> list float)
  (n a : nat) (zd zd' : ZoneData) :
  rfor_each (seq a n)
    (fun zdata k =>
       (zdata <~ write_block iy k npt (by_ k) zdata;
        write_block iz k npt (bz k) zdata)%res) zd = Ok zd' ->
  (forall k, length (by_ k) = npt) ->
  (forall k, length (bz k) = npt) ->
  iy < length zd -> iz < length zd ->
  length zd' = length zd
  /\ (forall j, length (nth j zd' []) = length (nth j zd []))
  /\ (forall j k', block_at npt zd' j k'
                   = if Nat.leb a k' && Nat.ltb k' (a + n)
                     then if Nat.eqb j iz then bz k'
                          else if Nat.eqb j iy then by_ k'
                               else block_at npt zd j k'
                     else block_at npt zd j k').
Proof.
  revert a zd. induction n as [|n IH]; intros a zd H Hy Hz Hiy Hiz.
  - cbn in H. injection H as <-. split; [reflexivity|]. split; [reflexivity|].
    intros j k'.
    destruct (Nat.leb_spec a k'); destruct (Nat.ltb_spec k' (a + 0));
      cbn; try reflexivity; lia.
  - cbn [seq rfor_each] in H.
    apply rbind_ok in H. destruct H as [zd2 [Hw H]].
    apply rbind_ok in Hw. destruct Hw as [zd1 [Hw1 Hw2]].
    apply write_block_inv in Hw1; [|apply Hy|exact Hiy].
    destruct Hw1 as [Hl1 [Ha1 Hb1]].
    apply write_block_inv in Hw2; [|apply Hz|lia].
    destruct Hw2 as [Hl2 [Ha2 Hb2]].
    apply IH in H; [|exact Hy|exact Hz|lia|lia].
    destruct H as [Hl3 [Ha3 Hb3]].
    split; [lia|]. split; [intros j; rewrite Ha3, Ha2; apply Ha1|].
    intros j k'. rewrite Hb3, Hb2, Hb1.
    destruct (Nat.leb_spec (S a) k'); destruct (Nat.ltb_spec k' (S a + n));
      destruct (Nat.eqb_spec k' a); destruct (Nat.leb_spec a k');
      destruct (Nat.ltb_spec k' (a + S n)); cbn [andb]; try lia;
      destruct (Nat.eqb_spec j iz); destruct (Nat.eqb_spec j iy);
      cbn [andb]; subst; try reflexivity; try lia.
Qed.

(** ** Revolution: one variable of one zone *)

Lemma index_of_nth_error (x : string) (names : list string) (i : nat) :
  index_of x names = Some i -> nth_error names i = Some x.
Proof.
  revert i. induction names as [|n names IH]; intros i H; cbn in H; [discriminate|].
  destruct (String.eqb_spec n x) as [->|Hne].
  - injection H as <-. reflexivity.
  - destruct (index_of x names) as [j|]; [|discriminate].
    injection H as <-. cbn. apply IH. reflexivity.
Qed.

Lemma index_of_lt (x : string) (names : list string) (i : nat) :
  index_of x names = Some i -> i < length names.
Proof.
  intros H. apply index_of_nth_error in H.
  apply nth_error_Some. congruence.
Qed.

Lemma index_of_inj (x y : string) (names : list string) (i : nat) :
  index_of x names = Some i -> index_of y names = Some i -> x = y.
Proof.
  intros Hx Hy. apply index_of_nth_error in Hx. apply index_of_nth_error in Hy.
  congruence.
Qed.

Lemma index_of_in (x : string) (names : list string) :
  In x names -> exists i, index_of x names = Some i.
Proof.
  induction names as [|n names IH]; intros H; [destruct H|].
  cbn. destruct (String.eqb_spec n x) as [->|Hne].
  - exists 0. reflexivity.
  - destruct H as [H|H]; [congruence|].
    destruct (IH H) as [i ->]. exists (S i). reflexivity.
Qed.

Lemma find_literal_from {tp : Bindings} (v : string) (names : list string) (i : nat) :
  literal v ->
  find (fun e => fnmatch (name e) v) (enumerate_from i names)
  = match index_of v names with
    | Some j => Some (mkEntity v (i + j))
    | None => None
    end.
Proof.
  intros Hlit. revert i. induction names as [|n names IH]; intros i; cbn; [reflexivity|].
  rewrite Hlit. destruct (String.eqb_spec n v) as [->|_].
  - rewrite Nat.add_0_r. reflexivity.
  - rewrite IH. destruct (index_of v names); [|reflexivity].
    f_equal. f_equal. lia.
Qed.

(** A name without wildcard is looked up as itself. *)
Lemma zone_array_literal {tp : Bindings} {acc : Accessors}
  (names : list string) (v : string) :
  literal v ->
  zone_array names v
  = match index_of v names with
    | Some i => Ok i
    | None => Raise (lookup_error v)
    end.
Proof.
  intros Hlit. unfold zone_array, first_match.
  rewrite (find_literal_from v names 0 Hlit).
  destruct (index_of v names); reflexivity.
Qed.

Lemma zone_array_ok {tp : Bindings} {acc : Accessors}
  (names : list string) (v : string) (i : nat) :
  literal v ->
  zone_array names v = Ok i -> index_of v names = Some i.
Proof.
  intros Hlit. rewrite (zone_array_literal names v Hlit).
  destruct (index_of v names); intros H;
    [injection H as ->; reflexivity | discriminate H].
Qed.

Lemma length_np_multiply {np : Numpy} (vals : list float) (c : float) :
  length (np_multiply vals c) = length vals.
Proof. unfold np_multiply. apply length_map. Qed.

(** What one turn of the variable loop leaves in the arrays of the zone:
    the input values in every plane of the array of [v], and for a
    vector-mapped [v] the cosine and sine blocks in the arrays of its
    components, the sine written last. *)
Lemma revolve_variable_inv {tp : Bindings} {acc : Accessors} {np : Numpy}
  data_in zindex out_vars vvd ct st planes npt zd v zd' :
  revolve_variable data_in zindex out_vars vvd ct st planes npt zd v = Ok zd' ->
  turn_literal vvd v ->
  length (zone_values data_in v zindex) = npt ->
  length zd = length out_vars ->
  length zd' = length zd
  /\ (forall j, length (nth j zd' []) = length (nth j zd []))
  /\ exists iv,
       index_of v out_vars = Some iv
       /\ match dict_get vvd v with
          | None =>
              forall j k,
                block_at npt zd' j k
                = if Nat.eqb j iv && Nat.ltb k planes
                  then zone_values data_in v zindex
                  else block_at npt zd j k
          | Some (vy, vz) =>
              exists iy iz,
                index_of vy out_vars = Some iy
                /\ index_of vz out_vars = Some iz
                /\ forall j k,
                     block_at npt zd' j k
                     = if Nat.ltb k planes
                       then if Nat.eqb j iz
                            then np_multiply (zone_values data_in v zindex) (nth k st NaN)
                            else if Nat.eqb j iy
                                 then np_multiply (zone_values data_in v zindex) (nth k ct NaN)
                                 else if Nat.eqb j iv
                                      then zone_values data_in v zindex
                                      else block_at npt zd j k
                       else block_at npt zd j k
          end.
Proof.
  unfold revolve_variable, zone_values. intros H [Hlit Hcomp] Hvals Hzd.
  apply rbind_ok in H. destruct H as [vin [Hvin H]].
  apply (zone_array_ok _ _ _ Hlit) in Hvin. rewrite Hvin in Hvals |- *.
  apply rbind_ok in H. destruct H as [iv [Hiv H]].
  apply (zone_array_ok _ _ _ Hlit) in Hiv.
  apply rbind_ok in H. destruct H as [zd1 [Hfill H]].
  apply fill_planes_inv in Hfill;
    [|exact Hvals|rewrite Hzd; exact (index_of_lt _ _ _ Hiv)].
  destruct Hfill as [Hl1 [Ha1 Hb1]].
  destruct (dict_get vvd v) as [[vy vz]|].
  - destruct (Hcomp vy vz eq_refl) as [Hlity Hlitz].
    apply rbind_ok in H. destruct H as [iy [Hiy H]].
    apply (zone_array_ok _ _ _ Hlity) in Hiy.
    apply rbind_ok in H. destruct H as [iz [Hiz H]].
    apply (zone_array_ok _ _ _ Hlitz) in Hiz.
    apply fill_components_inv in H;
      [|intros k; rewrite length_np_multiply; exact Hvals
       |intros k; rewrite length_np_multiply; exact Hvals
       |rewrite Hl1, Hzd; exact (index_of_lt _ _ _ Hiy)
       |rewrite Hl1, Hzd; exact (index_of_lt _ _ _ Hiz)].
    destruct H as [Hl2 [Ha2 Hb2]].
    split; [lia|]. split; [intros j; rewrite Ha2; apply Ha1|].
    exists iv. split; [exact Hiv|]. exists iy, iz. split; [exact Hiy|].
    split; [exact Hiz|].
    intros j k. rewrite Hb2, Hb1. cbn [Nat.leb Nat.add andb].
    destruct (Nat.ltb k planes); [|rewrite andb_false_r; reflexivity].
    rewrite andb_true_r. reflexivity.
  - injection H as <-. split; [exact Hl1|]. split; [exact Ha1|].
    exists iv. split; [exact Hiv|].
    intros j k. rewrite Hb1. cbn [Nat.leb Nat.add andb]. reflexivity.
Qed.

(** A turn of the variable loop leaves alone every array it does not
    write. *)
Lemma revolve_variable_untouched {tp : Bindings} {acc : Accessors} {np : Numpy}
  data_in zindex out_vars vvd ct st planes npt zd u zd' w j :
  revolve_variable data_in zindex out_vars vvd ct st planes npt zd u = Ok zd' ->
  turn_literal vvd u ->
  length (zone_values data_in u zindex) = npt ->
  length zd = length out_vars ->
  index_of w out_vars = Some j ->
  ~ touches vvd u w ->
  forall k, block_at npt zd' j k = block_at npt zd j k.
Proof.
  intros H Hlit Hvals Hzd Hj Hno k.
  apply revolve_variable_inv in H; [|exact Hlit|exact Hvals|exact Hzd].
  destruct H as [_ [_ [iv [Hiv H]]]].
  assert (Hjv : j <> iv).
  { intros ->. apply Hno. left. exact (index_of_inj _ _ _ _ Hiv Hj). }
  destruct (dict_get vvd u) as [[uy uz]|] eqn:Hget.
  - destruct H as [iy [iz [Hiy [Hiz H]]]]. rewrite H.
    assert (Hjy : j <> iy).
    { intros ->. apply Hno. right. exists uy, uz. split; [exact Hget|].
      left. exact (index_of_inj _ _ _ _ Hiy Hj). }
    assert (Hjz : j <> iz).
    { intros ->. apply Hno. right. exists uy, uz. split; [exact Hget|].
      right. exact (index_of_inj _ _ _ _ Hiz Hj). }
    destruct (Nat.ltb k planes); [|reflexivity].
    destruct (Nat.eqb_spec j iz); [contradiction|].
    destruct (Nat.eqb_spec j iy); [contradiction|].
    destruct (Nat.eqb_spec j iv); [contradiction|]. reflexivity.
  - rewrite H. destruct (Nat.eqb_spec j iv); [contradiction|]. reflexivity.
Qed.

Lemma rfor_each_app {A S} (l1 l2 : list A) (body : S -> A -> Result S) (s : S) :
  rfor_each (l1 ++ l2) body s = rbind (rfor_each l1 body s) (rfor_each l2 body).
Proof.
  revert s. induction l1 as [|x l1 IH]; intros s; cbn; [reflexivity|].
  destruct (body s x) as [s'|e]; cbn; [apply IH | reflexivity].
Qed.

(** The turns of the variable loop that come after the last write of an
    array leave its blocks as they are. *)
Lemma revolve_variables_untouched {tp : Bindings} {acc : Accessors} {np : Numpy}
  data_in zindex out_vars vvd ct st planes npt vars zd zd' w j :
  rfor_each vars (revolve_variable data_in zindex out_vars vvd ct st planes npt) zd
  = Ok zd' ->
  (forall u, In u vars -> turn_literal vvd u) ->
  (forall u, In u vars -> length (zone_values data_in u zindex) = npt) ->
  length zd = length out_vars ->
  index_of w out_vars = Some j ->
  (forall u, In u vars -> ~ touches vvd u w) ->
  forall k, block_at npt zd' j k = block_at npt zd j k.
Proof.
  revert zd. induction vars as [|u vars IH]; intros zd H Hlit Hvals Hzd Hj Hno k.
  - cbn in H. injection H as <-. reflexivity.
  - cbn [rfor_each] in H. apply rbind_ok in H. destruct H as [zd1 [Hu H]].
    rewrite (IH zd1 H).
    + eapply revolve_variable_untouched; [exact Hu | | | | |].
      * apply Hlit. left. reflexivity.
      * apply Hvals. left. reflexivity.
      * exact Hzd.
      * exact Hj.
      * apply Hno. left. reflexivity.
    + intros u' Hu'. apply Hlit. right. exact Hu'.
    + intros u' Hu'. apply Hvals. right. exact Hu'.
    + apply revolve_variable_inv in Hu;
        [|apply Hlit; left; reflexivity|apply Hvals; left; reflexivity|exact Hzd].
      destruct Hu as [Hl _]. lia.
    + exact Hj.
    + intros u' Hu'. apply Hno. right. exact Hu'.
Qed.

Lemma rfor_each_invariant {A S} (P : S -> Prop) (body : S -> A -> Result S)
  (items : list A) :
  (forall s x s', P s -> body s x = Ok s' -> P s') ->
  forall s s', P s -> rfor_each items body s = Ok s' -> P s'.
Proof.
  intros Hbody. induction items as [|x items IH]; intros s s' Hs H; cbn in H.
  - injection H as <-. exact Hs.
  - apply rbind_ok in H. destruct H as [s1 [H1 H2]].
    exact (IH s1 s' (Hbody s x s1 Hs H1) H2).
Qed.

Lemma write_block_length (i k npt : nat) (blk : list float) (zd zd' : ZoneData) :
  write_block i k npt blk zd = Ok zd' -> length zd' = length zd.
Proof.
  unfold write_block. intros H.
  apply rbind_ok in H. destruct H as [arr [_ H]]. injection H as <-.
  apply length_replace_nth.
Qed.

Lemma revolve_variable_length {tp : Bindings} {acc : Accessors} {np : Numpy}
  data_in zindex out_vars vvd ct st planes npt zd v zd' :
  revolve_variable data_in zindex out_vars vvd ct st planes npt zd v = Ok zd' ->
  length zd' = length zd.
Proof.
  intros H. unfold revolve_variable in H.
  apply rbind_ok in H. destruct H as [vin [_ H]].
  apply rbind_ok in H. destruct H as [vout [_ H]].
  apply rbind_ok in H. destruct H as [zd1 [Hplanes H]].
  assert (H1 : length zd1 = length zd).
  { revert Hplanes.
    apply (rfor_each_invariant (fun s => length s = length zd)); [|reflexivity].
    intros s k s' Hs Hw. rewrite (write_block_length _ _ _ _ _ _ Hw). exact Hs. }
  destruct (dict_get vvd v) as [[vy vz]|]; [|injection H as <-; exact H1].
  apply rbind_ok in H. destruct H as [iy [_ H]].
  apply rbind_ok in H. destruct H as [iz [_ H]].
  revert H. apply (rfor_each_invariant (fun s => length s = length zd)); [|exact H1].
  intros s k s' Hs Hw.
  apply rbind_ok in Hw. destruct Hw as [s1 [Hw1 Hw2]].
  rewrite (write_block_length _ _ _ _ _ _ Hw2), (write_block_length _ _ _ _ _ _ Hw1).
  exact Hs.
Qed.

Lemma revolve_variables_length {tp : Bindings} {acc : Accessors} {np : Numpy}
  data_in zindex out_vars vvd ct st planes npt vars zd zd' :
  rfor_each vars (revolve_variable data_in zindex out_vars vvd ct st planes npt) zd
  = Ok zd' ->
  length zd = length out_vars ->
  length zd' = length out_vars.
Proof.
  intros H Hzd. revert H.
  apply (rfor_each_invariant (fun s => length s = length out_vars)); [|exact Hzd].
  intros s v s' Hs Hv. rewrite (revolve_variable_length _ _ _ _ _ _ _ _ _ _ _ Hv).
  exact Hs.
Qed.

(** ** Revolution: one zone *)

Lemma revolve_zone_inv {tp : Bindings} {acc : Accessors} {np : Numpy}
  data_in out_vars vvd ct st planes zindex zin zout zdata :
  revolve_zone data_in out_vars vvd ct st planes zindex zin = Ok (zout, zdata) ->
  is_ordered zin = true
  /\ rank zin < 3
  /\ dimensions zout = firstn (rank zin) (dimensions zin) ++ [planes]
  /\ zone_name zout = zone_name zin
  /\ rfor_each (variable_names data_in)
       (revolve_variable data_in zindex out_vars vvd ct st planes (num_points zin))
       (map (fun _ => repeat (Num 0)
                        (prod (firstn (rank zin) (dimensions zin) ++ [planes])))
            out_vars)
     = Ok zdata.
Proof.
  unfold revolve_zone. intros H.
  apply rbind_ok in H. destruct H as [[] [Hord H]]. apply py_assert_ok in Hord.
  apply rbind_ok in H. destruct H as [[] [Hrank H]]. apply py_assert_ok in Hrank.
  cbv zeta in H.
  apply rbind_ok in H. destruct H as [zd [Hloop H]].
  injection H as <- <-.
  apply Nat.ltb_lt in Hrank.
  repeat split; try assumption.
Qed.

(** The blocks of one output zone.  [pre ++ v :: post] is the input
    variable list: the turns for [post] come after the turn for [v]. *)
Lemma revolve_zone_blocks {tp : Bindings} {acc : Accessors} {np : Numpy}
  data_in out_vars vvd ct st planes zindex zin zout zdata pre v post :
  revolve_zone data_in out_vars vvd ct st planes zindex zin = Ok (zout, zdata) ->
  variable_names data_in = pre ++ v :: post ->
  (forall u, In u (variable_names data_in) -> turn_literal vvd u) ->
  (forall u, In u (variable_names data_in) ->
             length (zone_values data_in u zindex) = num_points zin) ->
  forall k, k < planes ->
    (dict_get vvd v = None ->
     (forall u, In u post -> ~ touches vvd u v) ->
     exists iv, index_of v out_vars = Some iv
                /\ block_at (num_points zin) zdata iv k = zone_values data_in v zindex)
    /\ (forall vy vz,
          dict_get vvd v = Some (vy, vz) ->
          (forall u, In u post -> ~ touches vvd u vz) ->
          exists iz, index_of vz out_vars = Some iz
                     /\ block_at (num_points zin) zdata iz k
                        = np_multiply (zone_values data_in v zindex) (nth k st NaN))
    /\ (forall vy vz,
          dict_get vvd v = Some (vy, vz) ->
          vy <> vz ->
          (forall u, In u post -> ~ touches vvd u vy) ->
          exists iy, index_of vy out_vars = Some iy
                     /\ block_at (num_points zin) zdata iy k
                        = np_multiply (zone_values data_in v zindex) (nth k ct NaN)).
Proof.
  intros H Hsplit Hlits Hvals k Hk.
  apply revolve_zone_inv in H. destruct H as [_ [_ [_ [_ H]]]].
  rewrite Hsplit in H. rewrite rfor_each_app in H.
  apply rbind_ok in H. destruct H as [zd1 [Hpre H]].
  cbn [rfor_each] in H. apply rbind_ok in H. destruct H as [zd2 [Hv Hpost]].
  assert (Hin : forall u, In u pre \/ u = v \/ In u post ->
                          length (zone_values data_in u zindex) = num_points zin).
  { intros u Hu. apply Hvals. rewrite Hsplit. apply in_or_app.
    destruct Hu as [Hu|[->|Hu]]; [left; exact Hu | right; left; reflexivity
                                  | right; right; exact Hu]. }
  assert (Hlit : forall u, In u pre \/ u = v \/ In u post -> turn_literal vvd u).
  { intros u Hu. apply Hlits. rewrite Hsplit. apply in_or_app.
    destruct Hu as [Hu|[->|Hu]]; [left; exact Hu | right; left; reflexivity
                                  | right; right; exact Hu]. }
  assert (Hl1 : length zd1 = length out_vars).
  { apply (revolve_variables_length _ _ _ _ _ _ _ _ _ _ _ Hpre). apply length_map. }
  assert (Hv' := Hv).
  apply revolve_variable_inv in Hv';
    [|apply Hlit; right; left; reflexivity|apply Hin; right; left; reflexivity|exact Hl1].
  destruct Hv' as [Hl2 [_ [iv [Hiv Hblocks]]]].
  assert (Hkeep : forall w j, index_of w out_vars = Some j ->
                              (forall u, In u post -> ~ touches vvd u w) ->
                              block_at (num_points zin) zdata j k
                              = block_at (num_points zin) zd2 j k).
  { intros w j Hj Hno.
    apply (revolve_variables_untouched _ _ _ _ _ _ _ _ _ _ _ w j Hpost).
    - intros u Hu. apply Hlit. right. right. exact Hu.
    - intros u Hu. apply Hin. right. right. exact Hu.
    - lia.
    - exact Hj.
    - exact Hno. }
  apply Nat.ltb_lt in Hk.
  split; [|split].
  - intros Hnone Hno. rewrite Hnone in Hblocks.
    exists iv. split; [exact Hiv|].
    rewrite (Hkeep v iv Hiv Hno), Hblocks, Nat.eqb_refl, Hk. reflexivity.
  - intros vy vz Hsome Hno. rewrite Hsome in Hblocks.
    destruct Hblocks as [iy [iz [Hiy [Hiz Hblocks]]]].
    exists iz. split; [exact Hiz|].
    rewrite (Hkeep vz iz Hiz Hno), Hblocks, Hk, Nat.eqb_refl. reflexivity.
  - intros vy vz Hsome Hne Hno. rewrite Hsome in Hblocks.
    destruct Hblocks as [iy [iz [Hiy [Hiz Hblocks]]]].
    exists iy. split; [exact Hiy|].
    rewrite (Hkeep vy iy Hiy Hno), Hblocks, Hk, Nat.eqb_refl.
    destruct (Nat.eqb_spec iy iz) as [Heq|]; [|reflexivity].
    exfalso. apply Hne. rewrite Heq in Hiy. exact (index_of_inj _ _ _ _ Hiy Hiz).
Qed.

(** ** Revolution: the zone loop *)

Lemma collect_loop_inv {A B} (f : A -> Result B) (items : list A) (acc res : list B) :
  rfor_each items (fun done x => (z <~ f x; Ok (done ++ [z]))%res) acc = Ok res ->
  exists zs, res = acc ++ zs /\ Forall2 (fun x z => f x = Ok z) items zs.
Proof.
  revert acc. induction items as [|x items IH]; intros acc H.
  - cbn in H. injection H as <-. exists []. rewrite app_nil_r. split; constructor.
  - cbn [rfor_each] in H. apply rbind_ok in H. destruct H as [acc1 [Hx H]].
    apply rbind_ok in Hx. destruct Hx as [z [Hz Hacc]]. injection Hacc as <-.
    apply IH in H. destruct H as [zs [-> Hzs]].
    exists (z :: zs). rewrite <- app_assoc. split; [reflexivity|].
    constructor; assumption.
Qed.

Lemma enumerated_nth {A B} (f : nat -> A -> Result B) (l : list A) (a : nat)
  (zs : list B) :
  Forall2 (fun ix z => f (fst ix) (snd ix) = Ok z) (combine (seq a (length l)) l) zs ->
  length zs = length l
  /\ forall i x, nth_error l i = Some x ->
                 exists z, nth_error zs i = Some z /\ f (a + i) x = Ok z.
Proof.
  revert a zs. induction l as [|y l IH]; intros a zs H.
  - cbn in H. inversion H. split; [reflexivity|].
    intros i x Hx. destruct i; discriminate Hx.
  - cbn [length seq combine] in H. inversion H as [|ix z items zs' Hz Hrest]; subst.
    apply IH in Hrest. destruct Hrest as [Hlen Hnth].
    split; [cbn; lia|].
    intros [|i] x Hx.
    + cbn in Hx. injection Hx as <-. exists z. split; [reflexivity|].
      rewrite Nat.add_0_r. exact Hz.
    + cbn in Hx. destruct (Hnth i x Hx) as [z' [Hz' Hf]].
      exists z'. split; [exact Hz'|].
      replace (a + S i) with (S a + i) by lia. exact Hf.
Qed.

Lemma revolve_zones_inv {tp : Bindings} {acc : Accessors} {np : Numpy}
  data_in out_vars vvd ct st planes zones :
  revolve_zones data_in out_vars vvd ct st planes = Ok zones ->
  length zones = length (zone_list data_in)
  /\ forall zindex zin,
       nth_error (zone_list data_in) zindex = Some zin ->
       exists z, nth_error zones zindex = Some z
                 /\ revolve_zone data_in out_vars vvd ct st planes zindex zin = Ok z.
Proof.
  unfold revolve_zones, enumerate. intros H.
  apply (collect_loop_inv
           (fun iz => revolve_zone data_in out_vars vvd ct st planes (fst iz) (snd iz)))
    in H.
  destruct H as [zs [-> H]]. cbn [app].
  apply (enumerated_nth (revolve_zone data_in out_vars vvd ct st planes)) in H.
  exact H.
Qed.

Lemma build_output_inv {tp : Bindings} {acc : Accessors} {np : Numpy}
  data_in vvd planes angle data_out :
  build_output data_in vvd planes angle = Ok data_out ->
  (0 <= planes)%Z
  /\ exists zones,
       revolve_zones data_in (output_variables (variable_names data_in) vvd) vvd
         (map np_cos (map (theta angle (Z.to_nat planes)) (seq 0 (Z.to_nat planes))))
         (map np_sin (map (theta angle (Z.to_nat planes)) (seq 0 (Z.to_nat planes))))
         (Z.to_nat planes) = Ok zones
       /\ data_out = assemble (output_variables (variable_names data_in) vvd) zones.
Proof.
  unfold build_output, linspace. cbv zeta. intros H.
  destruct (Z.ltb_spec planes 0) as [Hneg|Hpos]; [discriminate H|].
  cbn [rbind] in H.
  apply rbind_ok in H. destruct H as [zones [Hzones H]]. injection H as <-.
  split; [exact Hpos|]. exists zones. split; [exact Hzones | reflexivity].
Qed.

(** ** Revolution: the dimensions of the output zones *)

Lemma enumerated_map {A B C} (f : nat -> A -> Result B) (g : B -> C) (h : A -> C) :
  (forall i x z, f i x = Ok z -> g z = h x) ->
  forall (l : list A) (a : nat) (zs : list B),
    Forall2 (fun ix z => f (fst ix) (snd ix) = Ok z) (combine (seq a (length l)) l) zs ->
    map g zs = map h l.
Proof.
  intros Hgh. induction l as [|y l IH]; intros a zs H.
  - cbn in H. inversion H. reflexivity.
  - cbn [length seq combine] in H. inversion H as [|ix z items zs' Hz Hrest]; subst.
    cbn [map]. rewrite (IH _ _ Hrest). cbn [fst snd] in Hz.
    rewrite (Hgh _ _ _ Hz). reflexivity.
Qed.

Lemma revolve_zones_dimensions {tp : Bindings} {acc : Accessors} {np : Numpy}
  data_in out_vars vvd ct st planes zones :
  revolve_zones data_in out_vars vvd ct st planes = Ok zones ->
  map (fun z => dimensions (fst z)) zones
  = map (fun zin => firstn (rank zin) (dimensions zin) ++ [planes]) (zone_list data_in).
Proof.
  unfold revolve_zones, enumerate. intros H.
  apply (collect_loop_inv
           (fun iz => revolve_zone data_in out_vars vvd ct st planes (fst iz) (snd iz)))
    in H.
  destruct H as [zs [-> H]]. cbn [app].
  apply (enumerated_map (revolve_zone data_in out_vars vvd ct st planes)
           (fun z => dimensions (fst z))
           (fun zin => firstn (rank zin) (dimensions zin) ++ [planes])) in H;
    [exact H|].
  intros i zin [zout zdata] Hz. apply revolve_zone_inv in Hz.
  destruct Hz as [_ [_ [Hdims _]]]. exact Hdims.
Qed.

(** C2, as amended.  The dimension list of each output zone is the
    first [rank] entries of the dimensions of the input zone, followed by
    the number of planes.  A rank-1 zone of dimensions (M, 1) therefore
    yields (M, N): the trailing 1 is cut off before N is appended. *)
Theorem revolve_zone_dimensions {tp : Bindings} {acc : Accessors} {np : Numpy}
  datafile_in datafile_out radial_coord planes angle vector_vars w w' :
  revolve_dataset datafile_in datafile_out radial_coord planes angle vector_vars w
  = (Ok tt, w') ->
  exists data_in call,
    grid_store w datafile_in = Some data_in
    /\ saved w' = saved w ++ [call]
    /\ map dimensions (zone_list (save_dataset call))
       = map (fun zin => firstn (rank zin) (dimensions zin) ++ [Z.to_nat planes])
             (zone_list data_in)
    /\ forall zin M,
         In zin (zone_list data_in) ->
         rank zin = 1 -> dimensions zin = [M; 1] ->
         firstn (rank zin) (dimensions zin) ++ [Z.to_nat planes]
         = [M; Z.to_nat planes].
Proof.
  intros H. apply revolve_dataset_ok_inv in H.
  destruct H as [data_in [vvd [data_out [Hload [_ [Hbuild ->]]]]]].
  exists data_in,
    (mkSave datafile_out (String.eqb (splitext_ext datafile_out) ".dat")
            data_out None None).
  split; [exact Hload|]. split; [reflexivity|]. split.
  - cbn [save_dataset]. apply build_output_inv in Hbuild.
    destruct Hbuild as [_ [zones [Hzones ->]]].
    cbn [assemble zone_list]. rewrite map_map.
    exact (revolve_zones_dimensions _ _ _ _ _ _ _ Hzones).
  - intros zin M _ Hrank Hdims. rewrite Hrank, Hdims. reflexivity.
Qed.

Lemma revolve_zone_dimensions_witness :
  let run := @revolve_dataset literal_bindings literal_accessors ideal_numpy
               "axi_sphere_surf.plt" "axi_sphere_rev.dat" RNone 25 (Num 180) VNone axi_session in
  run = (Ok tt, snd run)
  /\ exists data_in call,
       grid_store axi_session "axi_sphere_surf.plt" = Some data_in
       /\ saved (snd run) = saved axi_session ++ [call]
       /\ map dimensions (zone_list (save_dataset call))
          = map (fun zin => firstn (rank zin) (dimensions zin) ++ [Z.to_nat 25])
                (zone_list data_in)
       /\ forall zin M,
            In zin (zone_list data_in) ->
            rank zin = 1 -> dimensions zin = [M; 1] ->
            firstn (rank zin) (dimensions zin) ++ [Z.to_nat 25] = [M; Z.to_nat 25].
Proof.
  assert (Hrun :
    @revolve_dataset literal_bindings literal_accessors ideal_numpy
      "axi_sphere_surf.plt" "axi_sphere_rev.dat" RNone 25 (Num 180) VNone axi_session
    = (Ok tt, snd (@revolve_dataset literal_bindings literal_accessors ideal_numpy
        "axi_sphere_surf.plt" "axi_sphere_rev.dat" RNone
                     25 (Num 180) VNone axi_session))).
  { vm_compute. reflexivity. }
  split; [exact Hrun|].
  exact (revolve_zone_dimensions _ _ _ _ _ _ _ _ Hrun).
Defined.

(** C2, as stated, fails: the rank-1 zone of dimensions (11, 1) revolved
    with 25 planes over 180 degrees comes out with dimensions (11, 25) and
    not (11, 1, 25). *)
Lemma revolve_zone_dimensions_counterexample :
  exists w',
    @revolve_dataset literal_bindings literal_accessors ideal_numpy
        "axi_sphere_surf.plt" "axi_sphere_rev.dat" RNone
      25 (Num 180) VNone axi_session = (Ok tt, w')
    /\ map rank (zone_list axi_sample) = [1]
    /\ map dimensions (zone_list axi_sample) = [[11; 1]]
    /\ map (fun call => map dimensions (zone_list (save_dataset call))) (saved w')
       = [[[11; 25]]]
    /\ map (fun call => map dimensions (zone_list (save_dataset call))) (saved w')
       <> [[[11; 1; 25]]].
Proof.
  exists (snd (@revolve_dataset literal_bindings literal_accessors ideal_numpy
      "axi_sphere_surf.plt" "axi_sphere_rev.dat" RNone
                 25 (Num 180) VNone axi_session)).
  split; [vm_compute; reflexivity|].
  split; [reflexivity|]. split; [reflexivity|].
  assert (Hdims :
    map (fun call => map dimensions (zone_list (save_dataset call)))
        (saved (snd (@revolve_dataset literal_bindings literal_accessors ideal_numpy
            "axi_sphere_surf.plt" "axi_sphere_rev.dat" RNone
                       25 (Num 180) VNone axi_session)))
    = [[[11; 25]]]) by (vm_compute; reflexivity).
  split; [exact Hdims|].
  rewrite Hdims. discriminate.
Qed.

(** ** Revolution: unique names *)

Lemma str_in_iff (x : string) (names : list string) :
  str_in x names = true <-> In x names.
Proof.
  unfold str_in. rewrite existsb_exists. split.
  - intros [y [Hy Heq]]. apply String.eqb_eq in Heq. subst. exact Hy.
  - intros H. exists x. split; [exact H | apply String.eqb_refl].
Qed.

Lemma py_set_from_length (names acc : list string) :
  length (fold_left (fun s x => if str_in x s then s else s ++ [x]) names acc)
  <= length acc + length names.
Proof.
  revert acc. induction names as [|x names IH]; intros acc; cbn [fold_left length].
  - lia.
  - destruct (str_in x acc).
    + specialize (IH acc). lia.
    + specialize (IH (acc ++ [x])). rewrite length_app in IH. cbn in IH. lia.
Qed.

Lemma py_set_from_full (names acc : list string) :
  length (fold_left (fun s x => if str_in x s then s else s ++ [x]) names acc)
  = length acc + length names ->
  NoDup names /\ forall x, In x names -> ~ In x acc.
Proof.
  revert acc. induction names as [|x names IH]; intros acc H; cbn [fold_left length] in H.
  - split; [constructor | intros x []].
  - destruct (str_in x acc) eqn:Hx.
    + pose proof (py_set_from_length names acc). lia.
    + assert (Hx' : ~ In x acc).
      { intros Hin. apply str_in_iff in Hin. congruence. }
      destruct (IH (acc ++ [x])) as [Hnd Hout].
      { rewrite length_app. cbn. lia. }
      split.
      * constructor; [|exact Hnd].
        intros Hin. apply (Hout x Hin). apply in_or_app. right. left. reflexivity.
      * intros y [<-|Hy]; [exact Hx'|].
        intros Hin. apply (Hout y Hy). apply in_or_app. left. exact Hin.
Qed.

Lemma check_inputs_inv datafile_in data_in radial_coord vector_vars vvd :
  check_inputs datafile_in data_in radial_coord vector_vars = Ok vvd ->
  NoDup (variable_names data_in)
  /\ select_radial (variable_names data_in) radial_coord vector_vars = Ok vvd.
Proof.
  unfold check_inputs. cbv zeta. intros H.
  apply rbind_ok in H. destruct H as [[] [Hassert H]].
  apply py_assert_ok in Hassert. apply Nat.eqb_eq in Hassert.
  split; [|exact H].
  apply (py_set_from_full (variable_names data_in) []).
  unfold py_set in Hassert. cbn [length]. lia.
Qed.

(** ** Revolution: the angles *)

Lemma nth_map_seq {A} (f : nat -> A) (n k : nat) (d : A) :
  k < n -> nth k (map f (seq 0 n)) d = f k.
Proof.
  intros Hk. rewrite (nth_indep _ d (f 0)) by (rewrite length_map, length_seq; exact Hk).
  rewrite (map_nth f (seq 0 n) 0 k), seq_nth by exact Hk. reflexivity.
Qed.

Lemma literal_bindings_literal (k : string) :
  String.eqb k "*" = false -> @literal literal_bindings k.
Proof. intros Hk n. cbn. rewrite Hk. reflexivity. Qed.

(** The angles in exact arithmetic: sample [k] is [k] steps from 0, the
    step being the angle in radians over [n - 1]; the last sample is the
    angle itself. *)
Lemma theta_ideal (angle : R) (n k : nat) :
  @theta ideal_numpy (Num angle) n k = Num (INR k * (angle * PI / 180 / INR (n - 1))).
Proof. unfold theta. cbn. f_equal. unfold Rdiv. ring. Qed.

Lemma theta_first (angle : R) (n : nat) : @theta ideal_numpy (Num angle) n 0 = Num 0.
Proof. rewrite theta_ideal. cbn [INR]. f_equal. ring. Qed.

Lemma theta_last (angle : R) (n : nat) :
  2 <= n -> @theta ideal_numpy (Num angle) n (n - 1) = Num (angle * PI / 180).
Proof.
  intros Hn. rewrite theta_ideal. f_equal.
  assert (Hpos : INR (n - 1) <> 0%R).
  { apply not_0_INR. lia. }
  field. exact Hpos.
Qed.

Lemma literal_names_of_bindings (names : list string) :
  forallb (fun k => negb (String.eqb k "*")) names = true ->
  @literal_names literal_bindings names.
Proof.
  intros H u Hu. apply literal_bindings_literal.
  rewrite forallb_forall in H. apply negb_true_iff. exact (H u Hu).
Qed.

Lemma scale_infinity_one (positive : bool) :
  scale_infinity positive 1 = if positive then PInf else NInf.
Proof.
  unfold scale_infinity.
  destruct (Req_dec_T 1 0) as [H|_]; [lra|].
  destruct (Rlt_dec 0 1) as [_|H]; [reflexivity | lra].
Qed.

Lemma ideal_plane_zero (angle : R) (n : nat) :
  @plane_zero_arithmetic ideal_numpy (Num angle) n.
Proof.
  split; [apply theta_first|].
  split; [cbn; rewrite cos_0; reflexivity|].
  split; [cbn; rewrite sin_0; reflexivity|].
  split.
  - intros [r| | |]; cbn; try reflexivity.
    + rewrite Rmult_1_r. reflexivity.
    + apply (scale_infinity_one true).
    + apply (scale_infinity_one false).
  - intros r. cbn. rewrite Rmult_0_r. reflexivity.
Qed.

Lemma np_multiply_one {np : Numpy} (vals : list float) :
  (forall x, fmul x (Num 1) = x) -> np_multiply vals (Num 1) = vals.
Proof.
  intros H. unfold np_multiply. induction vals as [|x vals IH]; cbn [map]; [reflexivity|].
  rewrite IH, H. reflexivity.
Qed.

Lemma np_multiply_zero {np : Numpy} (vals : list float) :
  (forall r, fmul (Num r) (Num 0) = Num 0) ->
  all_finite vals -> np_multiply vals (Num 0) = repeat (Num 0) (length vals).
Proof.
  intros H. unfold np_multiply, all_finite.
  induction 1 as [|x vals [r ->] _ IH]; cbn; [reflexivity|].
  rewrite IH, H. reflexivity.
Qed.

Lemma plane_zero_blocks {np : Numpy} (angle : float) (n : nat) (vals : list float) :
  plane_zero_arithmetic angle n ->
  np_multiply vals (np_cos (theta angle n 0)) = vals
  /\ (all_finite vals ->
      np_multiply vals (np_sin (theta angle n 0)) = repeat (Num 0) (length vals)).
Proof.
  intros [Hfirst [Hcos [Hsin [Hone Hzero]]]]. unfold theta.
  rewrite Hfirst, Hcos, Hsin.
  split; [apply np_multiply_one; exact Hone | apply np_multiply_zero; exact Hzero].
Qed.

(** ** Revolution: the value blocks of the written dataset *)

Lemma expected_variables_input vars_in vvd v :
  In v vars_in -> In v (expected_variables vars_in vvd).
Proof.
  intros Hv. unfold expected_variables. apply in_flat_map.
  exists v. split; [exact Hv | left; reflexivity].
Qed.

Lemma expected_variables_components vars_in vvd v c s :
  In v vars_in ->
  dict_get vvd v = Some (c, s) ->
  In c (expected_variables vars_in vvd) /\ In s (expected_variables vars_in vvd).
Proof.
  intros Hv Hget.
  assert (Hone : forall n, In n [c; s] -> In n (expected_variables vars_in vvd)).
  { intros n Hn. destruct (str_in n vars_in) eqn:Hin.
    - apply expected_variables_input. apply str_in_iff. exact Hin.
    - unfold expected_variables. apply in_flat_map. exists v. split; [exact Hv|].
      right. unfold new_components. rewrite Hget. apply filter_In.
      split; [exact Hn | rewrite Hin; reflexivity]. }
  split; apply Hone; cbn; auto.
Qed.

(** When no output variable holds a wildcard, every lookup of the
    variable loop is the lookup of a name. *)
Lemma turns_literal {tp : Bindings} (vars_in : list string)
  (vvd : dict (string * string)) :
  literal_names (expected_variables vars_in vvd) ->
  forall u, In u vars_in -> turn_literal vvd u.
Proof.
  intros Hlit u Hu. split.
  - apply Hlit. apply expected_variables_input. exact Hu.
  - intros vy vz Hget.
    destruct (expected_variables_components vars_in vvd u vy vz Hu Hget) as [Hy Hz].
    split; apply Hlit; assumption.
Qed.

Lemma zone_values_assemble out_vars zones zindex zout zdata w i :
  nth_error zones zindex = Some (zout, zdata) ->
  index_of w out_vars = Some i ->
  zone_values (assemble out_vars zones) w zindex = nth i zdata [].
Proof.
  intros Hz Hi. unfold zone_values. cbn [assemble variable_names values].
  rewrite Hi. rewrite (nth_error_nth _ _ _ Hz). reflexivity.
Qed.

(** The blocks of the dataset that [build_output] returns.  [pre ++ v ::
    post] is the input variable list; a block written in the turn of [v]
    is found in the output unless a later turn writes the same array. *)
Lemma build_output_blocks {tp : Bindings} {acc : Accessors} {np : Numpy}
  data_in vvd planes angle data_out zindex zin pre v post k :
  build_output data_in vvd planes angle = Ok data_out ->
  literal_names (expected_variables (variable_names data_in) vvd) ->
  NoDup (variable_names data_in) ->
  nth_error (zone_list data_in) zindex = Some zin ->
  variable_names data_in = pre ++ v :: post ->
  (forall u, In u (variable_names data_in) ->
             length (zone_values data_in u zindex) = num_points zin) ->
  k < Z.to_nat planes ->
  (dict_get vvd v = None ->
   (forall u, In u post -> ~ component_of vvd v u) ->
   plane_block (num_points zin) k (zone_values data_out v zindex)
   = zone_values data_in v zindex)
  /\ (forall vy vz,
        dict_get vvd v = Some (vy, vz) ->
        (forall u, In u post -> ~ touches vvd u vz) ->
        plane_block (num_points zin) k (zone_values data_out vz zindex)
        = np_multiply (zone_values data_in v zindex)
            (np_sin (theta angle (Z.to_nat planes) k)))
  /\ (forall vy vz,
        dict_get vvd v = Some (vy, vz) ->
        vy <> vz ->
        (forall u, In u post -> ~ touches vvd u vy) ->
        plane_block (num_points zin) k (zone_values data_out vy zindex)
        = np_multiply (zone_values data_in v zindex)
            (np_cos (theta angle (Z.to_nat planes) k))).
Proof.
  intros Hbuild Hlit Hnd Hzin Hsplit Hvals Hk.
  apply build_output_inv in Hbuild. destruct Hbuild as [_ [zones [Hzones ->]]].
  apply revolve_zones_inv in Hzones. destruct Hzones as [_ Hzones].
  destruct (Hzones zindex zin Hzin) as [[zout zdata] [Hz Hrev]].
  destruct (revolve_zone_blocks _ _ _ _ _ _ _ _ _ _ pre v post Hrev Hsplit
              (turns_literal _ _ Hlit) Hvals k Hk)
    as [Hscalar [Hsin Hcos]].
  rewrite !map_map in Hsin, Hcos.
  rewrite nth_map_seq in Hsin by exact Hk.
  rewrite nth_map_seq in Hcos by exact Hk.
  split; [|split].
  - intros Hnone Hno.
    destruct (Hscalar Hnone) as [iv [Hiv Hblock]].
    + intros u Hu [Heq|Hc]; [|exact (Hno u Hu Hc)].
      rewrite Hsplit in Hnd. apply NoDup_remove_2 in Hnd.
      apply Hnd. apply in_or_app. right. rewrite <- Heq. exact Hu.
    + rewrite (zone_values_assemble _ _ _ _ _ _ _ Hz Hiv). exact Hblock.
  - intros vy vz Hsome Hno.
    destruct (Hsin vy vz Hsome Hno) as [iz [Hiz Hblock]].
    rewrite (zone_values_assemble _ _ _ _ _ _ _ Hz Hiz). exact Hblock.
  - intros vy vz Hsome Hne Hno.
    destruct (Hcos vy vz Hsome Hne Hno) as [iy [Hiy Hblock]].
    rewrite (zone_values_assemble _ _ _ _ _ _ _ Hz Hiy). exact Hblock.
Qed.

(** C6, as amended.  In every zone of the written dataset and for every
    plane [k], when no output variable holds a wildcard: the block of a
    variable that is not vector-mapped holds the input values, provided
    no later variable of the input list has it as a component; the block
    of the sine component of a vector-mapped variable holds the input
    values times the sine of the angle of plane [k], and the block of its
    cosine component the input values times the cosine, provided no later
    turn of the variable loop writes the same array (and, for the cosine,
    the two component names differ).  The products, the sines and cosines
    and the angles are numpy's: the angles are the samples of
    [np.linspace(0.0, np.radians(angle), planes)].  In plane 0, when the
    first angle is 0 and the arithmetic at 0 and 1 is exact, the cosine
    block is the input itself and the sine block is zero wherever the
    input is finite.  In exact arithmetic the angles are evenly spaced
    from 0 on, and with two planes or more the last one is the given
    angle. *)
Theorem revolve_plane_blocks {tp : Bindings} {acc : Accessors} {np : Numpy} :
  (forall datafile_in datafile_out radial_coord planes angle vector_vars w w',
      revolve_dataset datafile_in datafile_out radial_coord planes angle vector_vars w
      = (Ok tt, w') ->
      exists data_in vvd call,
        grid_store w datafile_in = Some data_in
        /\ check_inputs datafile_in data_in radial_coord (vector_vars_dict vector_vars)
           = Ok vvd
        /\ saved w' = saved w ++ [call]
        /\ (literal_names (variable_names (save_dataset call)) ->
            forall zindex zin pre v post k,
              nth_error (zone_list data_in) zindex = Some zin ->
              variable_names data_in = pre ++ v :: post ->
              (forall u, In u (variable_names data_in) ->
                         length (zone_values data_in u zindex) = num_points zin) ->
              k < Z.to_nat planes ->
              (dict_get vvd v = None ->
               (forall u, In u post -> ~ component_of vvd v u) ->
               plane_block (num_points zin) k (zone_values (save_dataset call) v zindex)
               = zone_values data_in v zindex)
              /\ (forall vy vz,
                    dict_get vvd v = Some (vy, vz) ->
                    (forall u, In u post -> ~ touches vvd u vz) ->
                    plane_block (num_points zin) k
                      (zone_values (save_dataset call) vz zindex)
                    = np_multiply (zone_values data_in v zindex)
                        (np_sin (theta angle (Z.to_nat planes) k)))
              /\ (forall vy vz,
                    dict_get vvd v = Some (vy, vz) ->
                    vy <> vz ->
                    (forall u, In u post -> ~ touches vvd u vy) ->
                    plane_block (num_points zin) k
                      (zone_values (save_dataset call) vy zindex)
                    = np_multiply (zone_values data_in v zindex)
                        (np_cos (theta angle (Z.to_nat planes) k)))))
  /\ (forall angle n k,
        theta angle n k = linspace_sample (Num 0) (np_radians angle) n k)
  /\ (forall angle n vals,
        plane_zero_arithmetic angle n ->
        np_multiply vals (np_cos (theta angle n 0)) = vals
        /\ (all_finite vals ->
            np_multiply vals (np_sin (theta angle n 0)) = repeat (Num 0) (length vals)))
  /\ (forall angle n,
        (forall k, @theta ideal_numpy (Num angle) n k
                   = Num (INR k * (angle * PI / 180 / INR (n - 1))))
        /\ (2 <= n -> @theta ideal_numpy (Num angle) n (n - 1) = Num (angle * PI / 180))
        /\ @plane_zero_arithmetic ideal_numpy (Num angle) n).
Proof.
  split; [|split; [|split]].
  - intros datafile_in datafile_out radial_coord planes angle vector_vars w w' H.
    apply revolve_dataset_ok_inv in H.
    destruct H as [data_in [vvd [data_out [Hload [Hcheck [Hbuild ->]]]]]].
    exists data_in, vvd,
      (mkSave datafile_out (String.eqb (splitext_ext datafile_out) ".dat")
              data_out None None).
    split; [exact Hload|]. split; [exact Hcheck|]. split; [reflexivity|].
    cbn [save_dataset]. intros Hlit zindex zin pre v post k Hzin Hsplit Hvals Hk.
    rewrite (build_output_variables _ _ _ _ _ Hbuild) in Hlit.
    apply check_inputs_inv in Hcheck. destruct Hcheck as [Hnd _].
    exact (build_output_blocks _ _ _ _ _ _ _ _ _ _ _ Hbuild Hlit Hnd Hzin Hsplit Hvals Hk).
  - reflexivity.
  - intros angle n vals. apply plane_zero_blocks.
  - intros angle n. split; [intros k; apply theta_ideal|].
    split; [apply theta_last | apply ideal_plane_zero].
Qed.

Lemma revolve_plane_blocks_witness :
  let run := @revolve_dataset literal_bindings literal_accessors ideal_numpy
               "axi_sphere_surf.plt" "axi_sphere_rev.dat" (RStr "v1")
               25 (Num 90) axi_vector_vars axi_session in
  run = (Ok tt, snd run)
  /\ (exists data_in vvd call,
        grid_store axi_session "axi_sphere_surf.plt" = Some data_in
        /\ check_inputs "axi_sphere_surf.plt" data_in (RStr "v1")
             (vector_vars_dict axi_vector_vars) = Ok vvd
        /\ saved (snd run) = saved axi_session ++ [call]
        /\ (@literal_names literal_bindings (variable_names (save_dataset call)) ->
            forall zindex zin pre v post k,
              nth_error (zone_list data_in) zindex = Some zin ->
              variable_names data_in = pre ++ v :: post ->
              (forall u, In u (variable_names data_in) ->
                         length (zone_values data_in u zindex) = num_points zin) ->
              k < Z.to_nat 25 ->
              (dict_get vvd v = None ->
               (forall u, In u post -> ~ component_of vvd v u) ->
               plane_block (num_points zin) k (zone_values (save_dataset call) v zindex)
               = zone_values data_in v zindex)
              /\ (forall vy vz,
                    dict_get vvd v = Some (vy, vz) ->
                    (forall u, In u post -> ~ touches vvd u vz) ->
                    plane_block (num_points zin) k
                      (zone_values (save_dataset call) vz zindex)
                    = @np_multiply ideal_numpy (zone_values data_in v zindex)
                        (@np_sin ideal_numpy (@theta ideal_numpy (Num 90) (Z.to_nat 25) k)))
              /\ (forall vy vz,
                    dict_get vvd v = Some (vy, vz) ->
                    vy <> vz ->
                    (forall u, In u post -> ~ touches vvd u vy) ->
                    plane_block (num_points zin) k
                      (zone_values (save_dataset call) vy zindex)
                    = @np_multiply ideal_numpy (zone_values data_in v zindex)
                        (@np_cos ideal_numpy
                           (@theta ideal_numpy (Num 90) (Z.to_nat 25) k)))))
  /\ @literal_names literal_bindings
       ["x"; "y"; "q1"; "q2"; "q2_cos"; "q2_sin"; "v1"; "z"; "v2"; "v2y"; "v2z"]
  /\ (let vals := [Num 3; PInf; Num 5] in
      @np_multiply ideal_numpy vals
        (@np_cos ideal_numpy (@theta ideal_numpy (Num 90) 25 0)) = vals)
  /\ (let vals := [Num 3; Num 4; Num 5] in
      @np_multiply ideal_numpy vals
        (@np_sin ideal_numpy (@theta ideal_numpy (Num 90) 25 0))
      = repeat (Num 0) (length vals)).
Proof.
  assert (Hrun :
    @revolve_dataset literal_bindings literal_accessors ideal_numpy
      "axi_sphere_surf.plt" "axi_sphere_rev.dat" (RStr "v1")
      25 (Num 90) axi_vector_vars axi_session
    = (Ok tt, snd (@revolve_dataset literal_bindings literal_accessors ideal_numpy
                     "axi_sphere_surf.plt" "axi_sphere_rev.dat"
                     (RStr "v1") 25 (Num 90) axi_vector_vars axi_session))).
  { vm_compute. reflexivity. }
  destruct (@revolve_plane_blocks literal_bindings literal_accessors ideal_numpy)
    as [Hblocks [_ [Hzero _]]].
  split; [exact Hrun|].
  split; [exact (Hblocks _ _ _ _ _ _ _ _ Hrun)|].
  split; [apply literal_names_of_bindings; reflexivity|].
  split.
  - exact (proj1 (Hzero (Num 90) 25 [Num 3; PInf; Num 5] (ideal_plane_zero 90 25))).
  - apply (proj2 (Hzero (Num 90) 25 [Num 3; Num 4; Num 5] (ideal_plane_zero 90 25))).
    repeat constructor; eexists; reflexivity.
Defined.

(** C6, as stated, fails.  In the sample the radial coordinate [r] is
    mapped onto ([x], [z]) and [u] is a vector variable.  [x] is not
    vector-mapped, yet its plane-0 block holds the values 3, 4 of [r] and
    not its own values 1, 2; and the plane-0 block of the sine component
    of [u] is not all zeros, since [u] holds a not-a-number value. *)
Lemma revolve_plane_blocks_counterexample :
  exists w' vvd call,
    @revolve_dataset literal_bindings literal_accessors ideal_numpy
      "curve.plt" "out.plt" (RDict [("r", ("x", "z"))]) 2 (Num 180)
      (VList ["u"]) overlap_session = (Ok tt, w')
    /\ check_inputs "curve.plt" overlap_sample (RDict [("r", ("x", "z"))])
         (vector_vars_dict (VList ["u"])) = Ok vvd
    /\ saved w' = [call]
    /\ dict_get vvd "x" = None
    /\ zone_values overlap_sample "x" 0 = [Num 1; Num 2]
    /\ plane_block 2 0 (zone_values (save_dataset call) "x" 0) = [Num 3; Num 4]
    /\ plane_block 2 0 (zone_values (save_dataset call) "x" 0)
       <> zone_values overlap_sample "x" 0
    /\ dict_get vvd "u" = Some ("u_cos", "u_sin")
    /\ plane_block 2 0 (zone_values (save_dataset call) "u_sin" 0) = [NaN; Num 0]
    /\ plane_block 2 0 (zone_values (save_dataset call) "u_sin" 0)
       <> [Num 0; Num 0].
Proof.
  assert (Hrun :
    @revolve_dataset literal_bindings literal_accessors ideal_numpy
      "curve.plt" "out.plt" (RDict [("r", ("x", "z"))]) 2 (Num 180)
      (VList ["u"]) overlap_session
    = (Ok tt, snd (@revolve_dataset literal_bindings literal_accessors ideal_numpy
                     "curve.plt" "out.plt" (RDict [("r", ("x", "z"))])
                     2 (Num 180) (VList ["u"]) overlap_session))).
  { vm_compute. reflexivity. }
  destruct (revolve_dataset_ok_inv _ _ _ _ _ _ _ _ Hrun)
    as [data_in [vvd [data_out [Hload [Hcheck [Hbuild Hw]]]]]].
  assert (Hin : data_in = overlap_sample).
  { cbn in Hload. injection Hload as <-. reflexivity. }
  subst data_in.
  assert (Hvvd : vvd = [("r", ("x", "z")); ("u", ("u_cos", "u_sin"))]).
  { assert (Hc : check_inputs "curve.plt" overlap_sample (RDict [("r", ("x", "z"))])
                   (vector_vars_dict (VList ["u"]))
                 = Ok [("r", ("x", "z")); ("u", ("u_cos", "u_sin"))])
      by reflexivity.
    rewrite Hc in Hcheck. injection Hcheck as <-. reflexivity. }
  subst vvd.
  assert (Hlit : @literal_names literal_bindings
                   (expected_variables (variable_names overlap_sample)
                      [("r", ("x", "z")); ("u", ("u_cos", "u_sin"))])).
  { apply literal_names_of_bindings. reflexivity. }
  assert (Hnd : NoDup (variable_names overlap_sample)).
  { cbn. repeat constructor; cbn; intuition discriminate. }
  assert (Hzin : nth_error (zone_list overlap_sample) 0
                 = Some (mkZone "curve" 1 [2; 1] true)) by reflexivity.
  assert (Hvals : forall u, In u (variable_names overlap_sample) ->
                            length (zone_values overlap_sample u 0)
                            = num_points (mkZone "curve" 1 [2; 1] true)).
  { intros u [<-|[<-|[<-|[]]]]; reflexivity. }
  assert (Hk : 0 < Z.to_nat 2) by (cbn; lia).
  destruct (build_output_blocks _ _ _ _ _ 0 _ ["x"] "r" ["u"] 0
              Hbuild Hlit Hnd Hzin eq_refl Hvals Hk) as [_ [_ Hcos]].
  destruct (build_output_blocks _ _ _ _ _ 0 _ ["x"; "r"] "u" [] 0
              Hbuild Hlit Hnd Hzin eq_refl Hvals Hk) as [_ [Hsin _]].
  destruct (plane_zero_blocks (Num 180) (Z.to_nat 2)
              (zone_values overlap_sample "r" 0) (ideal_plane_zero 180 _))
    as [Hone _].
  assert (Hx : plane_block 2 0 (zone_values data_out "x" 0) = [Num 3; Num 4]).
  { change 2 with (num_points (mkZone "curve" 1 [2; 1] true)) at 1.
    rewrite (Hcos "x" "z").
    - rewrite Hone. reflexivity.
    - reflexivity.
    - discriminate.
    - intros u [<-|[]] [Heq|[c [s [Hget Hcs]]]].
      + discriminate Heq.
      + cbn in Hget. injection Hget as <- <-. destruct Hcs; discriminate. }
  assert (Hu : plane_block 2 0 (zone_values data_out "u_sin" 0) = [NaN; Num 0]).
  { change 2 with (num_points (mkZone "curve" 1 [2; 1] true)) at 1.
    rewrite (Hsin "u_cos" "u_sin").
    - rewrite theta_first. cbn. rewrite sin_0, Rmult_0_r. reflexivity.
    - reflexivity.
    - intros u []. }
  exists (snd (@revolve_dataset literal_bindings literal_accessors ideal_numpy
                 "curve.plt" "out.plt" (RDict [("r", ("x", "z"))])
                 2 (Num 180) (VList ["u"]) overlap_session)),
    [("r", ("x", "z")); ("u", ("u_cos", "u_sin"))],
    (mkSave "out.plt" (String.eqb (splitext_ext "out.plt") ".dat") data_out None None).
  split; [exact Hrun|]. split; [exact Hcheck|].
  split; [rewrite Hw; reflexivity|].
  cbn [save_dataset].
  split; [reflexivity|].
  split; [reflexivity|].
  split; [exact Hx|].
  split.
  { rewrite Hx. intros Heq. injection Heq as H1 H2. lra. }
  split; [reflexivity|].
  split; [exact Hu|].
  rewrite Hu. discriminate.
Qed.

(** ** Differencing: the delta loops *)

(** The warnings of a name loop whose message can be formatted *)
Lemma warn_name_mismatch_records what i pairs w :
  (forall a b c,
     writable (what ++ " pair %d has mismatching names: %s != %s")%string [a; b; c]
     = true) ->
  warn_name_mismatch what i pairs w = (Ok tt, add_log w (name_warnings what i pairs)).
Proof.
  intros Hfmt. revert i w. induction pairs as [|[enew eold] pairs IH]; intros i w.
  - cbn. rewrite add_log_nil. reflexivity.
  - cbn [warn_name_mismatch name_warnings]. unfold bind.
    destruct (String.eqb (name enew) (name eold)).
    + cbn. apply IH.
    + rewrite emit_run, Hfmt, IH, add_log_app. reflexivity.
Qed.

Lemma variable_warnings_run i pairs w :
  warn_name_mismatch "Variable" i pairs w
  = (Ok tt, add_log w (name_warnings "Variable" i pairs)).
Proof. apply warn_name_mismatch_records. reflexivity. Qed.

Lemma zone_warnings_run i pairs w :
  warn_name_mismatch "Zone" i pairs w
  = (Ok tt, add_log w (name_warnings "Zone" i pairs)).
Proof. apply warn_name_mismatch_records. reflexivity. Qed.

(** The name loops log warnings only. *)
Lemma name_warnings_level what i pairs r :
  In r (name_warnings what i pairs) -> log_level r = WARNING.
Proof.
  revert i. induction pairs as [|[enew eold] pairs IH]; intros i; cbn [name_warnings].
  - intros [].
  - intros H. apply in_app_or in H. destruct H as [H|H]; [|exact (IH _ H)].
    destruct (String.eqb (name enew) (name eold)); [destruct H|].
    destruct H as [<-|[]]. reflexivity.
Qed.

Lemma name_warnings_in what i pairs j enew eold :
  nth_error pairs j = Some (enew, eold) ->
  name enew <> name eold ->
  In (mkLog WARNING (what ++ " pair %d has mismatching names: %s != %s")%string
            [str_of_nat (i + j); name enew; name eold])
     (name_warnings what i pairs).
Proof.
  revert i j. induction pairs as [|[a b] pairs IH]; intros i j Hnth Hne.
  - destruct j; discriminate Hnth.
  - cbn [name_warnings]. apply in_or_app. destruct j as [|j].
    + cbn in Hnth. injection Hnth as -> ->. left.
      apply String.eqb_neq in Hne. rewrite Hne, Nat.add_0_r. left. reflexivity.
    + right. cbn in Hnth. replace (i + S j) with (S i + j) by lia.
      apply IH; assumption.
Qed.

(** The record of line 231 cannot be formatted, whatever the two zone
    names are. *)
Lemma delta_error_unwritable (zold znew : string) :
  writable delta_error_format [zold; znew] = false.
Proof. reflexivity. Qed.

Lemma delta_zone_run {np : Numpy} data_old vnew vold delta data_new zpair w :
  delta_zone data_old vnew vold delta data_new zpair w
  = (Ok (set_values data_new delta (index (fst zpair))
           (delta_block (values data_new (index vnew) (index (fst zpair)))
                        (values data_old (index vold) (index (snd zpair)))
                        (length (values data_new delta (index (fst zpair)))))),
     w).
Proof.
  unfold delta_zone, try_except, lift, delta_block, zone_difference, assign_values.
  cbv zeta.
  destruct (np_subtract (values data_new (index vnew) (index (fst zpair)))
              (values data_old (index vold) (index (snd zpair)))) as [arr|e];
    cbn [rbind].
  - destruct (Nat.eqb (length arr)
                (length (values data_new delta (index (fst zpair))))).
    + reflexivity.
    + unfold bind, emit, ret. rewrite delta_error_unwritable. reflexivity.
  - unfold bind, emit, ret. rewrite delta_error_unwritable. reflexivity.
Qed.

Lemma length_delta_block {np : Numpy} (a b : list float) (len : nat) :
  length (delta_block a b len) = len.
Proof.
  unfold delta_block, zone_difference.
  destruct (np_subtract a b) as [arr|e]; cbn [rbind].
  - destruct (Nat.eqb_spec (length arr) len) as [H|H];
      [exact H | apply repeat_length].
  - apply repeat_length.
Qed.

(** The zone loop of one delta variable.  It never raises and logs
    nothing; it writes the array of the delta variable on the zones of the
    pairs and nothing else. *)
Lemma delta_zones_run {np : Numpy} data_old vnew vold delta zpairs :
  forall data_new w,
  exists data_new',
    for_each zpairs (delta_zone data_old vnew vold delta) data_new w
    = (Ok data_new', w)
    /\ variable_names data_new' = variable_names data_new
    /\ zone_list data_new' = zone_list data_new
    /\ (forall v z, v <> delta -> values data_new' v z = values data_new v z)
    /\ (forall z, ~ In z (map (fun zp => index (fst zp)) zpairs) ->
                  values data_new' delta z = values data_new delta z)
    /\ (index vnew <> delta ->
        NoDup (map (fun zp => index (fst zp)) zpairs) ->
        forall zp, In zp zpairs ->
          values data_new' delta (index (fst zp))
          = delta_block (values data_new (index vnew) (index (fst zp)))
                        (values data_old (index vold) (index (snd zp)))
                        (length (values data_new delta (index (fst zp))))).
Proof.
  induction zpairs as [|zp zpairs IH]; intros data_new w.
  - exists data_new. cbn.
    repeat split; try reflexivity; intros; contradiction.
  - cbn [for_each].
    erewrite bind_ok by apply delta_zone_run.
    set (d1 := set_values data_new delta (index (fst zp)) _).
    destruct (IH d1 w) as [d2 [Hrun [Hn [Hz [Hother [Hout Hin]]]]]].
    exists d2. rewrite Hrun.
    split; [reflexivity|]. split; [rewrite Hn; reflexivity|].
    split; [rewrite Hz; reflexivity|].
    split.
    { intros v z Hv. rewrite (Hother v z Hv). subst d1. cbn [set_values values].
      destruct (Nat.eqb_spec v delta); [contradiction|]. reflexivity. }
    split.
    { intros z Hz'. cbn [map In] in Hz'.
      rewrite Hout by (intros Hc; apply Hz'; right; exact Hc).
      subst d1. cbn [set_values values].
      destruct (Nat.eqb_spec z (index (fst zp))) as [->|].
      - exfalso. apply Hz'. left. reflexivity.
      - rewrite andb_false_r. reflexivity. }
    intros Hvd Hnd zp' Hzp'. cbn [map] in Hnd. inversion Hnd as [|i l Hnotin Hnd']; subst.
    assert (Hread : forall z, values d1 (index vnew) z = values data_new (index vnew) z).
    { intros z. subst d1. cbn [set_values values].
      destruct (Nat.eqb_spec (index vnew) delta); [contradiction|]. reflexivity. }
    destruct Hzp' as [<-|Hzp'].
    + rewrite Hout by exact Hnotin.
      subst d1. cbn [set_values values]. rewrite !Nat.eqb_refl. cbn [andb].
      reflexivity.
    + pose proof (Hin Hvd Hnd' zp' Hzp') as Hval.
      assert (Hne : index (fst zp') <> index (fst zp)).
      { intros Heq. apply Hnotin. rewrite <- Heq.
        apply (in_map (fun zp => index (fst zp))). exact Hzp'. }
      assert (Hlen : length (values d1 delta (index (fst zp')))
                     = length (values data_new delta (index (fst zp')))).
      { subst d1. cbn [set_values values].
        destruct (Nat.eqb_spec (index (fst zp')) (index (fst zp))); [contradiction|].
        rewrite andb_false_r. reflexivity. }
      rewrite Hread, Hlen in Hval. exact Hval.
Qed.

Lemma delta_variable_skip {np : Numpy} data_old nskip zpairs data_new vpair w :
  skipped nskip vpair = true ->
  delta_variable data_old nskip zpairs data_new vpair w = (Ok data_new, w).
Proof.
  unfold delta_variable, skipped. cbv zeta. intros ->. reflexivity.
Qed.

Lemma delta_variable_keep {np : Numpy} data_old nskip zpairs data_new vpair w :
  skipped nskip vpair = false ->
  delta_variable data_old nskip zpairs data_new vpair w
  = for_each zpairs
      (delta_zone data_old (fst vpair) (snd vpair) (num_variables data_new))
      (add_variable data_new ("delta_" ++ name (fst vpair))%string) w.
Proof.
  unfold delta_variable, skipped. cbv zeta. intros ->. reflexivity.
Qed.

(** The variable loop.  It never raises and logs nothing; it appends one
    delta variable per kept pair, leaves the variables it found alone, and
    fills each delta array from the pair of arrays it belongs to. *)
Lemma delta_variables_run {np : Numpy} data_old nskip zpairs vpairs :
  forall data_new w,
  exists data_new',
    for_each vpairs (delta_variable data_old nskip zpairs) data_new w
    = (Ok data_new', w)
    /\ variable_names data_new'
       = variable_names data_new
         ++ map (fun vp => ("delta_" ++ name (fst vp))%string) (kept_pairs nskip vpairs)
    /\ zone_list data_new' = zone_list data_new
    /\ (forall v z, v < num_variables data_new ->
                    values data_new' v z = values data_new v z)
    /\ (NoDup (map (fun zp => index (fst zp)) zpairs) ->
        (forall vp, In vp vpairs -> index (fst vp) < num_variables data_new) ->
        forall i vp zp,
          nth_error (kept_pairs nskip vpairs) i = Some vp ->
          In zp zpairs ->
          values data_new' (num_variables data_new + i) (index (fst zp))
          = delta_block (values data_new (index (fst vp)) (index (fst zp)))
                        (values data_old (index (snd vp)) (index (snd zp)))
                        (num_points (nth (index (fst zp)) (zone_list data_new) no_zone))).
Proof.
  induction vpairs as [|vp vpairs IH]; intros data_new w.
  - exists data_new. cbn.
    split; [reflexivity|]. split; [rewrite app_nil_r; reflexivity|].
    split; [reflexivity|]. split; [reflexivity|].
    intros _ _ i vp zp H. destruct i; discriminate H.
  - cbn [for_each]. unfold kept_pairs. cbn [filter]. fold (kept_pairs nskip vpairs).
    destruct (skipped nskip vp) eqn:Hskip; cbn [negb].
    + erewrite bind_ok by (apply delta_variable_skip; exact Hskip).
      destruct (IH data_new w) as [d' [Hrun [Hn [Hz [Hold Hdelta]]]]].
      exists d'. split; [exact Hrun|]. split; [exact Hn|].
      split; [exact Hz|]. split; [exact Hold|].
      intros Hnd Hidx. apply Hdelta; [exact Hnd|].
      intros vp' Hvp'. apply Hidx. right. exact Hvp'.
    + set (a1 := add_variable data_new ("delta_" ++ name (fst vp))%string).
      destruct (delta_zones_run data_old (fst vp) (snd vp) (num_variables data_new)
                  zpairs a1 w)
        as [a2 [Hrun1 [Hn1 [Hz1 [Hother1 [Hout1 Hin1]]]]]].
      erewrite bind_ok
        by (rewrite (delta_variable_keep _ _ _ _ _ _ Hskip); exact Hrun1).
      destruct (IH a2 w) as [a3 [Hrun2 [Hn2 [Hz2 [Hold2 Hdelta2]]]]].
      assert (Hnum2 : num_variables a2 = S (num_variables data_new)).
      { unfold num_variables. rewrite Hn1. subst a1. cbn [add_variable variable_names].
        rewrite length_app. cbn. lia. }
      assert (Hzones2 : zone_list a2 = zone_list data_new).
      { rewrite Hz1. reflexivity. }
      assert (Hkeep : forall v z, v < num_variables data_new ->
                                  values a2 v z = values data_new v z).
      { intros v z Hv. rewrite Hother1 by lia. subst a1.
        cbn [add_variable values].
        destruct (Nat.eqb_spec v (num_variables data_new)); [lia | reflexivity]. }
      exists a3. rewrite Hrun2.
      split; [reflexivity|].
      split.
      { rewrite Hn2, Hn1. subst a1. cbn [add_variable variable_names map].
        rewrite <- app_assoc. reflexivity. }
      split; [rewrite Hz2; exact Hzones2|].
      split.
      { intros v z Hv. rewrite Hold2 by lia. apply Hkeep. exact Hv. }
      intros Hnd Hidx i vp' zp Hnth Hzp.
      destruct i as [|i].
      * cbn in Hnth. injection Hnth as <-.
        rewrite Nat.add_0_r, Hold2 by lia.
        assert (Hvd : index (fst vp) <> num_variables data_new).
        { specialize (Hidx vp (or_introl eq_refl)). lia. }
        pose proof (Hin1 Hvd Hnd zp Hzp) as Hval.
        assert (Hread : values a1 (index (fst vp)) (index (fst zp))
                        = values data_new (index (fst vp)) (index (fst zp))).
        { subst a1. cbn [add_variable values].
          destruct (Nat.eqb_spec (index (fst vp)) (num_variables data_new));
            [contradiction | reflexivity]. }
        assert (Hlen : length (values a1 (num_variables data_new) (index (fst zp)))
                       = num_points (nth (index (fst zp)) (zone_list data_new) no_zone)).
        { subst a1. cbn [add_variable values]. rewrite Nat.eqb_refl.
          apply repeat_length. }
        rewrite Hread, Hlen in Hval. exact Hval.
      * cbn in Hnth.
        assert (Hin' : In vp' vpairs).
        { apply nth_error_In in Hnth. unfold kept_pairs in Hnth.
          apply filter_In in Hnth. exact (proj1 Hnth). }
        assert (Hidx2 : forall q, In q vpairs -> index (fst q) < num_variables a2).
        { intros q Hq. specialize (Hidx q (or_intror Hq)). lia. }
        pose proof (Hdelta2 Hnd Hidx2 i vp' zp Hnth Hzp) as Hval.
        rewrite Hnum2, Hzones2 in Hval.
        rewrite (Hkeep (index (fst vp')) (index (fst zp)))
          in Hval by (apply Hidx; right; exact Hin').
        replace (num_variables data_new + S i) with (S (num_variables data_new) + i)
          by lia.
        exact Hval.
Qed.

Lemma range_in (a b i : nat) : In i (range a b) <-> a <= i < b.
Proof. unfold range. rewrite in_seq. lia. Qed.

Lemma kept_pairs_in nskip pairs vp :
  In vp (kept_pairs nskip pairs)
  <-> In vp pairs
      /\ (nskip <= Z.of_nat (index (fst vp)))%Z
      /\ (nskip <= Z.of_nat (index (snd vp)))%Z.
Proof.
  unfold kept_pairs, skipped. rewrite filter_In.
  destruct (Z.ltb_spec (Z.of_nat (index (fst vp))) nskip);
    destruct (Z.ltb_spec (Z.of_nat (index (snd vp))) nskip); cbn;
    intuition (try discriminate; try lia).
Qed.

(** [np.subtract] on two arrays of one length, and on an array and an
    array of length one *)
Lemma np_subtract_elementwise {np : Numpy} (a b : list float) :
  length a = length b ->
  np_subtract a b = Ok (map (fun xy => fsub (fst xy) (snd xy)) (combine a b)).
Proof.
  intros Hab. unfold np_subtract. apply Nat.eqb_eq in Hab. rewrite Hab. reflexivity.
Qed.

Lemma np_subtract_broadcast_right {np : Numpy} (a : list float) (y : float) :
  length a <> 1 ->
  np_subtract a [y] = Ok (map (fun x => fsub x y) a).
Proof.
  intros Ha. unfold np_subtract. cbn [length].
  destruct (Nat.eqb_spec (length a) 1) as [H|_]; [contradiction|].
  destruct a as [|x [|x' a]]; reflexivity.
Qed.

Lemma np_subtract_broadcast_left {np : Numpy} (x : float) (b : list float) :
  length b <> 1 ->
  np_subtract [x] b = Ok (map (fun y => fsub x y) b).
Proof.
  intros Hb. unfold np_subtract. cbn [length].
  destruct (Nat.eqb_spec 1 (length b)) as [H|_]; [congruence|].
  destruct b as [|y [|y' b]]; reflexivity.
Qed.

Lemma np_subtract_shape_mismatch {np : Numpy} (a b : list float) :
  length a <> length b ->
  length a <> 1 ->
  length b <> 1 ->
  exists e, np_subtract a b = Raise e.
Proof.
  intros Hab Ha Hb. unfold np_subtract.
  apply Nat.eqb_neq in Hab. rewrite Hab.
  destruct a as [|x [|x' a]]; destruct b as [|y [|y' b]]; cbn in *;
    try contradiction; try (eexists; reflexivity);
    try (exfalso; apply Ha; reflexivity); try (exfalso; apply Hb; reflexivity).
Qed.

(** The delta values of one zone when the subtraction gives [arr]: [arr]
    when it has the size of the zone, not-a-number throughout when it has
    not and the assignment raises. *)
Lemma delta_block_assigned {np : Numpy} (a b arr : list float) (len : nat) :
  np_subtract a b = Ok arr ->
  (length arr = len -> delta_block a b len = arr)
  /\ (length arr <> len -> delta_block a b len = repeat NaN len).
Proof.
  intros Hsub. unfold delta_block, zone_difference. rewrite Hsub. cbn [rbind].
  split; intros Hlen.
  - apply Nat.eqb_eq in Hlen. rewrite Hlen. reflexivity.
  - apply Nat.eqb_neq in Hlen. rewrite Hlen. reflexivity.
Qed.

(** The delta values of one zone, by the lengths of the two arrays and
    the size of the zone: every pair of arrays falls under one of the
    seven cases. *)
Lemma delta_block_cases {np : Numpy} (a b : list float) (len : nat) :
  (length a = length b -> length a = len ->
   delta_block a b len = map (fun xy => fsub (fst xy) (snd xy)) (combine a b))
  /\ (length a = length b -> length a <> len ->
      delta_block a b len = repeat NaN len)
  /\ (forall y, b = [y] -> length a <> 1 -> length a = len ->
      delta_block a b len = map (fun x => fsub x y) a)
  /\ (forall y, b = [y] -> length a <> 1 -> length a <> len ->
      delta_block a b len = repeat NaN len)
  /\ (forall x, a = [x] -> length b <> 1 -> length b = len ->
      delta_block a b len = map (fun y => fsub x y) b)
  /\ (forall x, a = [x] -> length b <> 1 -> length b <> len ->
      delta_block a b len = repeat NaN len)
  /\ (length a <> length b -> length a <> 1 -> length b <> 1 ->
      delta_block a b len = repeat NaN len).
Proof.
  assert (Hmap : length a = length b ->
                 length (map (fun xy => fsub (fst xy) (snd xy)) (combine a b))
                 = length a).
  { intros Hab. rewrite length_map, length_combine, <- Hab. apply Nat.min_id. }
  split; [|split; [|split; [|split; [|split; [|split]]]]].
  - intros Hab Hlen.
    apply (delta_block_assigned _ _ _ _ (np_subtract_elementwise a b Hab)).
    rewrite Hmap by exact Hab. exact Hlen.
  - intros Hab Hlen.
    apply (delta_block_assigned _ _ _ _ (np_subtract_elementwise a b Hab)).
    rewrite Hmap by exact Hab. exact Hlen.
  - intros y -> Ha Hlen.
    apply (delta_block_assigned _ _ _ _ (np_subtract_broadcast_right a y Ha)).
    rewrite length_map. exact Hlen.
  - intros y -> Ha Hlen.
    apply (delta_block_assigned _ _ _ _ (np_subtract_broadcast_right a y Ha)).
    rewrite length_map. exact Hlen.
  - intros x -> Hb Hlen.
    apply (delta_block_assigned _ _ _ _ (np_subtract_broadcast_left x b Hb)).
    rewrite length_map. exact Hlen.
  - intros x -> Hb Hlen.
    apply (delta_block_assigned _ _ _ _ (np_subtract_broadcast_left x b Hb)).
    rewrite length_map. exact Hlen.
  - intros Hab Ha Hb.
    destruct (np_subtract_shape_mismatch a b Hab Ha Hb) as [e He].
    unfold delta_block, zone_difference. rewrite He. reflexivity.
Qed.

(** A run of [difference_datasets] on two files that load, whose
    selections succeed and agree in length: it returns, writes one file,
    and the dataset it writes is the new dataset with the delta variables
    appended.  What it logs are the warnings of the two name loops. *)
Lemma difference_datasets_run {tp : Bindings} {np : Numpy}
  (datafile_new datafile_old datafile_out : string)
  (zone_patterns var_patterns : Patterns) (nskip : Z) (w : World)
  (data_new data_old : Dataset) (var_new var_old zone_new zone_old : list Entity) :
  grid_store w datafile_new = Some data_new ->
  grid_store w datafile_old = Some data_old ->
  get_variables data_new var_patterns = Ok var_new ->
  get_variables data_old var_patterns = Ok var_old ->
  length var_new = length var_old ->
  get_zones data_new zone_patterns = Ok zone_new ->
  get_zones data_old zone_patterns = Ok zone_old ->
  length zone_new = length zone_old ->
  exists w' data_new',
    difference_datasets datafile_new datafile_old datafile_out
      zone_patterns var_patterns nskip w = (Ok tt, w')
    /\ saved w'
       = saved w
         ++ [mkSave datafile_out (String.eqb (splitext_ext datafile_out) ".dat")
               data_new'
               (Some (range 0 (Z.to_nat nskip)
                      ++ range (num_variables data_new) (num_variables data_new')))
               (Some (map index zone_new))]
    /\ log w'
       = log w ++ name_warnings "Variable" 0 (combine var_new var_old)
               ++ name_warnings "Zone" 0 (combine zone_new zone_old)
    /\ variable_names data_new'
       = variable_names data_new
         ++ map (fun vp => ("delta_" ++ name (fst vp))%string)
                (kept_pairs nskip (combine var_new var_old))
    /\ zone_list data_new' = zone_list data_new
    /\ (forall v z, v < num_variables data_new ->
                    values data_new' v z = values data_new v z)
    /\ (NoDup (map index zone_new) ->
        (forall v, In v var_new -> index v < num_variables data_new) ->
        forall i vp zp,
          nth_error (kept_pairs nskip (combine var_new var_old)) i = Some vp ->
          In zp (combine zone_new zone_old) ->
          values data_new' (num_variables data_new + i) (index (fst zp))
          = delta_block (values data_new (index (fst vp)) (index (fst zp)))
                        (values data_old (index (snd vp)) (index (snd zp)))
                        (num_points (nth (index (fst zp)) (zone_list data_new) no_zone))).
Proof.
  intros Hnew Hold Hvn Hvo Hvlen Hzn Hzo Hzlen.
  pose proof (variable_warnings_run 0 (combine var_new var_old)
                (with_new_frame (with_new_frame w))) as Hwv.
  pose proof (zone_warnings_run 0 (combine zone_new zone_old)
                (add_log (with_new_frame (with_new_frame w))
                   (name_warnings "Variable" 0 (combine var_new var_old)))) as Hwz.
  destruct (delta_variables_run data_old nskip (combine zone_new zone_old)
              (combine var_new var_old) data_new
              (add_log (add_log (with_new_frame (with_new_frame w))
                          (name_warnings "Variable" 0 (combine var_new var_old)))
                 (name_warnings "Zone" 0 (combine zone_new zone_old))))
    as [data_new' [Hloop [Hnames [Hzones [Hkeep Hdelta]]]]].
  eexists. exists data_new'.
  split.
  { unfold difference_datasets.
    erewrite temp_frame_deleted_on_return.
    2: { erewrite temp_frame_deleted_on_return.
         2: { run_load Hnew. run_load Hold. run_ok Hvn. run_ok Hvo.
              apply Nat.eqb_eq in Hvlen. rewrite Hvlen. cbn [negb].
              erewrite bind_ok by reflexivity.
              run_ok Hwv. run_ok Hzn. run_ok Hzo.
              apply Nat.eqb_eq in Hzlen. rewrite Hzlen. cbn [negb].
              erewrite bind_ok by reflexivity.
              run_ok Hwz. cbv zeta. run_ok Hloop. reflexivity. }
         reflexivity. }
    reflexivity. }
  split; [reflexivity|].
  split; [cbn; rewrite <- !app_assoc; reflexivity|].
  split; [exact Hnames|]. split; [exact Hzones|]. split; [exact Hkeep|].
  intros Hnd Hidx. apply Hdelta.
  - assert (Hmap : map (fun zp : Entity * Entity => index (fst zp))
                       (combine zone_new zone_old) = map index zone_new).
    { clear - Hzlen. revert zone_old Hzlen.
      induction zone_new as [|z zs IH]; intros [|o os] Hlen; cbn in *;
        try reflexivity; try discriminate.
      rewrite (IH os) by lia. reflexivity. }
    rewrite Hmap. exact Hnd.
  - intros vp Hvp. apply Hidx.
    destruct vp as [vn vo]. apply in_combine_l in Hvp. exact Hvp.
Qed.

(** C8.  For every kept variable pair and every zone pair the delta array
    is decided by that pair alone.  When the subtraction or the assignment
    of line 226 raises, the array is not-a-number throughout; otherwise it
    holds the difference.  By the lengths of the two arrays: arrays of one
    length are subtracted element by element, an array of length one is
    subtracted from, or has subtracted from it, every element of the
    other, and the result is assigned when it has the size of the zone;
    arrays of two lengths neither of which is one, and results of another
    size than the zone, give not-a-number throughout.  The call returns
    and writes its output whatever the number of failing pairs.  The
    failures leave no trace in the log: the record of line 231 has three
    placeholders for two arguments and cannot be written, so the call logs
    the warnings of the two name loops and nothing else. *)
Theorem difference_nan_fill {tp : Bindings} {np : Numpy}
  (datafile_new datafile_old datafile_out : string)
  (zone_patterns var_patterns : Patterns) (nskip : Z) (w : World)
  (data_new data_old : Dataset) (var_new var_old zone_new zone_old : list Entity) :
  grid_store w datafile_new = Some data_new ->
  grid_store w datafile_old = Some data_old ->
  get_variables data_new var_patterns = Ok var_new ->
  get_variables data_old var_patterns = Ok var_old ->
  length var_new = length var_old ->
  get_zones data_new zone_patterns = Ok zone_new ->
  get_zones data_old zone_patterns = Ok zone_old ->
  length zone_new = length zone_old ->
  NoDup (map index zone_new) ->
  (forall v, In v var_new -> index v < num_variables data_new) ->
  exists w' call,
    difference_datasets datafile_new datafile_old datafile_out
      zone_patterns var_patterns nskip w = (Ok tt, w')
    /\ saved w' = saved w ++ [call]
    /\ log w'
       = log w ++ name_warnings "Variable" 0 (combine var_new var_old)
               ++ name_warnings "Zone" 0 (combine zone_new zone_old)
    /\ (forall r, In r (log w') -> In r (log w) \/ log_level r = WARNING)
    /\ forall i vp zp,
         nth_error (kept_pairs nskip (combine var_new var_old)) i = Some vp ->
         In zp (combine zone_new zone_old) ->
         let a := values data_new (index (fst vp)) (index (fst zp)) in
         let b := values data_old (index (snd vp)) (index (snd zp)) in
         let len := num_points (nth (index (fst zp)) (zone_list data_new) no_zone) in
         let delta := values (save_dataset call) (num_variables data_new + i)
                        (index (fst zp)) in
         nth_error (variable_names (save_dataset call)) (num_variables data_new + i)
         = Some ("delta_" ++ name (fst vp))%string
         /\ writable delta_error_format [name (snd zp); name (fst zp)] = false
         /\ (forall e, zone_difference a b len = Raise e -> delta = repeat NaN len)
         /\ (forall arr, zone_difference a b len = Ok arr -> delta = arr)
         /\ (length a = length b -> length a = len ->
             delta = map (fun xy => fsub (fst xy) (snd xy)) (combine a b))
         /\ (length a = length b -> length a <> len -> delta = repeat NaN len)
         /\ (forall y, b = [y] -> length a <> 1 -> length a = len ->
             delta = map (fun x => fsub x y) a)
         /\ (forall y, b = [y] -> length a <> 1 -> length a <> len ->
             delta = repeat NaN len)
         /\ (forall x, a = [x] -> length b <> 1 -> length b = len ->
             delta = map (fun y => fsub x y) b)
         /\ (forall x, a = [x] -> length b <> 1 -> length b <> len ->
             delta = repeat NaN len)
         /\ (length a <> length b -> length a <> 1 -> length b <> 1 ->
             delta = repeat NaN len).
Proof.
  intros Hnew Hold Hvn Hvo Hvlen Hzn Hzo Hzlen Hnd Hidx.
  destruct (difference_datasets_run datafile_new datafile_old datafile_out
              zone_patterns var_patterns nskip w data_new data_old
              var_new var_old zone_new zone_old
              Hnew Hold Hvn Hvo Hvlen Hzn Hzo Hzlen)
    as [w' [data_new' [Hrun [Hsaved [Hlog [Hnames [_ [_ Hdelta]]]]]]]].
  exists w'. eexists. split; [exact Hrun|]. split; [exact Hsaved|].
  split; [exact Hlog|].
  split.
  { intros r Hr. rewrite Hlog in Hr.
    apply in_app_or in Hr. destruct Hr as [Hr|Hr]; [left; exact Hr | right].
    apply in_app_or in Hr.
    destruct Hr as [Hr|Hr]; exact (name_warnings_level _ _ _ _ Hr). }
  intros i vp zp Hnth Hzp. cbv zeta. cbn [save_dataset].
  rewrite (Hdelta Hnd Hidx i vp zp Hnth Hzp).
  split.
  { rewrite Hnames. unfold num_variables.
    rewrite nth_error_app2 by lia.
    replace (length (variable_names data_new) + i - length (variable_names data_new))
      with i by lia.
    exact (map_nth_error _ _ _ Hnth). }
  split; [apply delta_error_unwritable|].
  split; [intros e He; unfold delta_block; rewrite He; reflexivity|].
  split; [intros arr Harr; unfold delta_block; rewrite Harr; reflexivity|].
  apply delta_block_cases.
Qed.

(** C9.  A delta variable named [delta_<new name>] is appended for each
    variable pair whose two indices are at least [nskip], and for those
    only.  The writer is given the indices below [nskip] and the indices
    of the delta variables, and the selected zones of the new dataset;
    the variables the new dataset came with keep their values. *)
Theorem difference_output_variables {tp : Bindings} {np : Numpy}
  (datafile_new datafile_old datafile_out : string)
  (zone_patterns var_patterns : Patterns) (nskip : Z) (w : World)
  (data_new data_old : Dataset) (var_new var_old zone_new zone_old : list Entity) :
  grid_store w datafile_new = Some data_new ->
  grid_store w datafile_old = Some data_old ->
  get_variables data_new var_patterns = Ok var_new ->
  get_variables data_old var_patterns = Ok var_old ->
  length var_new = length var_old ->
  get_zones data_new zone_patterns = Ok zone_new ->
  get_zones data_old zone_patterns = Ok zone_old ->
  length zone_new = length zone_old ->
  exists w' call vars_to_save,
    difference_datasets datafile_new datafile_old datafile_out
      zone_patterns var_patterns nskip w = (Ok tt, w')
    /\ saved w' = saved w ++ [call]
    /\ variable_names (save_dataset call)
       = variable_names data_new
         ++ map (fun vp => ("delta_" ++ name (fst vp))%string)
                (kept_pairs nskip (combine var_new var_old))
    /\ (forall vp,
          In vp (kept_pairs nskip (combine var_new var_old))
          <-> In vp (combine var_new var_old)
              /\ (nskip <= Z.of_nat (index (fst vp)))%Z
              /\ (nskip <= Z.of_nat (index (snd vp)))%Z)
    /\ save_variables call = Some vars_to_save
    /\ (forall i, i < num_variables (save_dataset call) ->
                  (In i vars_to_save
                   <-> (Z.of_nat i < nskip)%Z \/ num_variables data_new <= i))
    /\ save_zones call = Some (map index zone_new)
    /\ zone_list (save_dataset call) = zone_list data_new
    /\ (forall v z, v < num_variables data_new ->
                    values (save_dataset call) v z = values data_new v z).
Proof.
  intros Hnew Hold Hvn Hvo Hvlen Hzn Hzo Hzlen.
  destruct (difference_datasets_run datafile_new datafile_old datafile_out
              zone_patterns var_patterns nskip w data_new data_old
              var_new var_old zone_new zone_old
              Hnew Hold Hvn Hvo Hvlen Hzn Hzo Hzlen)
    as [w' [data_new' [Hrun [Hsaved [_ [Hnames [Hzones [Hkeep _]]]]]]]].
  exists w'. eexists. eexists. split; [exact Hrun|]. split; [exact Hsaved|].
  cbn [save_dataset save_variables save_zones].
  split; [exact Hnames|].
  split; [intros vp; apply kept_pairs_in|].
  split; [reflexivity|].
  split.
  { intros i Hi. rewrite in_app_iff, !range_in. lia. }
  split; [reflexivity|]. split; [exact Hzones | exact Hkeep].
Qed.

Lemma difference_output_variables_witness :
  let var_new := [mkEntity "x" 0; mkEntity "p" 1] in
  let zone_new := [mkEntity "a" 0; mkEntity "b" 1] in
  exists w' call vars_to_save,
    @difference_datasets literal_bindings ideal_numpy "new.plt" "old.plt" "delta.plt"
      PNone PNone 1 diff_session = (Ok tt, w')
    /\ saved w' = saved diff_session ++ [call]
    /\ variable_names (save_dataset call)
       = variable_names new_sample
         ++ map (fun vp => ("delta_" ++ name (fst vp))%string)
                (kept_pairs 1 (combine var_new var_new))
    /\ (forall vp,
          In vp (kept_pairs 1 (combine var_new var_new))
          <-> In vp (combine var_new var_new)
              /\ (1 <= Z.of_nat (index (fst vp)))%Z
              /\ (1 <= Z.of_nat (index (snd vp)))%Z)
    /\ save_variables call = Some vars_to_save
    /\ (forall i, i < num_variables (save_dataset call) ->
                  (In i vars_to_save
                   <-> (Z.of_nat i < 1)%Z \/ num_variables new_sample <= i))
    /\ save_zones call = Some (map index zone_new)
    /\ zone_list (save_dataset call) = zone_list new_sample
    /\ (forall v z, v < num_variables new_sample ->
                    values (save_dataset call) v z = values new_sample v z).
Proof.
  apply (@difference_output_variables literal_bindings ideal_numpy
      "new.plt" "old.plt" "delta.plt"
           PNone PNone 1%Z diff_session new_sample old_sample
           [mkEntity "x" 0; mkEntity "p" 1] [mkEntity "x" 0; mkEntity "p" 1]
           [mkEntity "a" 0; mkEntity "b" 1] [mkEntity "a" 0; mkEntity "b" 1]);
    reflexivity.
Defined.

(** The sample run: the new and the old file hold the variables [x] and
    [p] on the zones [a] and [b]; zone [b] has three points in the new
    file and two in the old one.  The run returns and writes one delta
    variable: on zone [a] it holds the differences, on zone [b] it is
    not-a-number throughout, and nothing is logged. *)
Lemma difference_nan_fill_witness :
  length (values new_sample 1 1) = 3
  /\ length (values old_sample 1 1) = 2
  /\ exists w' call,
       @difference_datasets literal_bindings ideal_numpy "new.plt" "old.plt" "delta.plt"
         PNone PNone 1 diff_session = (Ok tt, w')
       /\ saved w' = [call]
       /\ nth_error (variable_names (save_dataset call)) 2 = Some "delta_p"
       /\ values (save_dataset call) 2 0 = [Num (5 - 1); Num (7 - 2)]
       /\ values (save_dataset call) 2 1 = [NaN; NaN; NaN]
       /\ log w' = [].
Proof.
  split; [reflexivity|]. split; [reflexivity|].
  destruct (@difference_nan_fill literal_bindings ideal_numpy
              "new.plt" "old.plt" "delta.plt"
              PNone PNone 1%Z diff_session new_sample old_sample
              [mkEntity "x" 0; mkEntity "p" 1] [mkEntity "x" 0; mkEntity "p" 1]
              [mkEntity "a" 0; mkEntity "b" 1] [mkEntity "a" 0; mkEntity "b" 1]
              eq_refl eq_refl eq_refl eq_refl eq_refl eq_refl eq_refl eq_refl)
    as [w' [call [Hrun [Hsaved [Hlog [_ Hpairs]]]]]].
  - repeat constructor; cbn; intuition discriminate.
  - cbn. intros v [<-|[<-|[]]]; cbn; lia.
  - exists w', call.
    split; [exact Hrun|]. split; [exact Hsaved|].
    destruct (Hpairs 0 (mkEntity "p" 1, mkEntity "p" 1)
                (mkEntity "a" 0, mkEntity "a" 0) eq_refl
                (or_introl eq_refl))
      as [Hname [_ [_ [_ [Hzone_a _]]]]].
    destruct (Hpairs 0 (mkEntity "p" 1, mkEntity "p" 1)
                (mkEntity "b" 1, mkEntity "b" 1) eq_refl
                (or_intror (or_introl eq_refl)))
      as [_ [_ [_ [_ [_ [_ [_ [_ [_ [_ Hzone_b]]]]]]]]]].
    split; [exact Hname|].
    split; [exact (Hzone_a eq_refl eq_refl)|].
    split.
    + apply Hzone_b; cbn; discriminate.
    + exact Hlog.
Defined.

(** The same run, evaluated. *)
Lemma difference_sample_run :
  exists w' call,
    @difference_datasets literal_bindings ideal_numpy "new.plt" "old.plt" "delta.plt"
      PNone PNone 1 diff_session = (Ok tt, w')
    /\ saved w' = [call]
    /\ variable_names (save_dataset call) = ["x"; "p"; "delta_p"]
    /\ save_variables call = Some [0; 2]
    /\ save_zones call = Some [0; 1]
    /\ values (save_dataset call) 2 0 = [Num (5 - 1); Num (7 - 2)]
    /\ values (save_dataset call) 2 1 = [NaN; NaN; NaN]
    /\ log w' = [].
Proof.
  eexists. eexists. split; [reflexivity|]. cbn.
  repeat split; reflexivity.
Qed.

(** ** Entity selection: what is selected belongs to the catalog *)

Lemma enumerate_from_index (i : nat) (names : list string) (e : Entity) :
  In e (enumerate_from i names) -> i <= index e < i + length names.
Proof.
  revert i. induction names as [|n names IH]; intros i H; cbn in H; [destruct H|].
  destruct H as [<-|H]; cbn [index length]; [lia|].
  apply IH in H. lia.
Qed.

Lemma enumerate_from_nodup (i : nat) (names : list string) :
  NoDup (map index (enumerate_from i names)).
Proof.
  revert i. induction names as [|n names IH]; intros i; cbn; constructor.
  - intros H. apply in_map_iff in H. destruct H as [e [He Hin]].
    apply enumerate_from_index in Hin. lia.
  - apply IH.
Qed.

Lemma nodup_index_inj (cat : list Entity) (a b : Entity) :
  NoDup (map index cat) -> In a cat -> In b cat -> index a = index b -> a = b.
Proof.
  induction cat as [|c cat IH]; intros Hnd Ha Hb Hab; [destruct Ha|].
  cbn in Hnd. inversion Hnd as [|i l Hnotin Hnd']; subst.
  destruct Ha as [<-|Ha]; destruct Hb as [<-|Hb].
  - reflexivity.
  - exfalso. apply Hnotin. rewrite Hab. apply in_map. exact Hb.
  - exfalso. apply Hnotin. rewrite <- Hab. apply in_map. exact Ha.
  - apply IH; assumption.
Qed.

Lemma nodup_map_filter {A B} (f : A -> B) (g : A -> bool) (l : list A) :
  NoDup (map f l) -> NoDup (map f (filter g l)).
Proof.
  induction l as [|x l IH]; intros H; cbn; [constructor|].
  cbn in H. inversion H as [|y ys Hnotin Hnd]; subst.
  destruct (g x); [|apply IH; exact Hnd].
  cbn. constructor; [|apply IH; exact Hnd].
  intros Hin. apply Hnotin. apply in_map_iff in Hin. destruct Hin as [z [Hz Hin]].
  apply filter_In in Hin. rewrite <- Hz. apply in_map. exact (proj1 Hin).
Qed.

Lemma dict_set_in {V} (d : dict V) (k : string) (v : V) (k' : string) (v' : V) :
  In (k', v') (dict_set d k v) -> (k' = k /\ v' = v) \/ In (k', v') d.
Proof.
  induction d as [|[k0 v0] d IH]; cbn; intros H.
  - destruct H as [H|[]]. injection H as <- <-. left. split; reflexivity.
  - destruct (String.eqb_spec k0 k) as [->|Hne].
    + destruct H as [H|H].
      * injection H as <- <-. left. split; reflexivity.
      * right. right. exact H.
    + destruct H as [H|H].
      * right. left. exact H.
      * destruct (IH H) as [Heq|Hin]; [left; exact Heq | right; right; exact Hin].
Qed.

Lemma dict_set_keys {V} (d : dict V) (k : string) (v : V) :
  dict_keys (dict_set d k v)
  = if existsb (String.eqb k) (dict_keys d) then dict_keys d else dict_keys d ++ [k].
Proof.
  unfold dict_keys. induction d as [|[k0 v0] d IH]; cbn; [reflexivity|].
  rewrite (String.eqb_sym k k0).
  destruct (String.eqb_spec k0 k) as [->|Hne]; cbn; [reflexivity|].
  rewrite IH. destruct (existsb (String.eqb k) (map fst d)); reflexivity.
Qed.

Lemma matches_ok_set (cat : list Entity) (m : dict Entity) (v : Entity) :
  matches_ok cat m -> In v cat -> matches_ok cat (dict_set m (name v) v).
Proof.
  intros [Hval Hkeys] Hv. split.
  - intros k' v' H. apply dict_set_in in H.
    destruct H as [[-> ->]|H]; [split; [exact Hv | reflexivity] | exact (Hval _ _ H)].
  - rewrite dict_set_keys.
    destruct (existsb (String.eqb (name v)) (dict_keys m)) eqn:Hex; [exact Hkeys|].
    apply NoDup_app; [exact Hkeys | repeat constructor; intros [] |].
    intros k Hk [<-|[]].
    assert (Hin : str_in (name v) (dict_keys m) = true) by (apply str_in_iff; exact Hk).
    unfold str_in in Hin. congruence.
Qed.

Lemma collect_matches_ok {tp : Bindings} (cat : list Entity) (ps : list string) :
  matches_ok cat (collect_matches cat ps).
Proof.
  unfold collect_matches.
  assert (Hgen : forall m, matches_ok cat m ->
            matches_ok cat
              (fold_left
                 (fun matches p =>
                    fold_left (fun m v => dict_set m (name v) v)
                      (filter (fun e => fnmatch (name e) p) cat) matches) ps m)).
  { induction ps as [|p ps IH]; intros m Hm; cbn [fold_left]; [exact Hm|].
    apply IH.
    assert (Hsub : forall found, incl found cat -> forall m0, matches_ok cat m0 ->
              matches_ok cat (fold_left (fun m v => dict_set m (name v) v) found m0)).
    { induction found as [|v found IHf]; intros Hincl m0 Hm0; cbn [fold_left];
        [exact Hm0|].
      apply IHf.
      - intros x Hx. apply Hincl. right. exact Hx.
      - apply matches_ok_set; [exact Hm0 | apply Hincl; left; reflexivity]. }
    apply Hsub; [|exact Hm].
    intros x Hx. apply filter_In in Hx. exact (proj1 Hx). }
  apply Hgen. split; [intros k v [] | constructor].
Qed.

Lemma matches_ok_values (cat : list Entity) (m : dict Entity) :
  NoDup (map index cat) ->
  matches_ok cat m ->
  incl (dict_values m) cat /\ NoDup (map index (dict_values m)).
Proof.
  intros Hcat [Hval Hkeys]. unfold dict_values, dict_keys in *.
  induction m as [|[k v] m IH]; cbn.
  - split; [intros x [] | constructor].
  - cbn in Hkeys. inversion Hkeys as [|k0 ks Hnotin Hnd]; subst.
    destruct IH as [Hincl Hnodup].
    + intros k' v' H. apply Hval. right. exact H.
    + exact Hnd.
    + destruct (Hval k v (or_introl eq_refl)) as [Hv Hname].
      split.
      * intros x [<-|Hx]; [exact Hv | apply Hincl; exact Hx].
      * constructor; [|exact Hnodup].
        intros Hin. apply in_map_iff in Hin. destruct Hin as [v' [Hidx Hv']].
        apply in_map_iff in Hv'. destruct Hv' as [[k' v''] [Heq Hkv]].
        cbn in Heq. subst v''.
        destruct (Hval k' v' (or_intror Hkv)) as [Hv'cat Hname'].
        assert (v' = v) by (apply (nodup_index_inj cat); assumption).
        subst v'. apply Hnotin.
        replace k with k' by congruence.
        apply (in_map fst) in Hkv. exact Hkv.
Qed.

(** Whenever the source resolves the patterns itself ([None], a string, a
    non-empty list), what it selects are entities of the catalog, each at
    most once. *)
Lemma select_sound {tp : Bindings} kind cat patterns result :
  patterns <> PList [] ->
  NoDup (map index cat) ->
  select kind cat patterns = Ok result ->
  incl result cat /\ NoDup (map index result).
Proof.
  intros Hp Hcat H. unfold select in H.
  apply rbind_ok in H. destruct H as [r [Hr H]].
  apply rbind_ok in H. destruct H as [[] [_ H]]. injection H as <-.
  destruct patterns as [|s|[|p ps]].
  - cbn in Hr. injection Hr as <-. split; [apply incl_refl | exact Hcat].
  - cbn [isinstance_str] in Hr. rewrite orb_true_r in Hr. cbn in Hr.
    injection Hr as <-. split; [apply incl_filter | apply nodup_map_filter; exact Hcat].
  - contradiction.
  - cbn [py_not isinstance_str orb] in Hr. injection Hr as <-.
    apply matches_ok_values; [exact Hcat | apply collect_matches_ok].
Qed.

Lemma get_zones_distinct {tp : Bindings} ds patterns zones :
  patterns <> PList [] ->
  get_zones ds patterns = Ok zones ->
  NoDup (map index zones).
Proof.
  intros Hp H. unfold get_zones in H.
  apply (select_sound _ _ _ _ Hp) in H; [exact (proj2 H)|].
  apply enumerate_from_nodup.
Qed.

Lemma get_variables_in_range {tp : Bindings} ds patterns variables :
  patterns <> PList [] ->
  get_variables ds patterns = Ok variables ->
  forall v, In v variables -> index v < num_variables ds.
Proof.
  intros Hp H v Hv. unfold get_variables in H.
  apply (select_sound _ _ _ _ Hp) in H; [|apply enumerate_from_nodup].
  destruct H as [Hincl _]. apply Hincl in Hv.
  apply enumerate_from_index in Hv. unfold num_variables. lia.
Qed.

(** ** Revolution: a well-formed input is revolved *)

Lemma prod_snoc (dims : list nat) (n : nat) : prod (dims ++ [n]) = prod dims * n.
Proof.
  unfold prod. induction dims as [|d dims IH]; cbn; [lia|].
  rewrite IH. lia.
Qed.

Lemma fill_planes_ok (i npt : nat) (blk : list float) (n a : nat) (zd : ZoneData) :
  length blk = npt ->
  i < length zd ->
  (a + n) * npt <= length (nth i zd []) ->
  exists zd', rfor_each (seq a n) (fun zdata k => write_block i k npt blk zdata) zd
              = Ok zd'.
Proof.
  revert a zd. induction n as [|n IH]; intros a zd Hlen Hi Hfit.
  - exists zd. reflexivity.
  - cbn [seq rfor_each].
    destruct (write_block_fits i a npt blk zd) as [zd1 Hw]; [nia | exact Hlen |].
    rewrite Hw. cbn [rbind].
    apply write_block_inv in Hw; [|exact Hlen|exact Hi].
    destruct Hw as [Hl1 [Ha1 _]].
    apply IH; [exact Hlen | lia | rewrite Ha1; nia].
Qed.

Lemma fill_components_ok (iy iz npt : nat) (by_ bz : nat -> list float)
  (n a : nat) (zd : ZoneData) :
  (forall k, length (by_ k) = npt) ->
  (forall k, length (bz k) = npt) ->
  iy < length zd -> iz < length zd ->
  (a + n) * npt <= length (nth iy zd []) ->
  (a + n) * npt <= length (nth iz zd []) ->
  exists zd',
    rfor_each (seq a n)
      (fun zdata k =>
         (zdata <~ write_block iy k npt (by_ k) zdata;
          write_block iz k npt (bz k) zdata)%res) zd = Ok zd'.
Proof.
  revert a zd. induction n as [|n IH]; intros a zd Hy Hz Hiy Hiz Hfy Hfz.
  - exists zd. reflexivity.
  - cbn [seq rfor_each].
    destruct (write_block_fits iy a npt (by_ a) zd) as [zd1 Hw1]; [nia | apply Hy |].
    rewrite Hw1. cbn [rbind].
    apply write_block_inv in Hw1; [|apply Hy|exact Hiy].
    destruct Hw1 as [Hl1 [Ha1 _]].
    destruct (write_block_fits iz a npt (bz a) zd1) as [zd2 Hw2];
      [rewrite Ha1; nia | apply Hz |].
    rewrite Hw2. cbn [rbind].
    apply write_block_inv in Hw2; [|apply Hz|lia].
    destruct Hw2 as [Hl2 [Ha2 _]].
    apply IH; try assumption; try lia.
    + rewrite Ha2, Ha1. nia.
    + rewrite Ha2, Ha1. nia.
Qed.

Lemma revolve_variable_ok {tp : Bindings} {acc : Accessors} {np : Numpy}
  data_in zindex vvd ct st planes npt zd v :
  In v (variable_names data_in) ->
  turn_literal vvd v ->
  length (zone_values data_in v zindex) = npt ->
  zone_sized (output_variables (variable_names data_in) vvd) (planes * npt) zd ->
  exists zd',
    revolve_variable data_in zindex (output_variables (variable_names data_in) vvd)
      vvd ct st planes npt zd v = Ok zd'
    /\ zone_sized (output_variables (variable_names data_in) vvd) (planes * npt) zd'.
Proof.
  intros Hv Hturn Hvals [Hlen Hsize].
  assert (Hgoal : exists zd',
    revolve_variable data_in zindex (output_variables (variable_names data_in) vvd)
      vvd ct st planes npt zd v = Ok zd').
  { unfold revolve_variable. destruct Hturn as [Hlit Hcomp].
    rewrite !(zone_array_literal _ v Hlit).
    destruct (index_of_in v _ Hv) as [vin Hvin].
    unfold zone_values in Hvals. rewrite Hvin in Hvals |- *. cbn [rbind].
    destruct (index_of_in v (output_variables (variable_names data_in) vvd))
      as [iv Hiv].
    { rewrite output_variables_expected. apply expected_variables_input. exact Hv. }
    rewrite Hiv. cbn [rbind].
    assert (Hivlt : iv < length zd) by (rewrite Hlen; exact (index_of_lt _ _ _ Hiv)).
    destruct (fill_planes_ok iv npt (values data_in vin zindex) planes 0 zd)
      as [zd1 Hfill]; [exact Hvals | exact Hivlt | rewrite Hsize by exact Hivlt; lia |].
    rewrite Hfill. cbn [rbind].
    apply fill_planes_inv in Hfill; [|exact Hvals|exact Hivlt].
    destruct Hfill as [Hl1 [Ha1 _]].
    destruct (dict_get vvd v) as [[vy vz]|] eqn:Hget; [|exists zd1; reflexivity].
    destruct (expected_variables_components _ _ _ _ _ Hv Hget) as [Hy Hz].
    rewrite <- output_variables_expected in Hy, Hz.
    destruct (index_of_in _ _ Hy) as [iy Hiy].
    destruct (index_of_in _ _ Hz) as [iz Hiz].
    destruct (Hcomp vy vz eq_refl) as [Hlity Hlitz].
    rewrite (zone_array_literal _ vy Hlity), (zone_array_literal _ vz Hlitz).
    rewrite Hiy, Hiz. cbn [rbind].
    assert (Hiylt : iy < length zd) by (rewrite Hlen; exact (index_of_lt _ _ _ Hiy)).
    assert (Hizlt : iz < length zd) by (rewrite Hlen; exact (index_of_lt _ _ _ Hiz)).
    apply fill_components_ok.
    - intros k. rewrite length_np_multiply. exact Hvals.
    - intros k. rewrite length_np_multiply. exact Hvals.
    - lia.
    - lia.
    - rewrite Ha1, Hsize by exact Hiylt. lia.
    - rewrite Ha1, Hsize by exact Hizlt. lia. }
  destruct Hgoal as [zd' Hrun]. exists zd'. split; [exact Hrun|].
  apply revolve_variable_inv in Hrun; [|exact Hturn|exact Hvals|exact Hlen].
  destruct Hrun as [Hl [Ha _]]. split; [lia|].
  intros j Hj. rewrite Ha. apply Hsize. lia.
Qed.

Lemma revolve_variables_ok {tp : Bindings} {acc : Accessors} {np : Numpy}
  data_in zindex vvd ct st planes npt vars :
  forall zd,
  incl vars (variable_names data_in) ->
  (forall u, In u vars -> turn_literal vvd u) ->
  (forall u, In u vars -> length (zone_values data_in u zindex) = npt) ->
  zone_sized (output_variables (variable_names data_in) vvd) (planes * npt) zd ->
  exists zd',
    rfor_each vars
      (revolve_variable data_in zindex (output_variables (variable_names data_in) vvd)
         vvd ct st planes npt) zd = Ok zd'.
Proof.
  induction vars as [|u vars IH]; intros zd Hincl Hturn Hvals Hzd.
  - exists zd. reflexivity.
  - cbn [rfor_each].
    destruct (revolve_variable_ok data_in zindex vvd ct st planes npt zd u)
      as [zd1 [Hrun Hzd1]].
    + apply Hincl. left. reflexivity.
    + apply Hturn. left. reflexivity.
    + apply Hvals. left. reflexivity.
    + exact Hzd.
    + rewrite Hrun. cbn [rbind]. apply IH.
      * intros x Hx. apply Hincl. right. exact Hx.
      * intros x Hx. apply Hturn. right. exact Hx.
      * intros x Hx. apply Hvals. right. exact Hx.
      * exact Hzd1.
Qed.

Lemma nth_map_const {A B} (l : list A) (x d : B) (i : nat) :
  i < length l -> nth i (map (fun _ => x) l) d = x.
Proof.
  revert i. induction l as [|y l IH]; intros i Hi; cbn in Hi; [lia|].
  destruct i; cbn; [reflexivity | apply IH; lia].
Qed.

Lemma revolve_zone_ok {tp : Bindings} {acc : Accessors} {np : Numpy}
  data_in vvd ct st planes zindex zin :
  literal_names (expected_variables (variable_names data_in) vvd) ->
  is_ordered zin = true ->
  rank zin < 3 ->
  prod (firstn (rank zin) (dimensions zin)) = num_points zin ->
  (forall u, In u (variable_names data_in) ->
             length (zone_values data_in u zindex) = num_points zin) ->
  exists z,
    revolve_zone data_in (output_variables (variable_names data_in) vvd) vvd ct st
      planes zindex zin = Ok z.
Proof.
  intros Hlit Hord Hrank Hprod Hvals. unfold revolve_zone.
  rewrite Hord. apply Nat.ltb_lt in Hrank. rewrite Hrank. cbn [py_assert rbind].
  cbv zeta.
  destruct (revolve_variables_ok data_in zindex vvd ct st planes (num_points zin)
              (variable_names data_in)
              (map (fun _ => repeat (Num 0)
                      (num_points
                         (mkZone (zone_name zin)
                            (rank_of (firstn (rank zin) (dimensions zin) ++ [planes]))
                            (firstn (rank zin) (dimensions zin) ++ [planes]) true)))
                   (output_variables (variable_names data_in) vvd)))
    as [zd Hrun].
  - apply incl_refl.
  - apply turns_literal. exact Hlit.
  - exact Hvals.
  - split; [apply length_map|].
    intros j Hj. rewrite length_map in Hj.
    rewrite nth_map_const by exact Hj.
    rewrite repeat_length. unfold num_points at 1. cbn [dimensions].
    rewrite prod_snoc, Hprod. lia.
  - unfold prod in Hrun |- *. fold prod in Hrun |- *.
    change (fold_right Nat.mul 1 (dimensions zin)) with (num_points zin).
    rewrite Hrun. cbn [rbind]. eexists. reflexivity.
Qed.

Lemma collect_loop_ok {A B} (f : A -> Result B) (items : list A) :
  (forall x, In x items -> exists z, f x = Ok z) ->
  forall acc, exists res,
    rfor_each items (fun done x => (z <~ f x; Ok (done ++ [z]))%res) acc = Ok res.
Proof.
  induction items as [|x items IH]; intros Hall acc.
  - exists acc. reflexivity.
  - cbn [rfor_each]. destruct (Hall x (or_introl eq_refl)) as [z Hz].
    rewrite Hz. cbn [rbind]. apply IH.
    intros y Hy. apply Hall. right. exact Hy.
Qed.

Lemma enumerated_in {A} (l : list A) (a i : nat) (x : A) :
  In (i, x) (combine (seq a (length l)) l) -> a <= i /\ nth_error l (i - a) = Some x.
Proof.
  revert a. induction l as [|y l IH]; intros a H; cbn in H; [destruct H|].
  destruct H as [H|H].
  - injection H as <- <-. rewrite Nat.sub_diag. split; [lia | reflexivity].
  - apply IH in H. destruct H as [Hle Hnth]. split; [lia|].
    replace (i - a) with (S (i - S a)) by lia. exact Hnth.
Qed.

Lemma build_output_ok {tp : Bindings} {acc : Accessors} {np : Numpy}
  data_in vvd planes angle :
  (0 <= planes)%Z ->
  literal_names (expected_variables (variable_names data_in) vvd) ->
  revolvable data_in ->
  exists data_out, build_output data_in vvd planes angle = Ok data_out.
Proof.
  intros Hplanes Hlit Hwf. unfold build_output, linspace. cbv zeta.
  destruct (Z.ltb_spec planes 0) as [Hneg|_]; [lia|]. cbn [rbind].
  set (t := map (linspace_sample (Num 0) (np_radians angle) (Z.to_nat planes))
                (seq 0 (Z.to_nat planes))).
  unfold revolve_zones, enumerate.
  destruct (collect_loop_ok
              (fun iz : nat * Zone =>
                 revolve_zone data_in (output_variables (variable_names data_in) vvd) vvd
                   (map np_cos t) (map np_sin t)
                   (Z.to_nat planes) (fst iz) (snd iz))
              (combine (seq 0 (length (zone_list data_in))) (zone_list data_in)))
    with (acc := @nil (Zone * ZoneData)) as [zones Hzones].
  - intros [i zin] Hin. cbn [fst snd].
    apply enumerated_in in Hin. destruct Hin as [_ Hnth].
    rewrite Nat.sub_0_r in Hnth.
    destruct (Hwf i zin Hnth) as [Hord [Hrank [Hprod Hvals]]].
    apply revolve_zone_ok; assumption.
  - rewrite Hzones. cbn [rbind]. eexists. reflexivity.
Qed.

(** ** Statistics: no call returns *)

(** Whatever the session holds, [compute_statistics] does not return: the
    load fails, or the read of [ds] does. *)
Lemma compute_statistics_never_returns {tp : Bindings}
  (datafile_in : string) (variable_patterns zone_patterns : Patterns)
  (w w' : World) (stats : dict (list ZoneStats)) :
  compute_statistics datafile_in variable_patterns zone_patterns w <> (Ok stats, w').
Proof.
  intros H. unfold compute_statistics in H.
  apply py_with_temp_frame_ok_inv in H. destruct H as [w2 [H _]].
  apply bind_ok_inv in H. destruct H as [dataset [w1 [_ H]]].
  apply bind_ok_inv in H. destruct H as [ds [w3 [Hname _]]].
  apply lift_ok_inv in Hname. destruct Hname as [Hname _].
  discriminate Hname.
Qed.

(** ** Entity selection: order, duplicates and coverage of a pattern list *)

Lemma dict_get_set {V} (d : dict V) (k k' : string) (v : V) :
  dict_get (dict_set d k v) k' = if String.eqb k k' then Some v else dict_get d k'.
Proof.
  induction d as [|[k0 v0] d IH]; cbn.
  - reflexivity.
  - destruct (String.eqb_spec k0 k) as [->|Hne]; cbn.
    + destruct (String.eqb k k'); reflexivity.
    + rewrite IH. destruct (String.eqb_spec k0 k') as [->|Hne'].
      * destruct (String.eqb_spec k k'); [congruence | reflexivity].
      * reflexivity.
Qed.

Lemma dict_get_in {V} (d : dict V) (k : string) (v : V) :
  dict_get d k = Some v -> In (k, v) d.
Proof.
  induction d as [|[k0 v0] d IH]; cbn; [discriminate|].
  destruct (String.eqb_spec k0 k) as [->|Hne]; intros H.
  - injection H as ->. left. reflexivity.
  - right. exact (IH H).
Qed.

Lemma matches_ok_keys (cat : list Entity) (m : dict Entity) :
  matches_ok cat m -> dict_keys m = map name (dict_values m).
Proof.
  intros [Hval _]. unfold dict_keys, dict_values.
  induction m as [|[k v] m IH]; cbn; [reflexivity|].
  rewrite IH by (intros k' v' H; apply Hval; right; exact H).
  destruct (Hval k v (or_introl eq_refl)) as [_ ->]. reflexivity.
Qed.

Lemma enumerate_from_name (i : nat) (names : list string) (e : Entity) :
  In e (enumerate_from i names) -> nth_error names (index e - i) = Some (name e).
Proof.
  revert i. induction names as [|n names IH]; intros i H; cbn in H; [destruct H|].
  destruct H as [<-|H]; cbn [index name].
  - rewrite Nat.sub_diag. reflexivity.
  - pose proof (enumerate_from_index _ _ _ H) as Hi. specialize (IH _ H).
    replace (index e - i) with (S (index e - S i)) by lia. exact IH.
Qed.

(** What a list of patterns selects never holds two entities of one name:
    the matches are keyed by their name. *)
Theorem select_list_distinct_names {tp : Bindings} kind cat p ps result :
  select kind cat (PList (p :: ps)) = Ok result ->
  NoDup (map name result).
Proof.
  intros H. unfold select in H.
  apply rbind_ok in H. destruct H as [r [Hr H]].
  apply rbind_ok in H. destruct H as [[] [_ H]]. injection H as <-.
  cbn [py_not isinstance_str orb] in Hr. injection Hr as <-.
  pose proof (collect_matches_ok cat (p :: ps)) as Hok.
  rewrite <- (matches_ok_keys cat _ Hok). exact (proj2 Hok).
Qed.

Lemma select_list_distinct_names_witness :
  NoDup (map name [mkEntity "q" 1; mkEntity "p" 0]).
Proof.
  apply (@select_list_distinct_names literal_bindings "variables"
           (variable_catalog pair_sample) "q" ["*"]).
  reflexivity.
Defined.

Lemma select_list_result {tp : Bindings} kind cat p ps result :
  select kind cat (PList (p :: ps)) = Ok result ->
  result = dict_values (collect_matches cat (p :: ps)).
Proof.
  intros H. unfold select in H.
  apply rbind_ok in H. destruct H as [r [Hr H]].
  apply rbind_ok in H. destruct H as [[] [_ H]]. injection H as <-.
  cbn [py_not isinstance_str orb] in Hr. injection Hr as <-. reflexivity.
Qed.

Lemma select_list_ok {tp : Bindings} kind cat p ps :
  collect_matches cat (p :: ps) <> [] ->
  select kind cat (PList (p :: ps)) = Ok (dict_values (collect_matches cat (p :: ps))).
Proof.
  intros Hne. unfold select. cbn [py_not isinstance_str orb rbind].
  unfold dict_values.
  destruct (collect_matches cat (p :: ps)) as [|kv d]; [contradiction|].
  reflexivity.
Qed.

Lemma record_keys_prefix (found : list Entity) (m : dict Entity) :
  exists extra,
    dict_keys (fold_left (fun m v => dict_set m (name v) v) found m)
    = dict_keys m ++ extra.
Proof.
  revert m. induction found as [|v found IH]; intros m; cbn [fold_left].
  - exists []. rewrite app_nil_r. reflexivity.
  - destruct (IH (dict_set m (name v) v)) as [extra Hx]. rewrite Hx.
    rewrite dict_set_keys.
    destruct (existsb (String.eqb (name v)) (dict_keys m)).
    + exists extra. reflexivity.
    + exists (name v :: extra). rewrite <- app_assoc. reflexivity.
Qed.

Lemma collect_keys_prefix {tp : Bindings} (cat : list Entity) (qs : list string)
  (m : dict Entity) :
  exists extra,
    dict_keys
      (fold_left
         (fun matches p =>
            fold_left (fun m v => dict_set m (name v) v)
                      (filter (fun e => fnmatch (name e) p) cat) matches)
         qs m)
    = dict_keys m ++ extra.
Proof.
  revert m. induction qs as [|q qs IH]; intros m; cbn [fold_left].
  - exists []. rewrite app_nil_r. reflexivity.
  - destruct (IH (fold_left (fun m v => dict_set m (name v) v)
                    (filter (fun e => fnmatch (name e) q) cat) m)) as [x2 H2].
    destruct (record_keys_prefix (filter (fun e => fnmatch (name e) q) cat) m)
      as [x1 H1].
    rewrite H2, H1. exists (x1 ++ x2). rewrite <- app_assoc. reflexivity.
Qed.

(** Patterns added at the end of a list cannot reorder or drop what the
    list selects: the names selected by [p :: ps] are a prefix of the
    names selected by [p :: ps ++ qs]. *)
Theorem select_list_prefix_stable {tp : Bindings} kind cat p ps qs result :
  select kind cat (PList (p :: ps)) = Ok result ->
  exists result' extra,
    select kind cat (PList (p :: ps ++ qs)) = Ok result'
    /\ map name result' = map name result ++ extra.
Proof.
  intros H.
  pose proof (select_never_empty _ _ _ _ H) as Hne.
  pose proof (select_list_result _ _ _ _ _ H) as Hres.
  assert (Hfold : collect_matches cat (p :: ps ++ qs)
                  = fold_left
                      (fun matches p =>
                         fold_left (fun m v => dict_set m (name v) v)
                                   (filter (fun e => fnmatch (name e) p) cat) matches)
                      qs (collect_matches cat (p :: ps))).
  { unfold collect_matches. rewrite app_comm_cons, fold_left_app. reflexivity. }
  destruct (collect_keys_prefix cat qs (collect_matches cat (p :: ps)))
    as [extra Hkeys].
  rewrite <- Hfold in Hkeys.
  rewrite (matches_ok_keys cat _ (collect_matches_ok cat (p :: ps ++ qs))) in Hkeys.
  rewrite (matches_ok_keys cat _ (collect_matches_ok cat (p :: ps))) in Hkeys.
  rewrite <- Hres in Hkeys.
  exists (dict_values (collect_matches cat (p :: ps ++ qs))), extra.
  split; [|exact Hkeys].
  apply (select_list_ok kind cat p (ps ++ qs)).
  intros Hnil. rewrite Hnil in Hkeys. cbn in Hkeys.
  destruct result as [|e r]; [apply Hne; reflexivity | discriminate Hkeys].
Qed.

Lemma select_list_prefix_stable_witness :
  exists result' extra,
    @select literal_bindings "variables" (variable_catalog pair_sample)
      (PList ("q" :: [] ++ ["*"])) = Ok result'
    /\ map name result' = map name [mkEntity "q" 1] ++ extra.
Proof.
  apply (@select_list_prefix_stable literal_bindings "variables"
           (variable_catalog pair_sample) "q" [] ["*"] [mkEntity "q" 1]).
  reflexivity.
Defined.

Lemma nodup_name_inj (cat : list Entity) (a b : Entity) :
  NoDup (map name cat) -> In a cat -> In b cat -> name a = name b -> a = b.
Proof.
  induction cat as [|c cat IH]; intros Hnd Ha Hb Hab; [destruct Ha|].
  cbn in Hnd. inversion Hnd as [|i l Hnotin Hnd']; subst.
  destruct Ha as [<-|Ha]; destruct Hb as [<-|Hb].
  - reflexivity.
  - exfalso. apply Hnotin. rewrite Hab. apply in_map. exact Hb.
  - exfalso. apply Hnotin. rewrite <- Hab. apply in_map. exact Ha.
  - apply IH; assumption.
Qed.

Lemma record_matches_sound (P : Entity -> Prop) (found : list Entity)
  (m : dict Entity) :
  (forall v, In v found -> P v) ->
  (forall k v, In (k, v) m -> P v) ->
  forall k v, In (k, v) (fold_left (fun m v => dict_set m (name v) v) found m) -> P v.
Proof.
  revert m. induction found as [|x found IH]; intros m Hfound Hm k v H;
    cbn [fold_left] in H; [exact (Hm k v H)|].
  refine (IH (dict_set m (name x) x) _ _ k v H).
  - intros y Hy. apply Hfound. right. exact Hy.
  - intros k' v' Hin. apply dict_set_in in Hin.
    destruct Hin as [[_ ->]|Hin]; [apply Hfound; left; reflexivity | exact (Hm _ _ Hin)].
Qed.

Lemma collect_matches_sound {tp : Bindings} (cat : list Entity) (ps : list string)
  (k : string) (v : Entity) :
  In (k, v) (collect_matches cat ps) -> matched_by cat ps v.
Proof.
  unfold collect_matches.
  assert (Hgen : forall qs m,
            incl qs ps ->
            (forall k v, In (k, v) m -> matched_by cat ps v) ->
            forall k v,
              In (k, v)
                (fold_left
                   (fun matches p =>
                      fold_left (fun m v => dict_set m (name v) v)
                                (filter (fun e => fnmatch (name e) p) cat) matches)
                   qs m) ->
              matched_by cat ps v).
  { induction qs as [|q qs IH]; intros m Hincl Hm k' v' H; cbn [fold_left] in H;
      [exact (Hm k' v' H)|].
    refine (IH _ (fun x Hx => Hincl x (or_intror Hx)) _ k' v' H).
    apply record_matches_sound; [|exact Hm].
    intros e He. apply filter_In in He. destruct He as [Hcat Hmatch].
    split; [exact Hcat|]. exists q. split; [apply Hincl; left; reflexivity | exact Hmatch]. }
  apply Hgen; [apply incl_refl | intros k' v' []].
Qed.

Lemma record_matches_present (found : list Entity) (m : dict Entity) (k : string) :
  dict_get m k <> None \/ In k (map name found) ->
  dict_get (fold_left (fun m v => dict_set m (name v) v) found m) k <> None.
Proof.
  revert m. induction found as [|x found IH]; intros m H; cbn [fold_left].
  - destruct H as [H|[]]. exact H.
  - apply IH. rewrite dict_get_set.
    destruct (String.eqb_spec (name x) k) as [Heq|Hne]; [left; discriminate|].
    destruct H as [H|[H|H]]; [left; exact H | contradiction | right; exact H].
Qed.

Lemma collect_matches_present {tp : Bindings} (cat : list Entity) (ps : list string)
  (e : Entity) :
  matched_by cat ps e -> dict_get (collect_matches cat ps) (name e) <> None.
Proof.
  intros [Hcat [q [Hq Hmatch]]]. unfold collect_matches.
  assert (Hgen : forall qs m,
            dict_get m (name e) <> None \/ In q qs ->
            dict_get
              (fold_left
                 (fun matches p =>
                    fold_left (fun m v => dict_set m (name v) v)
                              (filter (fun e => fnmatch (name e) p) cat) matches)
                 qs m) (name e) <> None).
  { induction qs as [|q' qs IH]; intros m H; cbn [fold_left].
    - destruct H as [H|[]]. exact H.
    - apply IH. destruct H as [H|[->|H]].
      + left. apply record_matches_present. left. exact H.
      + left. apply record_matches_present. right.
        apply in_map. apply filter_In. split; assumption.
      + right. exact H. }
  apply Hgen. right. exact Hq.
Qed.

(** In a dataset whose names are unique, a list of patterns selects
    exactly the entities whose name matches at least one pattern. *)
Theorem select_list_exact {tp : Bindings} kind cat p ps result :
  NoDup (map name cat) ->
  select kind cat (PList (p :: ps)) = Ok result ->
  forall e, In e result <-> matched_by cat (p :: ps) e.
Proof.
  intros Hnd H e. apply select_list_result in H. subst result.
  unfold dict_values. split.
  - intros Hin. apply in_map_iff in Hin. destruct Hin as [[k v] [Heq Hin]].
    cbn in Heq. subst v. exact (collect_matches_sound _ _ _ _ Hin).
  - intros Hm. pose proof (collect_matches_present _ _ _ Hm) as Hpresent.
    destruct (dict_get (collect_matches cat (p :: ps)) (name e)) as [v|] eqn:Hget;
      [|contradiction].
    apply dict_get_in in Hget.
    destruct (proj1 (collect_matches_ok cat (p :: ps)) _ _ Hget) as [Hv Hname].
    assert (v = e) by (apply (nodup_name_inj cat); [exact Hnd | exact Hv | exact (proj1 Hm) | exact Hname]).
    subst v. apply in_map_iff. exists (name e, e). split; [reflexivity | exact Hget].
Qed.

Lemma select_list_exact_witness :
  In (mkEntity "p" 0) [mkEntity "q" 1; mkEntity "p" 0]
  <-> @matched_by literal_bindings (variable_catalog pair_sample) ["q"; "*"]
        (mkEntity "p" 0).
Proof.
  apply (@select_list_exact literal_bindings "variables"
           (variable_catalog pair_sample) "q" ["*"]).
  - cbn. repeat constructor; cbn; intuition discriminate.
  - reflexivity.
Defined.

(** What [get_variables] and [get_zones] return are variables and zones
    of the dataset, each at most once: the index of a returned entity is
    in range and holds its name, and the list is never empty. *)
Theorem selection_yields_dataset_entities {tp : Bindings}
  (ds : Dataset) (patterns : Patterns) (result : list Entity) :
  patterns <> PList [] ->
  (get_variables ds patterns = Ok result ->
   result <> [] /\ NoDup (map index result)
   /\ forall v, In v result -> nth_error (variable_names ds) (index v) = Some (name v))
  /\ (get_zones ds patterns = Ok result ->
      result <> [] /\ NoDup (map index result)
      /\ forall z, In z result ->
                   option_map zone_name (nth_error (zone_list ds) (index z))
                   = Some (name z)).
Proof.
  intros Hp. split; intros H.
  - split; [exact (select_never_empty _ _ _ _ H)|].
    unfold get_variables in H.
    apply (select_sound _ _ _ _ Hp) in H; [|apply enumerate_from_nodup].
    destruct H as [Hincl Hnd]. split; [exact Hnd|].
    intros v Hv. apply Hincl in Hv. apply enumerate_from_name in Hv.
    rewrite Nat.sub_0_r in Hv. exact Hv.
  - split; [exact (select_never_empty _ _ _ _ H)|].
    unfold get_zones in H.
    apply (select_sound _ _ _ _ Hp) in H; [|apply enumerate_from_nodup].
    destruct H as [Hincl Hnd]. split; [exact Hnd|].
    intros z Hz. apply Hincl in Hz. apply enumerate_from_name in Hz.
    rewrite Nat.sub_0_r, nth_error_map in Hz. exact Hz.
Qed.

Lemma selection_yields_dataset_entities_witness :
  (let result := [mkEntity "q" 1] in
   result <> [] /\ NoDup (map index result)
   /\ forall v, In v result ->
                nth_error (variable_names pair_sample) (index v) = Some (name v))
  /\ (let result := [mkEntity "a" 0; mkEntity "b" 1] in
      result <> [] /\ NoDup (map index result)
      /\ forall z, In z result ->
                   option_map zone_name (nth_error (zone_list new_sample) (index z))
                   = Some (name z)).
Proof.
  split.
  - apply (proj1 (@selection_yields_dataset_entities literal_bindings pair_sample
                    (PStr "q") [mkEntity "q" 1] ltac:(discriminate))).
    reflexivity.
  - apply (proj2 (@selection_yields_dataset_entities literal_bindings new_sample
                    PNone [mkEntity "a" 0; mkEntity "b" 1] ltac:(discriminate))).
    reflexivity.
Defined.

(** ** Frames and files: what a call leaves behind *)

Lemma filter_new_frame (frames : list nat) (n : nat) :
  (forall f, In f frames -> f < n) ->
  filter (fun f => negb (Nat.eqb f n)) (frames ++ [n]) = frames.
Proof.
  intros Hlt. rewrite filter_app. cbn. rewrite Nat.eqb_refl. cbn.
  rewrite app_nil_r. induction frames as [|f frames IH]; cbn; [reflexivity|].
  destruct (Nat.eqb_spec f n) as [->|_].
  - specialize (Hlt n (or_introl eq_refl)). lia.
  - cbn. rewrite IH; [reflexivity|]. intros g Hg. apply Hlt. right. exact Hg.
Qed.

Lemma untouched_bind {A B} (m : M A) (k : A -> M B) :
  untouched m -> (forall a, untouched (k a)) -> untouched (bind m k).
Proof.
  intros Hm Hk w r w' H. unfold bind in H.
  destruct (m w) as [[a|e] w1] eqn:Hmw.
  - destruct (Hk a _ _ _ H) as [H1 [H2 H3]].
    destruct (Hm _ _ _ Hmw) as [G1 [G2 G3]].
    repeat split; congruence.
  - injection H as _ <-. exact (Hm _ _ _ Hmw).
Qed.

Lemma untouched_lift {A} (r : Result A) : untouched (lift r).
Proof. intros w r' w' H. unfold lift in H. injection H as _ <-. auto. Qed.

Lemma untouched_ret {A} (a : A) : untouched (ret a).
Proof. intros w r' w' H. unfold ret in H. injection H as _ <-. auto. Qed.

Lemma untouched_raise {A} (e : exn) : untouched (@raise A e).
Proof. intros w r' w' H. unfold raise in H. injection H as _ <-. auto. Qed.

Lemma untouched_emit lvl fmt args : untouched (emit lvl fmt args).
Proof.
  intros w r' w' H. unfold emit in H. injection H as _ <-.
  destruct (writable fmt args); auto.
Qed.

Lemma untouched_load path frame : untouched (load_tecplot path frame).
Proof.
  intros w r' w' H. unfold load_tecplot in H.
  destruct (grid_store w path); injection H as _ <-; auto.
Qed.

Lemma untouched_create frame n : untouched (create_dataset frame n).
Proof. intros w r' w' H. unfold create_dataset in H. injection H as _ <-. auto. Qed.

Lemma untouched_warn what i pairs : untouched (warn_name_mismatch what i pairs).
Proof.
  intros w r w' H. destruct (warn_name_mismatch_run what i pairs w) as [records Hr].
  rewrite Hr in H. injection H as _ <-. auto.
Qed.

Lemma untouched_delta_loop {np : Numpy} data_old nskip zpairs vpairs data_new :
  untouched (for_each vpairs (delta_variable data_old nskip zpairs) data_new).
Proof.
  intros w r w' H.
  destruct (delta_variables_run data_old nskip zpairs vpairs data_new w)
    as [d [Hr _]].
  rewrite Hr in H. injection H as _ <-. auto.
Qed.

Lemma fails_bind {A B} (m : M A) (k : A -> M B) :
  untouched m -> (forall a, fails_leaving 0 (k a)) -> fails_leaving 0 (bind m k).
Proof.
  intros Hm Hk w e w' H. unfold bind in H.
  destruct (m w) as [[a|e0] w1] eqn:Hmw.
  - destruct (Hk a _ _ _ H) as [H1 [H2 H3]].
    destruct (Hm _ _ _ Hmw) as [G1 [G2 G3]].
    rewrite H1, H2, H3, G1, G2, G3. auto.
  - injection H as _ <-. destruct (Hm _ _ _ Hmw) as [G1 [G2 G3]].
    cbn [seq]. rewrite app_nil_r, Nat.add_0_r. auto.
Qed.

Lemma fails_write filename dataset variables zones :
  fails_leaving 0 (write_dataset filename dataset variables zones).
Proof. intros w e w' H. unfold write_dataset in H. discriminate H. Qed.

Lemma fails_with {B} (n : nat) (body : nat -> M B) :
  (forall frame, fails_leaving n (body frame)) ->
  fails_leaving (S n) (py_with temp_frame body).
Proof.
  intros Hbody w e w' H. unfold py_with in H.
  cbn [before_yield after_yield temp_frame] in H. rewrite add_frame_run in H.
  destruct (body (next_frame w) (with_new_frame w)) as [[b|e0] w2] eqn:Hb.
  - cbn in H. discriminate H.
  - injection H as _ <-. destruct (Hbody _ _ _ _ Hb) as [H1 [H2 H3]].
    cbn [with_new_frame saved page_frames next_frame] in H1, H2, H3.
    rewrite H1, H2, H3. cbn [seq]. rewrite <- app_assoc. cbn [app].
    repeat split. lia.
Qed.

Lemma extract_fails {tp : Bindings} datafile_in datafile_out zone_patterns var_patterns :
  fails_leaving 1 (extract datafile_in datafile_out zone_patterns var_patterns).
Proof.
  unfold extract. apply fails_with. intros frame.
  apply fails_bind; [apply untouched_load|]. intros ds.
  apply fails_bind; [apply untouched_lift|]. intros zones.
  apply fails_bind; [apply untouched_lift|]. intros variables.
  apply fails_write.
Qed.

Lemma difference_fails {tp : Bindings} {np : Numpy}
  datafile_new datafile_old datafile_out zone_patterns var_patterns nskip :
  fails_leaving 2 (difference_datasets datafile_new datafile_old datafile_out
                     zone_patterns var_patterns nskip).
Proof.
  unfold difference_datasets. apply fails_with. intros frame_new.
  apply fails_with. intros frame_old.
  apply fails_bind; [apply untouched_load|]. intros data_new.
  apply fails_bind; [apply untouched_load|]. intros data_old. cbv zeta.
  apply fails_bind; [apply untouched_lift|]. intros var_new.
  apply fails_bind; [apply untouched_lift|]. intros var_old.
  apply fails_bind.
  { destruct (negb (Nat.eqb (length var_new) (length var_old))); [|apply untouched_ret].
    apply untouched_bind; [apply untouched_lift|]. intros p.
    apply untouched_bind; [apply untouched_emit|]. intros _. apply untouched_raise. }
  intros _.
  apply fails_bind; [apply untouched_warn|]. intros _.
  apply fails_bind; [apply untouched_lift|]. intros zone_new.
  apply fails_bind; [apply untouched_lift|]. intros zone_old.
  apply fails_bind.
  { destruct (negb (Nat.eqb (length zone_new) (length zone_old))); [|apply untouched_ret].
    apply untouched_bind; [apply untouched_lift|]. intros p.
    apply untouched_bind; [apply untouched_emit|]. intros _. apply untouched_raise. }
  intros _.
  apply fails_bind; [apply untouched_warn|]. intros _.
  apply fails_bind; [apply untouched_delta_loop|]. intros data_new'.
  apply fails_write.
Qed.

Lemma revolve_fails {tp : Bindings} {acc : Accessors} {np : Numpy}
  datafile_in datafile_out radial_coord planes angle vector_vars :
  fails_leaving 2 (revolve_dataset datafile_in datafile_out radial_coord planes angle
                     vector_vars).
Proof.
  unfold revolve_dataset. cbv zeta. apply fails_with. intros frame_in.
  apply fails_with. intros frame_out.
  apply fails_bind; [apply untouched_load|]. intros data_in.
  apply fails_bind; [apply untouched_lift|]. intros vvd.
  apply fails_bind; [apply untouched_create|]. intros _.
  apply fails_bind; [apply untouched_lift|]. intros data_out.
  apply fails_write.
Qed.

(** A call of [extract], [difference_datasets] or [revolve_dataset] that
    raises has written no file, and every temporary frame it added is
    still on the page: one for [extract], two for the other two. *)
Theorem failure_leaves_frames_and_no_file {tp : Bindings} {acc : Accessors} {np : Numpy} :
  (forall datafile_in datafile_out zone_patterns var_patterns w e w',
      extract datafile_in datafile_out zone_patterns var_patterns w = (Raise e, w') ->
      saved w' = saved w
      /\ page_frames w' = page_frames w ++ [next_frame w])
  /\ (forall datafile_new datafile_old datafile_out zone_patterns var_patterns nskip
             w e w',
        difference_datasets datafile_new datafile_old datafile_out
          zone_patterns var_patterns nskip w = (Raise e, w') ->
        saved w' = saved w
        /\ page_frames w' = page_frames w ++ [next_frame w; S (next_frame w)])
  /\ (forall datafile_in datafile_out radial_coord planes angle vector_vars w e w',
        revolve_dataset datafile_in datafile_out radial_coord planes angle vector_vars w
        = (Raise e, w') ->
        saved w' = saved w
        /\ page_frames w' = page_frames w ++ [next_frame w; S (next_frame w)]).
Proof.
  split; [|split].
  - intros fi fo zp vp w e w' H.
    destruct (extract_fails fi fo zp vp w e w' H) as [H1 [H2 _]]. split; assumption.
  - intros fn fo fout zp vp nskip w e w' H.
    destruct (difference_fails fn fo fout zp vp nskip w e w' H) as [H1 [H2 _]].
    split; assumption.
  - intros fi fo rc planes angle vv w e w' H.
    destruct (revolve_fails fi fo rc planes angle vv w e w' H) as [H1 [H2 _]].
    split; assumption.
Qed.

Lemma failure_leaves_frames_and_no_file_witness :
  (let run := @extract literal_bindings "in.plt" "out.plt" (PStr "none") PNone
                (session [("in.plt", pair_sample)]) in
   saved (snd run) = [] /\ page_frames (snd run) = [0])
  /\ (let run := @difference_datasets literal_bindings ideal_numpy
                   "new.plt" "old.plt" "delta.plt"
                   PNone PNone 3 (session [("new.plt", pair_sample)]) in
      saved (snd run) = [] /\ page_frames (snd run) = [0; 1])
  /\ (let run := @revolve_dataset literal_bindings literal_accessors ideal_numpy
                   "in.plt" "out.plt" RNone (-1) (Num 180) VNone
                   (session [("in.plt", pair_sample)]) in
      saved (snd run) = [] /\ page_frames (snd run) = [0; 1]).
Proof.
  destruct (@failure_leaves_frames_and_no_file
              literal_bindings literal_accessors ideal_numpy) as [He [Hd Hr]].
  split; [|split].
  - apply (He "in.plt" "out.plt" (PStr "none") PNone
              (session [("in.plt", pair_sample)])
              (AssertionError "No zones in dataset matching n o n e")).
    reflexivity.
  - apply (Hd "new.plt" "old.plt" "delta.plt" PNone PNone 3%Z
              (session [("new.plt", pair_sample)]) (TecplotError "old.plt")).
    reflexivity.
  - apply (Hr "in.plt" "out.plt" RNone (-1)%Z (Num 180) VNone
              (session [("in.plt", pair_sample)])
              (ValueError "Number of samples, -1, must be non-negative.")).
    reflexivity.
Defined.

(** ** [extract]: the file it writes *)

(** A run of [extract] whose two selections succeed writes one file: the
    loaded dataset with the selected variables and zones, in the order of
    the selections.  The temporary frame is gone from the page and nothing
    is logged. *)
Theorem extract_writes_selection {tp : Bindings}
  (datafile_in datafile_out : string) (zone_patterns var_patterns : Patterns)
  (w : World) (ds : Dataset) (zones variables : list Entity) :
  grid_store w datafile_in = Some ds ->
  get_zones ds zone_patterns = Ok zones ->
  get_variables ds var_patterns = Ok variables ->
  fresh_frames w ->
  exists w',
    extract datafile_in datafile_out zone_patterns var_patterns w = (Ok tt, w')
    /\ saved w'
       = saved w
         ++ [mkSave datafile_out (String.eqb (splitext_ext datafile_out) ".dat") ds
               (Some (map index variables)) (Some (map index zones))]
    /\ page_frames w' = page_frames w
    /\ log w' = log w.
Proof.
  intros Hload Hz Hv Hfresh. eexists. split.
  { unfold extract. erewrite temp_frame_deleted_on_return.
    2: { run_load Hload. run_ok Hz. run_ok Hv. reflexivity. }
    reflexivity. }
  cbn. split; [reflexivity|]. split; [|reflexivity].
  apply filter_new_frame. exact Hfresh.
Qed.

Lemma extract_writes_selection_witness :
  let w := session [("in.plt", pair_sample)] in
  exists w',
    @extract literal_bindings "in.plt" "out.dat" (PStr "zone1") (PList ["q"]) w
    = (Ok tt, w')
    /\ saved w' = saved w ++ [mkSave "out.dat" (String.eqb (splitext_ext "out.dat") ".dat")
                                     pair_sample
                                     (Some (map index [mkEntity "q" 1]))
                                     (Some (map index [mkEntity "zone1" 0]))]
    /\ page_frames w' = page_frames w
    /\ log w' = log w.
Proof.
  apply (@extract_writes_selection literal_bindings "in.plt" "out.dat"
           (PStr "zone1") (PList ["q"]) (session [("in.plt", pair_sample)])
           pair_sample [mkEntity "zone1" 0] [mkEntity "q" 1]);
    try reflexivity.
  intros f [].
Defined.

(** ** Differencing: warnings, self-difference and the skip count *)

(** Names that differ between positionally paired variables or zones do
    not stop the run: it returns, logs one warning per differing pair, and
    leaves the page with the frames it had. *)
Theorem difference_tolerates_renaming {tp : Bindings} {np : Numpy}
  (datafile_new datafile_old datafile_out : string)
  (zone_patterns var_patterns : Patterns) (nskip : Z) (w : World)
  (data_new data_old : Dataset) (var_new var_old zone_new zone_old : list Entity) :
  grid_store w datafile_new = Some data_new ->
  grid_store w datafile_old = Some data_old ->
  get_variables data_new var_patterns = Ok var_new ->
  get_variables data_old var_patterns = Ok var_old ->
  length var_new = length var_old ->
  get_zones data_new zone_patterns = Ok zone_new ->
  get_zones data_old zone_patterns = Ok zone_old ->
  length zone_new = length zone_old ->
  fresh_frames w ->
  exists w',
    difference_datasets datafile_new datafile_old datafile_out
      zone_patterns var_patterns nskip w = (Ok tt, w')
    /\ page_frames w' = page_frames w
    /\ (forall j vnew vold,
          nth_error (combine var_new var_old) j = Some (vnew, vold) ->
          name vnew <> name vold ->
          In (mkLog WARNING "Variable pair %d has mismatching names: %s != %s"
                    [str_of_nat j; name vnew; name vold]) (log w'))
    /\ (forall j znew zold,
          nth_error (combine zone_new zone_old) j = Some (znew, zold) ->
          name znew <> name zold ->
          In (mkLog WARNING "Zone pair %d has mismatching names: %s != %s"
                    [str_of_nat j; name znew; name zold]) (log w')).
Proof.
  intros Hnew Hold Hvn Hvo Hvlen Hzn Hzo Hzlen Hfresh.
  pose proof (variable_warnings_run 0 (combine var_new var_old)
                (with_new_frame (with_new_frame w))) as Hwv.
  pose proof (zone_warnings_run 0 (combine zone_new zone_old)
                (add_log (with_new_frame (with_new_frame w))
                   (name_warnings "Variable" 0 (combine var_new var_old)))) as Hwz.
  destruct (delta_variables_run data_old nskip (combine zone_new zone_old)
              (combine var_new var_old) data_new
              (add_log (add_log (with_new_frame (with_new_frame w))
                          (name_warnings "Variable" 0 (combine var_new var_old)))
                 (name_warnings "Zone" 0 (combine zone_new zone_old))))
    as [data_new' [Hloop _]].
  eexists. split.
  { unfold difference_datasets.
    erewrite temp_frame_deleted_on_return.
    2: { erewrite temp_frame_deleted_on_return.
         2: { run_load Hnew. run_load Hold. run_ok Hvn. run_ok Hvo.
              apply Nat.eqb_eq in Hvlen. rewrite Hvlen. cbn [negb].
              erewrite bind_ok by reflexivity.
              run_ok Hwv. run_ok Hzn. run_ok Hzo.
              apply Nat.eqb_eq in Hzlen. rewrite Hzlen. cbn [negb].
              erewrite bind_ok by reflexivity.
              run_ok Hwz. cbv zeta. run_ok Hloop. reflexivity. }
         reflexivity. }
    reflexivity. }
  cbn [snd delete_frame page_frames log add_log with_new_frame next_frame].
  split; [|split].
  - rewrite (filter_new_frame (page_frames w ++ [next_frame w]) (S (next_frame w))).
    + apply filter_new_frame. exact Hfresh.
    + intros f Hf. apply in_app_or in Hf. destruct Hf as [Hf|[<-|[]]]; [|lia].
      specialize (Hfresh f Hf). lia.
  - intros j vnew vold Hnth Hne.
    apply in_or_app. left. apply in_or_app. right.
    exact (name_warnings_in "Variable" 0 _ j vnew vold Hnth Hne).
  - intros j znew zold Hnth Hne.
    apply in_or_app. right.
    exact (name_warnings_in "Zone" 0 _ j znew zold Hnth Hne).
Qed.

Lemma difference_tolerates_renaming_witness :
  exists w',
    @difference_datasets literal_bindings ideal_numpy "new.plt" "old.plt" "delta.plt"
      PNone PNone 0 renaming_session = (Ok tt, w')
    /\ page_frames w' = page_frames renaming_session
    /\ In (mkLog WARNING "Variable pair %d has mismatching names: %s != %s"
                 ["1"; "q"; "rho"]) (log w')
    /\ In (mkLog WARNING "Zone pair %d has mismatching names: %s != %s"
                 ["0"; "zone1"; "main"]) (log w').
Proof.
  destruct (@difference_tolerates_renaming literal_bindings ideal_numpy
              "new.plt" "old.plt" "delta.plt" PNone PNone 0%Z renaming_session
              pair_sample renamed_sample
              [mkEntity "p" 0; mkEntity "q" 1] [mkEntity "p" 0; mkEntity "rho" 1]
              [mkEntity "zone1" 0] [mkEntity "main" 0]
              eq_refl eq_refl eq_refl eq_refl eq_refl eq_refl eq_refl eq_refl
              ltac:(intros f []))
    as [w' [Hrun [Hframes [Hvars Hzones]]]].
  exists w'. split; [exact Hrun|]. split; [exact Hframes|]. split.
  - apply (Hvars 1 (mkEntity "q" 1) (mkEntity "rho" 1)); [reflexivity | discriminate].
  - apply (Hzones 0 (mkEntity "zone1" 0) (mkEntity "main" 0)); [reflexivity | discriminate].
Defined.

Lemma get_zones_in_range {tp : Bindings} ds patterns zones :
  patterns <> PList [] ->
  get_zones ds patterns = Ok zones ->
  forall z, In z zones -> index z < num_zones ds.
Proof.
  intros Hp H z Hz. unfold get_zones in H.
  apply (select_sound _ _ _ _ Hp) in H; [|apply enumerate_from_nodup].
  destruct H as [Hincl _]. apply Hincl in Hz.
  apply enumerate_from_index in Hz. unfold num_zones.
  rewrite length_map in Hz. lia.
Qed.

Lemma combine_diag {A} (l : list A) (p : A * A) :
  In p (combine l l) -> fst p = snd p /\ In (fst p) l.
Proof.
  induction l as [|a l IH]; cbn; [intros []|].
  intros [<-|H]; [split; [reflexivity | left; reflexivity]|].
  destruct (IH H) as [He Hin]. split; [exact He | right; exact Hin].
Qed.

(** An array of finite values minus itself, where a finite value minus
    itself is zero *)
Lemma self_difference_zero {np : Numpy} (a : list float) :
  (forall r, fsub (Num r) (Num r) = Num 0) ->
  all_finite a ->
  delta_block a a (length a) = repeat (Num 0) (length a).
Proof.
  intros Hsub Hfin. unfold delta_block, zone_difference, np_subtract.
  rewrite Nat.eqb_refl. cbn [rbind].
  rewrite length_map, length_combine, Nat.min_id, Nat.eqb_refl.
  induction Hfin as [|x a [r ->] Hfin IH]; cbn; [reflexivity|].
  rewrite IH, Hsub. reflexivity.
Qed.

Lemma ideal_fsub_self (r : R) : @fsub ideal_numpy (Num r) (Num r) = Num 0.
Proof. cbn. f_equal. lra. Qed.

(** Differencing a file against itself, with a subtraction that gives
    zero for a finite value minus itself: every delta variable is zero on
    each selected zone whose values are all finite. *)
Theorem difference_with_itself {tp : Bindings} {np : Numpy}
  (datafile datafile_out : string) (zone_patterns var_patterns : Patterns)
  (nskip : Z) (w : World) (ds : Dataset) (variables zones : list Entity) :
  grid_store w datafile = Some ds ->
  get_variables ds var_patterns = Ok variables ->
  get_zones ds zone_patterns = Ok zones ->
  var_patterns <> PList [] ->
  zone_patterns <> PList [] ->
  sized_arrays ds ->
  (forall r, fsub (Num r) (Num r) = Num 0) ->
  exists w' call,
    difference_datasets datafile datafile datafile_out
      zone_patterns var_patterns nskip w = (Ok tt, w')
    /\ saved w' = saved w ++ [call]
    /\ forall i vp z,
         nth_error (kept_pairs nskip (combine variables variables)) i = Some vp ->
         In z zones ->
         all_finite (values ds (index (fst vp)) (index z)) ->
         values (save_dataset call) (num_variables ds + i) (index z)
         = repeat (Num 0) (num_points (nth (index z) (zone_list ds) no_zone)).
Proof.
  intros Hload Hv Hz Hvp Hzp Hsized Hsub.
  destruct (difference_datasets_run datafile datafile datafile_out
              zone_patterns var_patterns nskip w ds ds
              variables variables zones zones
              Hload Hload Hv Hv eq_refl Hz Hz eq_refl)
    as [w' [ds' [Hrun [Hsaved [_ [_ [_ [_ Hdelta]]]]]]]].
  exists w'. eexists. split; [exact Hrun|]. split; [exact Hsaved|].
  intros i vp z Hi Hzin Hfin. cbn [save_dataset].
  assert (Hzz : In (z, z) (combine zones zones)).
  { clear -Hzin. induction zones as [|a l IH]; cbn; [destruct Hzin|].
    destruct Hzin as [->|H]; [left; reflexivity | right; apply IH; exact H]. }
  pose proof (Hdelta (get_zones_distinct _ _ _ Hzp Hz)
                (get_variables_in_range _ _ _ Hvp Hv) i vp (z, z) Hi Hzz)
    as Hval.
  cbn [fst snd] in Hval. rewrite Hval.
  assert (Hvpin : In vp (combine variables variables)).
  { apply nth_error_In in Hi. apply kept_pairs_in in Hi. exact (proj1 Hi). }
  destruct (combine_diag _ _ Hvpin) as [Hsame Hvin].
  rewrite <- Hsame.
  rewrite <- (Hsized (index (fst vp)) (index z)
                (get_variables_in_range _ _ _ Hvp Hv _ Hvin)
                (get_zones_in_range _ _ _ Hzp Hz _ Hzin)).
  apply self_difference_zero; assumption.
Qed.

Lemma difference_with_itself_witness :
  let w := session [("new.plt", new_sample)] in
  (forall r, @fsub ideal_numpy (Num r) (Num r) = Num 0)
  /\ all_finite (values new_sample 1 1)
  /\ exists w' call,
       @difference_datasets literal_bindings ideal_numpy "new.plt" "new.plt" "delta.plt"
         PNone PNone 1 w = (Ok tt, w')
       /\ saved w' = saved w ++ [call]
       /\ values (save_dataset call) 2 1 = [Num 0; Num 0; Num 0].
Proof.
  assert (Hfin : all_finite (values new_sample 1 1)).
  { repeat constructor; eexists; reflexivity. }
  split; [exact ideal_fsub_self|]. split; [exact Hfin|].
  destruct (@difference_with_itself literal_bindings ideal_numpy "new.plt" "delta.plt"
              PNone PNone 1%Z (session [("new.plt", new_sample)]) new_sample
              [mkEntity "x" 0; mkEntity "p" 1] [mkEntity "a" 0; mkEntity "b" 1]
              eq_refl eq_refl eq_refl ltac:(discriminate) ltac:(discriminate))
    as [w' [call [Hrun [Hsaved Hzero]]]].
  - intros [|[|v]] [|[|z]] Hv Hz; cbn in Hv, Hz; try lia; reflexivity.
  - exact ideal_fsub_self.
  - exists w', call. split; [exact Hrun|]. split; [exact Hsaved|].
    apply (Hzero 0 (mkEntity "p" 1, mkEntity "p" 1) (mkEntity "b" 1)).
    + reflexivity.
    + right. left. reflexivity.
    + exact Hfin.
Defined.

Lemma kept_pairs_all nskip pairs :
  (forall vp, In vp pairs ->
     (nskip <= Z.of_nat (index (fst vp)))%Z /\ (nskip <= Z.of_nat (index (snd vp)))%Z) ->
  kept_pairs nskip pairs = pairs.
Proof.
  intros H. unfold kept_pairs. induction pairs as [|vp pairs IH]; cbn; [reflexivity|].
  destruct (H vp (or_introl eq_refl)) as [H1 H2].
  assert (Hs : skipped nskip vp = false).
  { unfold skipped. apply orb_false_intro; apply Z.ltb_ge; assumption. }
  rewrite Hs.
  cbn. rewrite IH; [reflexivity|]. intros vp' Hin. apply H. right. exact Hin.
Qed.

Lemma kept_pairs_none nskip pairs :
  (forall vp, In vp pairs -> (Z.of_nat (index (fst vp)) < nskip)%Z) ->
  kept_pairs nskip pairs = [].
Proof.
  intros H. unfold kept_pairs. induction pairs as [|vp pairs IH]; cbn; [reflexivity|].
  assert (Hs : skipped nskip vp = true).
  { unfold skipped. apply orb_true_intro. left. apply Z.ltb_lt. apply H. left. reflexivity. }
  rewrite Hs.
  cbn. apply IH. intros vp' Hin. apply H. right. exact Hin.
Qed.

(** The skip count at its two ends.  A count of zero or less differences
    every selected pair and writes only the delta variables; a count above
    the index of every selected variable of the new file adds no delta
    variable and writes the first [nskip] variable indices. *)
Theorem difference_skip_count_edges {tp : Bindings} {np : Numpy}
  (datafile_new datafile_old datafile_out : string)
  (zone_patterns var_patterns : Patterns) (nskip : Z) (w : World)
  (data_new data_old : Dataset) (var_new var_old zone_new zone_old : list Entity) :
  grid_store w datafile_new = Some data_new ->
  grid_store w datafile_old = Some data_old ->
  get_variables data_new var_patterns = Ok var_new ->
  get_variables data_old var_patterns = Ok var_old ->
  length var_new = length var_old ->
  get_zones data_new zone_patterns = Ok zone_new ->
  get_zones data_old zone_patterns = Ok zone_old ->
  length zone_new = length zone_old ->
  exists w' call,
    difference_datasets datafile_new datafile_old datafile_out
      zone_patterns var_patterns nskip w = (Ok tt, w')
    /\ saved w' = saved w ++ [call]
    /\ ((nskip <= 0)%Z ->
        variable_names (save_dataset call)
        = variable_names data_new
          ++ map (fun v => ("delta_" ++ name v)%string) var_new
        /\ save_variables call
           = Some (range (num_variables data_new)
                         (num_variables data_new + length var_new)))
    /\ ((forall v, In v var_new -> (Z.of_nat (index v) < nskip)%Z) ->
        variable_names (save_dataset call) = variable_names data_new
        /\ save_variables call = Some (range 0 (Z.to_nat nskip))).
Proof.
  intros Hnew Hold Hvn Hvo Hvlen Hzn Hzo Hzlen.
  destruct (difference_datasets_run datafile_new datafile_old datafile_out
              zone_patterns var_patterns nskip w data_new data_old
              var_new var_old zone_new zone_old
              Hnew Hold Hvn Hvo Hvlen Hzn Hzo Hzlen)
    as [w' [ds' [Hrun [Hsaved [_ [Hnames _]]]]]].
  exists w'. eexists. split; [exact Hrun|]. split; [exact Hsaved|].
  cbn [save_dataset save_variables]. unfold num_variables. rewrite Hnames.
  split.
  - intros Hle. rewrite kept_pairs_all.
    + assert (Hmap : map (fun vp : Entity * Entity => ("delta_" ++ name (fst vp))%string)
                       (combine var_new var_old)
                     = map (fun v => ("delta_" ++ name v)%string) var_new).
      { clear -Hvlen. revert var_old Hvlen.
        induction var_new as [|a l IH]; intros [|b l'] Hlen; cbn in *;
          try discriminate; [reflexivity|].
        f_equal. apply IH. lia. }
      rewrite Hmap. split; [reflexivity|].
      rewrite length_app, length_map.
      replace (Z.to_nat nskip) with 0 by lia. reflexivity.
    + intros vp _. lia.
  - intros Hlt. rewrite kept_pairs_none.
    + cbn [map]. rewrite app_nil_r. split; [reflexivity|].
      unfold range at 2. rewrite Nat.sub_diag. cbn [seq]. rewrite app_nil_r.
      reflexivity.
    + intros [vn vo] Hin. apply Hlt. apply in_combine_l in Hin. exact Hin.
Qed.

Lemma difference_skip_count_edges_witness :
  (exists w' call,
     @difference_datasets literal_bindings ideal_numpy "new.plt" "old.plt" "delta.plt"
       PNone PNone 0 diff_session = (Ok tt, w')
     /\ saved w' = saved diff_session ++ [call]
     /\ variable_names (save_dataset call) = ["x"; "p"; "delta_x"; "delta_p"]
     /\ save_variables call = Some [2; 3])
  /\ (exists w' call,
        @difference_datasets literal_bindings ideal_numpy "new.plt" "old.plt" "delta.plt"
          PNone PNone 3 diff_session = (Ok tt, w')
        /\ saved w' = saved diff_session ++ [call]
        /\ variable_names (save_dataset call) = ["x"; "p"]
        /\ save_variables call = Some [0; 1; 2]).
Proof.
  split.
  - destruct (@difference_skip_count_edges literal_bindings ideal_numpy
                "new.plt" "old.plt" "delta.plt" PNone PNone 0%Z diff_session
                new_sample old_sample
                [mkEntity "x" 0; mkEntity "p" 1] [mkEntity "x" 0; mkEntity "p" 1]
                [mkEntity "a" 0; mkEntity "b" 1] [mkEntity "a" 0; mkEntity "b" 1]
                eq_refl eq_refl eq_refl eq_refl eq_refl eq_refl eq_refl eq_refl)
      as [w' [call [Hrun [Hsaved [Hall _]]]]].
    exists w', call. split; [exact Hrun|]. split; [exact Hsaved|].
    apply Hall. lia.
  - destruct (@difference_skip_count_edges literal_bindings ideal_numpy
                "new.plt" "old.plt" "delta.plt" PNone PNone 3%Z diff_session
                new_sample old_sample
                [mkEntity "x" 0; mkEntity "p" 1] [mkEntity "x" 0; mkEntity "p" 1]
                [mkEntity "a" 0; mkEntity "b" 1] [mkEntity "a" 0; mkEntity "b" 1]
                eq_refl eq_refl eq_refl eq_refl eq_refl eq_refl eq_refl eq_refl)
      as [w' [call [Hrun [Hsaved [_ Hnone]]]]].
    exists w', call. split; [exact Hrun|]. split; [exact Hsaved|].
    apply Hnone. intros v [<-|[<-|[]]]; cbn; lia.
Defined.

(** ** Revolution: the shape of what a returning call writes *)

Lemma set_slice_length (arr : list float) (start stop : nat) (blk arr' : list float) :
  start <= stop ->
  set_slice arr start stop blk = Ok arr' ->
  length arr' = length arr.
Proof.
  intros Hle H. unfold set_slice in H.
  destruct (Nat.eqb_spec (length blk)
              (Nat.min stop (length arr) - Nat.min start (length arr))) as [Hlen|_];
    [|discriminate H].
  injection H as <-.
  rewrite !length_app, length_firstn, length_skipn, Hlen. lia.
Qed.

Lemma nth_replace_nth_any {A} (i j : nat) (x d : A) (l : list A) :
  nth j (replace_nth i x l) d
  = if Nat.eqb j i && Nat.ltb i (length l) then x else nth j l d.
Proof.
  revert i j. induction l as [|y l IH]; intros i j.
  - rewrite andb_false_r. destruct i; reflexivity.
  - destruct i as [|i], j as [|j]; cbn [replace_nth nth]; try reflexivity.
    rewrite IH. cbn [length]. reflexivity.
Qed.

Lemma write_block_sized out_vars size i k npt blk zd zd' :
  zone_sized out_vars size zd ->
  write_block i k npt blk zd = Ok zd' ->
  zone_sized out_vars size zd'.
Proof.
  intros [Hlen Hsz] H. unfold write_block in H.
  apply rbind_ok in H. destruct H as [arr [Hset H]]. injection H as <-.
  apply set_slice_length in Hset; [|nia].
  split.
  - rewrite length_replace_nth. exact Hlen.
  - intros j Hj. rewrite length_replace_nth in Hj. rewrite nth_replace_nth_any.
    destruct (Nat.eqb_spec j i) as [->|_]; cbn [andb].
    + apply Nat.ltb_lt in Hj. rewrite Hj, Hset. apply Hsz. apply Nat.ltb_lt. exact Hj.
    + apply Hsz. exact Hj.
Qed.

Lemma revolve_variable_sized {tp : Bindings} {acc : Accessors} {np : Numpy}
  data_in zindex out_vars vvd ct st planes npt size zd v zd' :
  zone_sized out_vars size zd ->
  revolve_variable data_in zindex out_vars vvd ct st planes npt zd v = Ok zd' ->
  zone_sized out_vars size zd'.
Proof.
  intros Hs H. unfold revolve_variable in H.
  apply rbind_ok in H. destruct H as [vin [_ H]].
  apply rbind_ok in H. destruct H as [vout [_ H]].
  apply rbind_ok in H. destruct H as [zd1 [Hplanes H]].
  assert (Hs1 : zone_sized out_vars size zd1).
  { revert Hplanes. apply rfor_each_invariant; [|exact Hs].
    intros s k s' Hsz Hw. exact (write_block_sized _ _ _ _ _ _ _ _ Hsz Hw). }
  destruct (dict_get vvd v) as [[vy vz]|]; [|injection H as <-; exact Hs1].
  apply rbind_ok in H. destruct H as [iy [_ H]].
  apply rbind_ok in H. destruct H as [iz [_ H]].
  revert H. apply rfor_each_invariant; [|exact Hs1].
  intros s k s' Hsz Hw.
  apply rbind_ok in Hw. destruct Hw as [s1 [Hw1 Hw2]].
  exact (write_block_sized _ _ _ _ _ _ _ _
           (write_block_sized _ _ _ _ _ _ _ _ Hsz Hw1) Hw2).
Qed.

Lemma revolve_zone_sized {tp : Bindings} {acc : Accessors} {np : Numpy}
  data_in out_vars vvd ct st planes zindex zin zout zdata :
  revolve_zone data_in out_vars vvd ct st planes zindex zin = Ok (zout, zdata) ->
  zone_sized out_vars (num_points zout) zdata.
Proof.
  intros H. unfold revolve_zone in H.
  apply rbind_ok in H. destruct H as [[] [_ H]].
  apply rbind_ok in H. destruct H as [[] [_ H]].
  cbv zeta in H.
  apply rbind_ok in H. destruct H as [zd [Hloop H]].
  injection H as <- <-.
  revert Hloop. apply rfor_each_invariant.
  - intros s v s' Hs Hv. exact (revolve_variable_sized _ _ _ _ _ _ _ _ _ _ _ _ Hs Hv).
  - split; [apply length_map|].
    intros j Hj. rewrite length_map in Hj.
    rewrite nth_map_const by exact Hj. apply repeat_length.
Qed.

Lemma revolve_zones_names {tp : Bindings} {acc : Accessors} {np : Numpy}
  data_in out_vars vvd ct st planes zones :
  revolve_zones data_in out_vars vvd ct st planes = Ok zones ->
  map (fun z => zone_name (fst z)) zones = map zone_name (zone_list data_in).
Proof.
  intros H. apply revolve_zones_inv in H. destruct H as [Hlen Hz].
  apply nth_error_ext. intros i.
  rewrite !nth_error_map.
  destruct (nth_error (zone_list data_in) i) as [zin|] eqn:Hzin.
  - destruct (Hz i zin Hzin) as [[zout zdata] [Hnth Hrev]]. rewrite Hnth. cbn.
    apply revolve_zone_inv in Hrev. destruct Hrev as [_ [_ [_ [Hname _]]]].
    rewrite Hname. reflexivity.
  - apply nth_error_None in Hzin. rewrite <- Hlen in Hzin.
    apply nth_error_None in Hzin. rewrite Hzin. reflexivity.
Qed.

(** A call that returns has loaded a dataset with unique variable names
    whose zones are all ordered and of rank below three, with a plane
    count that is not negative; the dataset it writes keeps the zone names,
    gives each zone the leading dimensions of its source followed by the
    plane count, and holds one array of the size of its zone for every
    variable. *)
Theorem revolve_returned_shape {tp : Bindings} {acc : Accessors} {np : Numpy}
  datafile_in datafile_out radial_coord planes angle
  vector_vars w w' :
  revolve_dataset datafile_in datafile_out radial_coord planes angle vector_vars w
  = (Ok tt, w') ->
  exists data_in data_out,
    grid_store w datafile_in = Some data_in
    /\ saved w'
       = saved w ++ [mkSave datafile_out (String.eqb (splitext_ext datafile_out) ".dat")
                            data_out None None]
    /\ NoDup (variable_names data_in)
    /\ (0 <= planes)%Z
    /\ Forall (fun zin => is_ordered zin = true /\ rank zin < 3) (zone_list data_in)
    /\ map zone_name (zone_list data_out) = map zone_name (zone_list data_in)
    /\ map dimensions (zone_list data_out)
       = map (fun zin => firstn (rank zin) (dimensions zin) ++ [Z.to_nat planes])
             (zone_list data_in)
    /\ sized_arrays data_out.
Proof.
  intros H. apply revolve_dataset_ok_inv in H.
  destruct H as [data_in [vvd [data_out [Hload [Hcheck [Hbuild ->]]]]]].
  exists data_in, data_out. split; [exact Hload|]. split; [reflexivity|].
  apply check_inputs_inv in Hcheck. destruct Hcheck as [Hnd _].
  split; [exact Hnd|].
  apply build_output_inv in Hbuild. destruct Hbuild as [Hplanes [zones [Hzones ->]]].
  split; [exact Hplanes|].
  pose proof (revolve_zones_inv _ _ _ _ _ _ _ Hzones) as [Hlen Hz].
  split; [|split; [|split]].
  - apply Forall_forall. intros zin Hin.
    apply In_nth_error in Hin. destruct Hin as [i Hi].
    destruct (Hz i zin Hi) as [[zout zdata] [_ Hrev]].
    apply revolve_zone_inv in Hrev. destruct Hrev as [Ho [Hr _]]. split; assumption.
  - cbn [assemble zone_list]. rewrite map_map.
    exact (revolve_zones_names _ _ _ _ _ _ _ Hzones).
  - cbn [assemble zone_list]. rewrite map_map.
    exact (revolve_zones_dimensions _ _ _ _ _ _ _ Hzones).
  - intros v z Hv Hzlt. unfold num_variables, num_zones in *.
    cbn [assemble variable_names zone_list values] in *.
    rewrite length_map in Hzlt.
    destruct (nth_error zones z) as [[zout zdata]|] eqn:Hnth;
      [|apply nth_error_None in Hnth; lia].
    erewrite (nth_error_nth zones z) by exact Hnth.
    erewrite (nth_error_nth (map fst zones) z) by exact (map_nth_error fst _ _ Hnth).
    cbn [fst snd].
    assert (Hzin : exists zin, nth_error (zone_list data_in) z = Some zin).
    { destruct (nth_error (zone_list data_in) z) eqn:E; [eexists; reflexivity|].
      apply nth_error_None in E. lia. }
    destruct Hzin as [zin Hzin].
    destruct (Hz z zin Hzin) as [z' [Hnth' Hrev]].
    rewrite Hnth in Hnth'. injection Hnth' as <-.
    apply revolve_zone_sized in Hrev. destruct Hrev as [Hl Hs].
    apply Hs. rewrite Hl. exact Hv.
Qed.

Lemma revolve_returned_shape_witness :
  let run := @revolve_dataset literal_bindings literal_accessors ideal_numpy
               "curve.plt" "out.plt" (RStr "r") 3 (Num 90) VNone
               overlap_session in
  exists data_in data_out,
    grid_store overlap_session "curve.plt" = Some data_in
    /\ saved (snd run)
       = saved overlap_session
         ++ [mkSave "out.plt" (String.eqb (splitext_ext "out.plt") ".dat")
                    data_out None None]
    /\ NoDup (variable_names data_in)
    /\ (0 <= 3)%Z
    /\ Forall (fun zin => is_ordered zin = true /\ rank zin < 3) (zone_list data_in)
    /\ map zone_name (zone_list data_out) = map zone_name (zone_list data_in)
    /\ map dimensions (zone_list data_out)
       = map (fun zin => firstn (rank zin) (dimensions zin) ++ [Z.to_nat 3])
             (zone_list data_in)
    /\ sized_arrays data_out.
Proof.
  apply (@revolve_returned_shape literal_bindings literal_accessors ideal_numpy
           "curve.plt" "out.plt" (RStr "r") 3%Z (Num 90) VNone
           overlap_session
           (snd (@revolve_dataset literal_bindings literal_accessors ideal_numpy
                   "curve.plt" "out.plt" (RStr "r") 3 (Num 90) VNone
                   overlap_session))).
  vm_compute. reflexivity.
Defined.

(** ** Revolution: which inputs pass the checks *)

Lemma dict_merge_keys_in {V} (a b : dict V) (k : string) :
  In k (dict_keys (dict_merge a b)) <-> In k (dict_keys a) \/ In k (dict_keys b).
Proof.
  unfold dict_merge. revert a. induction b as [|[k0 v0] b IH]; intros a; cbn [fold_left].
  - cbn. tauto.
  - rewrite IH. cbn [fst snd dict_keys map]. fold (dict_keys b).
    rewrite dict_set_keys.
    destruct (existsb (String.eqb k0) (dict_keys a)) eqn:Hex.
    + apply existsb_exists in Hex. destruct Hex as [y [Hy Heq]].
      apply String.eqb_eq in Heq. subst y. cbn [In].
      split; [tauto|]. intros [H|[<-|H]]; tauto.
    + rewrite in_app_iff. cbn [In]. tauto.
Qed.

Lemma dict_get_none_keys {V} (d : dict V) (k : string) :
  dict_get d k = None <-> ~ In k (dict_keys d).
Proof.
  unfold dict_keys. induction d as [|[k0 v0] d IH]; cbn.
  - tauto.
  - destruct (String.eqb_spec k0 k) as [->|Hne].
    + split; [discriminate | intros H; exfalso; apply H; left; reflexivity].
    + rewrite IH. tauto.
Qed.

Lemma dict_get_merge {V} (a b : dict V) (k : string) :
  NoDup (dict_keys b) ->
  dict_get (dict_merge a b) k
  = match dict_get b k with Some v => Some v | None => dict_get a k end.
Proof.
  unfold dict_merge. revert a. induction b as [|[k0 v0] b IH]; intros a Hnd;
    cbn [fold_left dict_get]; [reflexivity|].
  cbn in Hnd. inversion Hnd as [|x l Hnotin Hnd']; subst.
  rewrite (IH _ Hnd'). cbn [fst snd]. rewrite dict_get_set.
  destruct (String.eqb_spec k0 k) as [->|Hne]; [|reflexivity].
  apply dict_get_none_keys in Hnotin. rewrite Hnotin. reflexivity.
Qed.

Lemma py_set_nodup (names acc : list string) :
  NoDup names -> (forall x, In x names -> ~ In x acc) ->
  fold_left (fun s x => if str_in x s then s else s ++ [x]) names acc = acc ++ names.
Proof.
  revert acc. induction names as [|x names IH]; intros acc Hnd Hout; cbn [fold_left].
  - rewrite app_nil_r. reflexivity.
  - inversion Hnd as [|y l Hnotin Hnd']; subst.
    destruct (str_in x acc) eqn:Hx.
    + apply str_in_iff in Hx. exfalso. exact (Hout x (or_introl eq_refl) Hx).
    + rewrite IH; [rewrite <- app_assoc; reflexivity | exact Hnd' |].
      intros y Hy Hin. apply in_app_or in Hin. destruct Hin as [Hin|[<-|[]]].
      * exact (Hout y (or_intror Hy) Hin).
      * exact (Hnotin Hy).
Qed.

Lemma check_keys_iff (vars_in keys : list string) :
  rfor_each keys
    (fun _ v =>
       py_assert (str_in v vars_in)
         (Ok ("ERROR: User requested vector variable " ++ v
              ++ " not present in dataset.")%string))
    tt = Ok tt
  <-> forall k, In k keys -> In k vars_in.
Proof.
  induction keys as [|k keys IH]; cbn [rfor_each].
  - split; [intros _ k [] | reflexivity].
  - destruct (str_in k vars_in) eqn:Hk; cbn.
    + rewrite IH. apply str_in_iff in Hk. split.
      * intros H k' [<-|Hin]; [exact Hk | exact (H k' Hin)].
      * intros H k' Hin. apply H. right. exact Hin.
    + split; [discriminate|]. intros H.
      specialize (H k (or_introl eq_refl)). apply str_in_iff in H. congruence.
Qed.

Lemma check_inputs_named datafile_in data_in r vector_vars vvd :
  r <> EmptyString ->
  check_inputs datafile_in data_in (RStr r) vector_vars = Ok vvd
  <-> NoDup (variable_names data_in)
      /\ In r (variable_names data_in)
      /\ ~ In "z" (variable_names data_in)
      /\ (forall k, In k (dict_keys vector_vars) -> In k (variable_names data_in))
      /\ vvd = dict_merge [(r, (r, "z"))] vector_vars.
Proof.
  intros Hr. apply String.eqb_neq in Hr. split.
  - intros H. apply check_inputs_inv in H. destruct H as [Hnd H].
    split; [exact Hnd|].
    unfold select_radial in H. rewrite Hr in H. cbn [rbind dict_keys map fst] in H.
    apply rbind_ok in H. destruct H as [[] [Hin H]].
    apply rbind_ok in H. destruct H as [[] [Hz H]].
    apply rbind_ok in H. destruct H as [[] [Hkeys H]].
    injection H as <-.
    apply py_assert_ok in Hin. apply str_in_iff in Hin.
    apply py_assert_ok in Hz. apply negb_true_iff in Hz.
    split; [exact Hin|]. split.
    { intros Hzin. apply str_in_iff in Hzin. congruence. }
    split; [|reflexivity].
    intros k Hk. apply (proj1 (check_keys_iff _ _) Hkeys).
    apply dict_merge_keys_in. right. exact Hk.
  - intros [Hnd [Hin [Hz [Hkeys ->]]]].
    unfold check_inputs. cbv zeta.
    unfold py_set. rewrite (py_set_nodup _ [] Hnd) by (intros x _ []).
    cbn [app]. rewrite Nat.eqb_refl. cbn [py_assert rbind].
    unfold select_radial. rewrite Hr. cbn [rbind dict_keys map fst].
    apply str_in_iff in Hin. rewrite Hin. cbn [py_assert rbind].
    assert (Hz' : str_in "z" (variable_names data_in) = false).
    { destruct (str_in "z" (variable_names data_in)) eqn:E; [|reflexivity].
      apply str_in_iff in E. contradiction. }
    rewrite Hz'. cbn [negb py_assert rbind].
    assert (Hk : rfor_each (dict_keys (dict_merge [(r, (r, "z"))] vector_vars))
                   (fun _ v =>
                      py_assert (str_in v (variable_names data_in))
                        (Ok ("ERROR: User requested vector variable " ++ v
                             ++ " not present in dataset.")%string))
                   tt = Ok tt).
    { apply check_keys_iff. intros k Hk. apply dict_merge_keys_in in Hk.
      destruct Hk as [[<-|[]]|Hk]; [apply str_in_iff; exact Hin | exact (Hkeys k Hk)]. }
    unfold dict_keys in Hk |- *. rewrite Hk. reflexivity.
Qed.

(** With the radial coordinate given by name, the checks pass exactly
    when the variable names are unique, the radial name is one of them,
    no variable is called [z], and every key of the vector mapping is a
    variable. *)
Theorem revolve_checks_named_radial datafile_in data_in r vector_vars :
  r <> EmptyString ->
  (exists vvd, check_inputs datafile_in data_in (RStr r) vector_vars = Ok vvd)
  <-> NoDup (variable_names data_in)
      /\ In r (variable_names data_in)
      /\ ~ In "z" (variable_names data_in)
      /\ (forall k, In k (dict_keys vector_vars) -> In k (variable_names data_in)).
Proof.
  intros Hr. split.
  - intros [vvd H]. apply (check_inputs_named _ _ _ _ _ Hr) in H. tauto.
  - intros [H1 [H2 [H3 H4]]]. eexists.
    apply (check_inputs_named _ _ _ _ _ Hr). repeat split; eassumption.
Qed.

Lemma revolve_checks_named_radial_witness :
  (exists vvd, check_inputs "curve.plt" overlap_sample (RStr "r")
                 [("u", ("u_cos", "u_sin"))] = Ok vvd)
  <-> NoDup (variable_names overlap_sample)
      /\ In "r" (variable_names overlap_sample)
      /\ ~ In "z" (variable_names overlap_sample)
      /\ (forall k, In k (dict_keys [("u", ("u_cos", "u_sin"))]) ->
                    In k (variable_names overlap_sample)).
Proof.
  apply (revolve_checks_named_radial "curve.plt" overlap_sample "r"
           [("u", ("u_cos", "u_sin"))]).
  discriminate.
Defined.

(** The mapping the checks hand on: an entry of the vector mapping wins
    over the entry the radial name would get, which is used only when the
    vector mapping has no entry for the radial name. *)
Theorem revolve_vector_mapping_wins datafile_in data_in r vector_vars vvd :
  r <> EmptyString ->
  NoDup (dict_keys vector_vars) ->
  check_inputs datafile_in data_in (RStr r) vector_vars = Ok vvd ->
  forall k,
    dict_get vvd k
    = match dict_get vector_vars k with
      | Some components => Some components
      | None => if String.eqb r k then Some (r, "z") else None
      end.
Proof.
  intros Hr Hnd H k. apply (check_inputs_named _ _ _ _ _ Hr) in H.
  destruct H as [_ [_ [_ [_ ->]]]].
  rewrite (dict_get_merge _ _ _ Hnd). reflexivity.
Qed.

Lemma revolve_vector_mapping_wins_witness :
  let vector_vars := [("r", ("ry", "rz"))] in
  let vvd := dict_merge [("r", ("r", "z"))] vector_vars in
  dict_get vvd "r" = Some ("ry", "rz") /\ dict_get vvd "u" = None.
Proof.
  pose proof (revolve_vector_mapping_wins "curve.plt" overlap_sample "r"
                [("r", ("ry", "rz"))]
                (dict_merge [("r", ("r", "z"))] [("r", ("ry", "rz"))])
                ltac:(discriminate)
                ltac:(repeat constructor; intros [])
                eq_refl) as H.
  split; [exact (H "r") | exact (H "u")].
Defined.

(** ** Revolution: the variable list follows the arguments *)

Lemma dict_set_nodup {V} (d : dict V) (k : string) (v : V) :
  NoDup (dict_keys d) -> NoDup (dict_keys (dict_set d k v)).
Proof.
  intros Hnd. rewrite dict_set_keys.
  destruct (existsb (String.eqb k) (dict_keys d)) eqn:Hex; [exact Hnd|].
  apply NoDup_app; [exact Hnd | repeat constructor; intros [] |].
  intros k' Hk' [<-|[]].
  assert (Hin : existsb (String.eqb k) (dict_keys d) = true).
  { apply existsb_exists. exists k. split; [exact Hk' | apply String.eqb_refl]. }
  congruence.
Qed.

Lemma dict_merge_nodup {V} (a b : dict V) :
  NoDup (dict_keys a) -> NoDup (dict_keys (dict_merge a b)).
Proof.
  unfold dict_merge. revert a. induction b as [|[k v] b IH]; intros a Hnd;
    cbn [fold_left]; [exact Hnd|].
  apply IH. apply dict_set_nodup. exact Hnd.
Qed.

Lemma vector_vars_dict_nodup (vector_vars : VectorVars) :
  NoDup (dict_keys (vector_vars_dict vector_vars)).
Proof.
  destruct vector_vars as [|vs|items]; cbn [vector_vars_dict].
  - constructor.
  - assert (H : forall a : dict (string * string),
              NoDup (dict_keys a) ->
              NoDup (dict_keys
                       (fold_left
                          (fun d v => dict_set d v
                                        ((v ++ "_cos")%string, (v ++ "_sin")%string))
                          vs a))).
    { induction vs as [|v vs IH]; intros a Hnd; cbn [fold_left]; [exact Hnd|].
      apply IH. apply dict_set_nodup. exact Hnd. }
    apply H. constructor.
  - apply dict_merge_nodup. constructor.
Qed.

(** A key of a merged dict has the value that the last of its items on
    the right gives it, or else the value on the left. *)
Lemma dict_get_merge_items {V} (a : dict V) (items : list (string * V)) (k : string) :
  dict_get (dict_merge a items) k
  = fold_left (fun found kv => if String.eqb (fst kv) k then Some (snd kv) else found)
      items (dict_get a k).
Proof.
  unfold dict_merge. revert a.
  induction items as [|[k0 v0] items IH]; intros a; cbn [fold_left]; [reflexivity|].
  rewrite IH, dict_get_set. reflexivity.
Qed.

(** The dict of a comprehension over a list of names holds each name of
    the list, with the value the comprehension gives it. *)
Lemma dict_get_comprehension {V} (g : string -> V) (vs : list string) :
  forall (a : dict V) (k : string),
    dict_get (fold_left (fun d v => dict_set d v (g v)) vs a) k
    = if str_in k vs then Some (g k) else dict_get a k.
Proof.
  induction vs as [|v vs IH]; intros a k; cbn [fold_left]; [reflexivity|].
  rewrite IH, dict_get_set. unfold str_in. cbn [existsb]. fold (str_in k vs).
  destruct (str_in k vs).
  - rewrite orb_true_r. reflexivity.
  - rewrite orb_false_r, (String.eqb_sym k v).
    destruct (String.eqb_spec v k) as [->|_]; reflexivity.
Qed.

(** Lines 412 to 416 give each variable the components that the argument
    names for it: the default names for an entry of a list. *)
Lemma vector_vars_dict_get (vector_vars : VectorVars) (v : string) :
  dict_get (vector_vars_dict vector_vars) v = vector_components vector_vars v.
Proof.
  destruct vector_vars as [|vs|items]; cbn [vector_vars_dict vector_components].
  - reflexivity.
  - apply (dict_get_comprehension
             (fun v => ((v ++ "_cos")%string, (v ++ "_sin")%string))).
  - rewrite dict_get_merge_items. reflexivity.
Qed.

(** Lines 428 to 436: in the mapping handed on, an entry of the vector
    mapping wins over the entry of the radial coordinate. *)
Lemma select_radial_mapping vars_in radial_coord vector_vars vvd :
  NoDup (dict_keys vector_vars) ->
  select_radial vars_in radial_coord vector_vars = Ok vvd ->
  forall v,
    dict_get vvd v
    = match dict_get vector_vars v with
      | Some components => Some components
      | None => radial_components vars_in radial_coord v
      end.
Proof.
  intros Hnd H v. unfold select_radial in H. cbv zeta in H.
  apply rbind_ok in H. destruct H as [rc [Hrc H]].
  apply rbind_ok in H. destruct H as [rname [_ H]].
  apply rbind_ok in H. destruct H as [[] [_ H]].
  apply rbind_ok in H. destruct H as [[] [_ H]].
  apply rbind_ok in H. destruct H as [[] [_ H]].
  injection H as <-.
  rewrite (dict_get_merge _ _ _ Hnd).
  destruct (dict_get vector_vars v); [reflexivity|].
  assert (Hsecond :
    match nth_error vars_in 1 with
    | Some r => Ok (inl r)
    | None => Raise (IndexError "list index out of range")
    end = Ok rc ->
    dict_get match rc with
             | inl s => [(s, (s, "z"))]
             | inr d => d
             end v
    = match nth_error vars_in 1 with
      | Some r => if String.eqb r v then Some (r, "z") else None
      | None => None
      end).
  { destruct (nth_error vars_in 1) as [r|]; intros E; [|discriminate E].
    injection E as <-. reflexivity. }
  unfold radial_components. cbv zeta.
  destruct radial_coord as [|s|[|item items]].
  - exact (Hsecond Hrc).
  - destruct (String.eqb s EmptyString); [exact (Hsecond Hrc)|].
    injection Hrc as <-. reflexivity.
  - exact (Hsecond Hrc).
  - injection Hrc as <-. rewrite dict_get_merge_items. reflexivity.
Qed.

Lemma check_inputs_mapping datafile_in data_in radial_coord vector_vars vvd :
  check_inputs datafile_in data_in radial_coord (vector_vars_dict vector_vars)
  = Ok vvd ->
  forall v,
    dict_get vvd v
    = revolve_mapping (variable_names data_in) radial_coord vector_vars v.
Proof.
  intros H v. apply check_inputs_inv in H. destruct H as [_ H].
  rewrite (select_radial_mapping _ _ _ _ (vector_vars_dict_nodup _) H).
  rewrite vector_vars_dict_get. reflexivity.
Qed.

Lemma expected_variables_described vars_in vvd mapping :
  (forall v, dict_get vvd v = mapping v) ->
  expected_variables vars_in vvd = described_variables vars_in mapping.
Proof.
  intros H. unfold expected_variables, described_variables.
  apply flat_map_ext. intros v. unfold new_components. rewrite H.
  destruct (mapping v) as [[c s]|]; reflexivity.
Qed.

Lemma axi_sample_revolvable : revolvable axi_sample.
Proof.
  intros [|zindex] zin H; cbn in H; [|destruct zindex; discriminate H].
  injection H as <-. cbn. repeat split; try lia.
  intros u [<-|[<-|[<-|[<-|[<-|[<-|[]]]]]]]; reflexivity.
Qed.

(** A file that loads, passes the checks of lines 424 to 450, whose
    output variables hold no wildcard and whose zones can be revolved is
    revolved and written with the expected variables, for any number of
    planes that is not negative. *)
Lemma revolve_dataset_returns {tp : Bindings} {acc : Accessors} {np : Numpy}
  datafile_in datafile_out radial_coord planes angle vector_vars w data_in vvd :
  grid_store w datafile_in = Some data_in ->
  check_inputs datafile_in data_in radial_coord (vector_vars_dict vector_vars)
  = Ok vvd ->
  (0 <= planes)%Z ->
  literal_names (expected_variables (variable_names data_in) vvd) ->
  revolvable data_in ->
  exists data_out,
    revolve_dataset datafile_in datafile_out radial_coord planes angle vector_vars w
    = (Ok tt, after_revolve w datafile_out data_out)
    /\ variable_names data_out = expected_variables (variable_names data_in) vvd.
Proof.
  intros Hload Hcheck Hplanes Hlit Hwf.
  destruct (build_output_ok data_in vvd planes angle Hplanes Hlit Hwf)
    as [data_out Hbuild].
  exists data_out.
  split; [exact (revolve_dataset_ok _ _ _ _ _ _ _ _ _ _ Hload Hcheck Hbuild)|].
  exact (build_output_variables _ _ _ _ _ Hbuild).
Qed.

(** C7.  The variable list of the written dataset is the input list in
    its order, each vector-mapped variable (the radial coordinate
    included) followed at once by those of its components that are not
    input variables; components that are input variables are not added
    again.  The components of a variable are those that the arguments name
    for it: [<v>_cos] and [<v>_sin] for an entry [v] of a list, the given
    pair for a key of a dict, and for the radial coordinate its own name
    and [z] unless the vector mapping names others.  In the acceptance
    scenario (radial coordinate [v1], [v2] mapped to [v2y], [v2z], and
    the bare entry [q2]) the call returns and writes
    [x, y, q1, q2, q2_cos, q2_sin, v1, z, v2, v2y, v2z], whatever the
    angle; with the list [[q2]] as the only vector variable it writes
    [x, y, q1, q2, q2_cos, q2_sin, v1, z, v2]. *)
Theorem revolve_output_variable_order {tp : Bindings} {acc : Accessors} {np : Numpy} :
  (forall datafile_in datafile_out radial_coord planes angle vector_vars w w',
      revolve_dataset datafile_in datafile_out radial_coord planes angle vector_vars w
      = (Ok tt, w') ->
      exists data_in vvd call,
        grid_store w datafile_in = Some data_in
        /\ check_inputs datafile_in data_in radial_coord (vector_vars_dict vector_vars)
           = Ok vvd
        /\ saved w' = saved w ++ [call]
        /\ variable_names (save_dataset call)
           = expected_variables (variable_names data_in) vvd
        /\ variable_names (save_dataset call)
           = described_variables (variable_names data_in)
               (revolve_mapping (variable_names data_in) radial_coord vector_vars))
  /\ (forall angle,
        literal_names
          ["x"; "y"; "q1"; "q2"; "q2_cos"; "q2_sin"; "v1"; "z"; "v2"; "v2y"; "v2z"] ->
        exists w',
          revolve_dataset "axi_sphere_surf.plt" "axi_sphere_rev.dat" (RStr "v1")
            25 angle axi_vector_vars axi_session = (Ok tt, w')
          /\ map (fun call => variable_names (save_dataset call)) (saved w')
             = [["x"; "y"; "q1"; "q2"; "q2_cos"; "q2_sin"; "v1"; "z";
                 "v2"; "v2y"; "v2z"]])
  /\ (forall angle,
        literal_names ["x"; "y"; "q1"; "q2"; "q2_cos"; "q2_sin"; "v1"; "z"; "v2"] ->
        exists w',
          revolve_dataset "axi_sphere_surf.plt" "axi_sphere_rev.dat" (RStr "v1")
            25 angle (VList ["q2"]) axi_session = (Ok tt, w')
          /\ map (fun call => variable_names (save_dataset call)) (saved w')
             = [["x"; "y"; "q1"; "q2"; "q2_cos"; "q2_sin"; "v1"; "z"; "v2"]]).
Proof.
  split; [|split].
  - intros datafile_in datafile_out radial_coord planes angle vector_vars w w' H.
    apply revolve_dataset_ok_inv in H.
    destruct H as [data_in [vvd [data_out [Hload [Hcheck [Hbuild ->]]]]]].
    exists data_in, vvd,
      (mkSave datafile_out (String.eqb (splitext_ext datafile_out) ".dat")
              data_out None None).
    split; [exact Hload|]. split; [exact Hcheck|]. split; [reflexivity|].
    cbn [save_dataset]. rewrite (build_output_variables _ _ _ _ _ Hbuild).
    split; [reflexivity|].
    apply expected_variables_described.
    exact (check_inputs_mapping _ _ _ _ _ Hcheck).
  - intros angle Hlit.
    destruct (revolve_dataset_returns
                "axi_sphere_surf.plt" "axi_sphere_rev.dat" (RStr "v1") 25%Z angle
                axi_vector_vars axi_session axi_sample
                [("v1", ("v1", "z")); ("v2", ("v2y", "v2z"));
                 ("q2", ("q2_cos", "q2_sin"))])
      as [data_out [Hrun Hnames]].
    + reflexivity.
    + reflexivity.
    + lia.
    + exact Hlit.
    + exact axi_sample_revolvable.
    + eexists. split; [exact Hrun|].
      cbn [after_revolve saved axi_session session app map save_dataset].
      rewrite Hnames. reflexivity.
  - intros angle Hlit.
    destruct (revolve_dataset_returns
                "axi_sphere_surf.plt" "axi_sphere_rev.dat" (RStr "v1") 25%Z angle
                (VList ["q2"]) axi_session axi_sample
                [("v1", ("v1", "z")); ("q2", ("q2_cos", "q2_sin"))])
      as [data_out [Hrun Hnames]].
    + reflexivity.
    + reflexivity.
    + lia.
    + exact Hlit.
    + exact axi_sample_revolvable.
    + eexists. split; [exact Hrun|].
      cbn [after_revolve saved axi_session session app map save_dataset].
      rewrite Hnames. reflexivity.
Qed.

Lemma revolve_output_variable_order_witness :
  @literal_names literal_bindings
    ["x"; "y"; "q1"; "q2"; "q2_cos"; "q2_sin"; "v1"; "z"; "v2"; "v2y"; "v2z"]
  /\ @literal_names literal_bindings
       ["x"; "y"; "q1"; "q2"; "q2_cos"; "q2_sin"; "v1"; "z"; "v2"]
  /\ (exists w',
        @revolve_dataset literal_bindings literal_accessors ideal_numpy
          "axi_sphere_surf.plt" "axi_sphere_rev.dat" (RStr "v1")
          25 (Num 90) axi_vector_vars axi_session = (Ok tt, w')
        /\ map (fun call => variable_names (save_dataset call)) (saved w')
           = [["x"; "y"; "q1"; "q2"; "q2_cos"; "q2_sin"; "v1"; "z";
               "v2"; "v2y"; "v2z"]])
  /\ (exists w',
        @revolve_dataset literal_bindings literal_accessors ideal_numpy
          "axi_sphere_surf.plt" "axi_sphere_rev.dat" (RStr "v1")
          25 (Num 90) (VList ["q2"]) axi_session = (Ok tt, w')
        /\ map (fun call => variable_names (save_dataset call)) (saved w')
           = [["x"; "y"; "q1"; "q2"; "q2_cos"; "q2_sin"; "v1"; "z"; "v2"]]
        /\ exists data_in vvd call,
             grid_store axi_session "axi_sphere_surf.plt" = Some data_in
             /\ check_inputs "axi_sphere_surf.plt" data_in (RStr "v1")
                  (vector_vars_dict (VList ["q2"])) = Ok vvd
             /\ saved w' = saved axi_session ++ [call]
             /\ variable_names (save_dataset call)
                = expected_variables (variable_names data_in) vvd
             /\ variable_names (save_dataset call)
                = described_variables (variable_names data_in)
                    (revolve_mapping (variable_names data_in) (RStr "v1")
                       (VList ["q2"]))).
Proof.
  assert (Hfull : @literal_names literal_bindings
            ["x"; "y"; "q1"; "q2"; "q2_cos"; "q2_sin"; "v1"; "z"; "v2"; "v2y"; "v2z"]).
  { apply literal_names_of_bindings. reflexivity. }
  assert (Hlist : @literal_names literal_bindings
            ["x"; "y"; "q1"; "q2"; "q2_cos"; "q2_sin"; "v1"; "z"; "v2"]).
  { apply literal_names_of_bindings. reflexivity. }
  destruct (@revolve_output_variable_order
              literal_bindings literal_accessors ideal_numpy)
    as [Hall [Hscenario Hbare]].
  split; [exact Hfull|]. split; [exact Hlist|].
  split; [exact (Hscenario (Num 90) Hfull)|].
  destruct (Hbare (Num 90) Hlist) as [w' [Hrun Hnames]].
  exists w'. split; [exact Hrun|]. split; [exact Hnames|].
  exact (Hall _ _ _ _ _ _ _ _ Hrun).
Defined.

(** ** Revolution: a well-formed input, and the basic use *)

Lemma frames_after_revolve w datafile_out data_out :
  fresh_frames w ->
  page_frames (after_revolve w datafile_out data_out) = page_frames w.
Proof.
  intros Hfresh. cbn [after_revolve page_frames].
  rewrite (filter_new_frame (page_frames w ++ [next_frame w]) (S (next_frame w))).
  - apply filter_new_frame. exact Hfresh.
  - intros f Hf. apply in_app_or in Hf. destruct Hf as [Hf|[<-|[]]]; [|lia].
    specialize (Hfresh f Hf). lia.
Qed.

(** An input that passes the checks, with output variable names that
    hold no wildcard, zones that are ordered, of rank 1 or 2 and fully
    populated, and at least one plane, is revolved: the call returns,
    writes one file holding all variables and zones of the output, and
    leaves the page and the log as they were. *)
Theorem revolve_well_formed_input {tp : Bindings} {acc : Accessors} {np : Numpy}
  datafile_in datafile_out radial_coord planes angle vector_vars w data_in vvd :
  grid_store w datafile_in = Some data_in ->
  check_inputs datafile_in data_in radial_coord (vector_vars_dict vector_vars)
  = Ok vvd ->
  (0 < planes)%Z ->
  literal_names (expected_variables (variable_names data_in) vvd) ->
  revolvable data_in ->
  fresh_frames w ->
  exists w' data_out,
    revolve_dataset datafile_in datafile_out radial_coord planes angle vector_vars w
    = (Ok tt, w')
    /\ saved w'
       = saved w ++ [mkSave datafile_out (String.eqb (splitext_ext datafile_out) ".dat")
                            data_out None None]
    /\ variable_names data_out = expected_variables (variable_names data_in) vvd
    /\ num_zones data_out = num_zones data_in
    /\ page_frames w' = page_frames w
    /\ log w' = log w.
Proof.
  intros Hload Hcheck Hplanes Hlit Hwf Hfresh.
  destruct (build_output_ok data_in vvd planes angle
              ltac:(lia) Hlit Hwf) as [data_out Hbuild].
  exists (after_revolve w datafile_out data_out), data_out.
  split; [exact (revolve_dataset_ok _ _ _ _ _ _ _ _ _ _ Hload Hcheck Hbuild)|].
  split; [reflexivity|].
  split; [exact (build_output_variables _ _ _ _ _ Hbuild)|].
  split.
  { apply build_output_inv in Hbuild. destruct Hbuild as [_ [zones [Hzones ->]]].
    apply revolve_zones_inv in Hzones. destruct Hzones as [Hlen _].
    unfold num_zones. cbn [assemble zone_list]. rewrite length_map. exact Hlen. }
  split; [apply frames_after_revolve; exact Hfresh | reflexivity].
Qed.

Lemma overlap_sample_revolvable : revolvable overlap_sample.
Proof.
  intros [|zindex] zin H; cbn in H; [|destruct zindex; discriminate H].
  injection H as <-. cbn. repeat split; try lia.
  intros u [<-|[<-|[<-|[]]]]; reflexivity.
Qed.

Lemma revolve_well_formed_input_witness :
  exists w' data_out,
    @revolve_dataset literal_bindings literal_accessors ideal_numpy
      "curve.plt" "out.plt" (RStr "r") 3 (Num 90) (VList ["u"]) overlap_session
    = (Ok tt, w')
    /\ saved w'
       = saved overlap_session
         ++ [mkSave "out.plt" (String.eqb (splitext_ext "out.plt") ".dat")
                    data_out None None]
    /\ variable_names data_out
       = expected_variables (variable_names overlap_sample)
           [("r", ("r", "z")); ("u", ("u_cos", "u_sin"))]
    /\ num_zones data_out = num_zones overlap_sample
    /\ page_frames w' = page_frames overlap_session
    /\ log w' = log overlap_session.
Proof.
  apply (@revolve_well_formed_input literal_bindings literal_accessors ideal_numpy
           "curve.plt" "out.plt" (RStr "r") 3%Z (Num 90)
           (VList ["u"]) overlap_session overlap_sample
           [("r", ("r", "z")); ("u", ("u_cos", "u_sin"))]).
  - reflexivity.
  - reflexivity.
  - lia.
  - apply literal_names_of_bindings. reflexivity.
  - exact overlap_sample_revolvable.
  - intros f [].
Defined.

Lemma expected_variables_radial pre r post :
  NoDup (pre ++ r :: post) ->
  ~ In "z" (pre ++ r :: post) ->
  expected_variables (pre ++ r :: post) [(r, (r, "z"))] = pre ++ r :: "z" :: post.
Proof.
  intros Hnd Hz. unfold expected_variables.
  set (names := pre ++ r :: post) in *.
  assert (Hother : forall l, ~ In r l ->
            flat_map (fun v => v :: new_components names [(r, (r, "z"))] v) l = l).
  { induction l as [|v l IH]; intros Hl; cbn [flat_map]; [reflexivity|].
    rewrite IH by (intros H; apply Hl; right; exact H).
    unfold new_components. cbn [dict_get].
    destruct (String.eqb_spec r v) as [->|_];
      [exfalso; apply Hl; left; reflexivity | reflexivity]. }
  assert (Hpre : ~ In r pre /\ ~ In r post).
  { unfold names in Hnd. apply NoDup_remove_2 in Hnd.
    split; intros H; apply Hnd; apply in_or_app; [left | right]; exact H. }
  unfold names at 2. rewrite flat_map_app. cbn [flat_map].
  rewrite (Hother pre (proj1 Hpre)), (Hother post (proj2 Hpre)).
  unfold new_components. cbn [dict_get]. rewrite String.eqb_refl.
  cbn [filter].
  assert (Hr : str_in r names = true).
  { apply str_in_iff. unfold names. apply in_or_app. right. left. reflexivity. }
  assert (Hz' : str_in "z" names = false).
  { destruct (str_in "z" names) eqn:E; [|reflexivity].
    apply str_in_iff in E. contradiction. }
  rewrite Hr, Hz'. reflexivity.
Qed.

(** The basic use: only the radial coordinate is named, no variable
    name holds a wildcard and there is at least one plane.  The written
    dataset gains the variable [z] right after the radial coordinate; on
    plane [k] of every zone the radial coordinate holds its input values
    times the cosine of the plane angle, [z] holds them times the sine,
    and every other variable holds its input values. *)
Theorem revolve_radial_only {tp : Bindings} {acc : Accessors} {np : Numpy}
  datafile_in datafile_out planes angle w data_in r pre post :
  grid_store w datafile_in = Some data_in ->
  r <> EmptyString ->
  variable_names data_in = pre ++ r :: post ->
  NoDup (variable_names data_in) ->
  ~ In "z" (variable_names data_in) ->
  literal_names (pre ++ r :: "z" :: post) ->
  (0 < planes)%Z ->
  revolvable data_in ->
  exists w' data_out,
    revolve_dataset datafile_in datafile_out (RStr r) planes angle VNone w = (Ok tt, w')
    /\ saved w'
       = saved w ++ [mkSave datafile_out (String.eqb (splitext_ext datafile_out) ".dat")
                            data_out None None]
    /\ variable_names data_out = pre ++ r :: "z" :: post
    /\ forall zindex zin k,
         nth_error (zone_list data_in) zindex = Some zin ->
         k < Z.to_nat planes ->
         plane_block (num_points zin) k (zone_values data_out r zindex)
         = np_multiply (zone_values data_in r zindex)
             (np_cos (theta angle (Z.to_nat planes) k))
         /\ plane_block (num_points zin) k (zone_values data_out "z" zindex)
            = np_multiply (zone_values data_in r zindex)
                (np_sin (theta angle (Z.to_nat planes) k))
         /\ forall v, In v (variable_names data_in) -> v <> r ->
                      plane_block (num_points zin) k (zone_values data_out v zindex)
                      = zone_values data_in v zindex.
Proof.
  intros Hload Hr Hsplit Hnd Hz Hnames Hplanes Hwf.
  assert (Hlit : literal_names
                   (expected_variables (variable_names data_in) [(r, (r, "z"))])).
  { rewrite Hsplit, expected_variables_radial by (rewrite <- Hsplit; assumption).
    exact Hnames. }
  assert (Hrin : In r (variable_names data_in)).
  { rewrite Hsplit. apply in_or_app. right. left. reflexivity. }
  assert (Hcheck : check_inputs datafile_in data_in (RStr r) (vector_vars_dict VNone)
                   = Ok [(r, (r, "z"))]).
  { apply (check_inputs_named _ _ _ _ _ Hr).
    repeat split; try assumption. intros k []. }
  destruct (build_output_ok data_in [(r, (r, "z"))] planes angle
              ltac:(lia) Hlit Hwf)
    as [data_out Hbuild].
  exists (after_revolve w datafile_out data_out), data_out.
  split; [exact (revolve_dataset_ok _ _ _ _ _ _ _ _ _ _ Hload Hcheck Hbuild)|].
  split; [reflexivity|].
  split.
  { rewrite (build_output_variables _ _ _ _ _ Hbuild), Hsplit.
    apply expected_variables_radial; rewrite <- Hsplit; assumption. }
  assert (Hrz : r <> "z") by (intros ->; contradiction).
  assert (Hget : forall u, u <> r -> dict_get [(r, (r, "z"))] u = None).
  { intros u Hu. cbn. destruct (String.eqb_spec r u); [congruence | reflexivity]. }
  assert (Hcomp : forall u x, u <> r -> ~ component_of [(r, (r, "z"))] x u).
  { intros u x Hu [c [s [Hcs _]]]. rewrite (Hget u Hu) in Hcs. discriminate Hcs. }
  intros zindex zin k Hzin Hk.
  destruct (Hwf zindex zin Hzin) as [_ [_ [_ Hvals]]].
  assert (Hpost : forall u, In u post -> u <> r).
  { intros u Hu ->. rewrite Hsplit in Hnd. apply NoDup_remove_2 in Hnd.
    apply Hnd. apply in_or_app. right. exact Hu. }
  destruct (build_output_blocks _ _ _ _ _ zindex zin pre r post k
              Hbuild Hlit Hnd Hzin Hsplit Hvals Hk) as [_ [Hsin Hcos]].
  split; [|split].
  - apply (Hcos r "z"); [cbn; rewrite String.eqb_refl; reflexivity | exact Hrz |].
    intros u Hu [Heq|Hc]; [exact (Hpost u Hu Heq) | exact (Hcomp u r (Hpost u Hu) Hc)].
  - apply (Hsin r "z"); [cbn; rewrite String.eqb_refl; reflexivity |].
    intros u Hu [Heq|Hc]; [|exact (Hcomp u "z" (Hpost u Hu) Hc)].
    apply Hz. rewrite Hsplit, <- Heq. apply in_or_app. right. right. exact Hu.
  - intros v Hv Hvr.
    destruct (in_split _ _ Hv) as [pre' [post' Hsplit']].
    destruct (build_output_blocks _ _ _ _ _ zindex zin pre' v post' k
                Hbuild Hlit Hnd Hzin Hsplit' Hvals Hk) as [Hscalar _].
    apply Hscalar; [exact (Hget v Hvr)|].
    intros u Hu [c [s [Hcs Hor]]].
    cbn in Hcs. destruct (String.eqb_spec r u) as [<-|_]; [|discriminate Hcs].
    injection Hcs as <- <-. destruct Hor as [Heq|Heq]; [congruence|].
    apply Hz. rewrite <- Heq in Hv. exact Hv.
Qed.

Lemma revolve_radial_only_witness :
  exists w' data_out,
    @revolve_dataset literal_bindings literal_accessors ideal_numpy
      "curve.plt" "out.plt" (RStr "r") 3 (Num 90) VNone overlap_session
    = (Ok tt, w')
    /\ saved w'
       = saved overlap_session
         ++ [mkSave "out.plt" (String.eqb (splitext_ext "out.plt") ".dat")
                    data_out None None]
    /\ variable_names data_out = ["x"] ++ "r" :: "z" :: ["u"]
    /\ forall zindex zin k,
         nth_error (zone_list overlap_sample) zindex = Some zin ->
         k < Z.to_nat 3 ->
         plane_block (num_points zin) k (zone_values data_out "r" zindex)
         = @np_multiply ideal_numpy (zone_values overlap_sample "r" zindex)
             (@np_cos ideal_numpy (@theta ideal_numpy (Num 90) (Z.to_nat 3) k))
         /\ plane_block (num_points zin) k (zone_values data_out "z" zindex)
            = @np_multiply ideal_numpy (zone_values overlap_sample "r" zindex)
                (@np_sin ideal_numpy (@theta ideal_numpy (Num 90) (Z.to_nat 3) k))
         /\ forall v, In v (variable_names overlap_sample) -> v <> "r" ->
                      plane_block (num_points zin) k (zone_values data_out v zindex)
                      = zone_values overlap_sample v zindex.
Proof.
  apply (@revolve_radial_only literal_bindings literal_accessors ideal_numpy
           "curve.plt" "out.plt" 3%Z (Num 90) overlap_session
           overlap_sample "r" ["x"] ["u"]).
  - reflexivity.
  - discriminate.
  - reflexivity.
  - cbn. repeat constructor; cbn; intuition discriminate.
  - cbn. intuition discriminate.
  - apply literal_names_of_bindings. reflexivity.
  - lia.
  - exact overlap_sample_revolvable.
Defined.

(** ** Renaming: the frame left behind, and the order of the renames *)

Lemma find_literal {tp : Bindings} (k : string) (pre post : list string) (i : nat) :
  literal k -> ~ In k pre ->
  find (fun e => fnmatch (name e) k) (enumerate_from i (pre ++ k :: post))
  = Some (mkEntity k (i + length pre)).
Proof.
  intros Hlit. revert i. induction pre as [|x pre IH]; intros i Hpre; cbn.
  - rewrite Hlit, String.eqb_refl, Nat.add_0_r. reflexivity.
  - rewrite Hlit. destruct (String.eqb_spec x k) as [->|_].
    + exfalso. apply Hpre. left. reflexivity.
    + rewrite IH by (intros H; apply Hpre; right; exact H).
      f_equal. f_equal. lia.
Qed.

Lemma replace_nth_middle {A} (pre : list A) (x y : A) (post : list A) :
  replace_nth (length pre) y (pre ++ x :: post) = pre ++ y :: post.
Proof. induction pre as [|a pre IH]; cbn; [reflexivity | rewrite IH; reflexivity]. Qed.

Lemma count_occ_once (names : list string) (k : string) :
  count_occ string_dec names k = 1 ->
  exists pre post, names = pre ++ k :: post /\ ~ In k pre /\ ~ In k post.
Proof.
  induction names as [|x names IH]; cbn; [discriminate|].
  destruct (string_dec x k) as [->|Hne]; intros H.
  - exists [], names. split; [reflexivity|]. split; [intros []|].
    apply (count_occ_not_In string_dec). lia.
  - destruct (IH H) as [pre [post [-> [Hpre Hpost]]]].
    exists (x :: pre), post. split; [reflexivity|]. split; [|exact Hpost].
    intros [Heq|Hin]; [exact (Hne Heq) | exact (Hpre Hin)].
Qed.

Section RenameLoop.
Context {tp : Bindings} {acc : Accessors}.
Variable State : Type.
Variable names_of : State -> list string.
Variable upd : State -> nat -> string -> State.
Hypothesis names_upd :
  forall s i n, names_of (upd s i n) = replace_nth i n (names_of s).

Lemma rename_step (s : State) (k n' : string) (pre post : list string) :
  names_of s = pre ++ k :: post ->
  literal k -> ~ In k pre ->
  (e <~ first_match (enumerate_from 0 (names_of s)) k; Ok (upd s (index e) n'))%res
  = Ok (upd s (length pre) n')
  /\ names_of (upd s (length pre) n') = pre ++ n' :: post.
Proof.
  intros Hs Hlit Hpre. unfold first_match.
  rewrite Hs, (find_literal k pre post 0 Hlit Hpre). cbn [rbind index Nat.add].
  split; [reflexivity|]. rewrite names_upd, Hs. apply replace_nth_middle.
Qed.

Lemma rename_loop_one_step (Q : State -> Prop) (name_map : dict string) :
  (forall s i n, Q s -> Q (upd s i n)) ->
  forall s,
    one_step_map (names_of s) name_map ->
    Q s ->
    exists s',
      rfor_each name_map
        (fun s item =>
           (e <~ first_match (enumerate_from 0 (names_of s)) (fst item);
            Ok (upd s (index e) (snd item)))%res) s = Ok s'
      /\ names_of s' = map (renamed name_map) (names_of s)
      /\ Q s'.
Proof.
  intros HQ. induction name_map as [|[k n'] rest IH]; intros s [Hnd [Hkeys Hnew]] Hq.
  - exists s. split; [reflexivity|]. split; [|exact Hq].
    cbn. symmetry. rewrite <- (map_id (names_of s)) at 2. apply map_ext. reflexivity.
  - cbn in Hnd. inversion Hnd as [|x l Hnotin Hnd']; subst.
    destruct (Hkeys k (or_introl eq_refl)) as [Hlit Hcount].
    destruct (count_occ_once _ _ Hcount) as [pre [post [Hs [Hpre Hpost]]]].
    destruct (rename_step s k n' pre post Hs Hlit Hpre) as [Hstep Hnames].
    assert (Hn'k : n' <> k).
    { intros ->. apply (Hnew k); left; reflexivity. }
    assert (Hn'rest : ~ In n' (dict_keys rest)).
    { intros H. apply (Hnew n'); [left; reflexivity | right; exact H]. }
    destruct (IH (upd s (length pre) n')) as [s' [Hloop [Hres Hq']]].
    { split; [exact Hnd'|]. split.
      - intros k2 Hk2. destruct (Hkeys k2 (or_intror Hk2)) as [Hlit2 Hc2].
        split; [exact Hlit2|].
        assert (k2 <> k) by (intros ->; exact (Hnotin Hk2)).
        assert (k2 <> n') by (intros ->; exact (Hn'rest Hk2)).
        rewrite Hnames. rewrite Hs in Hc2.
        rewrite count_occ_app in Hc2 |- *.
        rewrite count_occ_cons_neq in Hc2 by congruence.
        rewrite count_occ_cons_neq by congruence. exact Hc2.
      - intros n2 Hn2 Hin. apply (Hnew n2); [right; exact Hn2 | right; exact Hin]. }
    { apply HQ. exact Hq. }
    exists s'. cbn [rfor_each fst snd]. rewrite Hstep. cbn [rbind].
    split; [exact Hloop|]. split; [|exact Hq'].
    rewrite Hres, Hnames, Hs, !map_app. cbn [map].
    assert (Hother : forall l, ~ In k l ->
              map (renamed rest) l = map (renamed ((k, n') :: rest)) l).
    { intros l Hl. apply map_ext_in. intros x Hx. unfold renamed. cbn [dict_get].
      destruct (String.eqb_spec k x) as [->|_]; [contradiction | reflexivity]. }
    rewrite (Hother pre Hpre), (Hother post Hpost). f_equal. f_equal.
    unfold renamed. cbn [dict_get]. rewrite String.eqb_refl.
    apply dict_get_none_keys in Hn'rest. rewrite Hn'rest. reflexivity.
Qed.

End RenameLoop.

Lemma nodup_count_occ (names : list string) (k : string) :
  NoDup names -> In k names -> count_occ string_dec names k = 1.
Proof.
  intros Hnd Hin. apply (NoDup_count_occ' string_dec); assumption.
Qed.

(** The frame that the body of [rename_variables] adds is never deleted:
    however the call ends it is on the page afterwards, next to the
    temporary frame when the call raised. *)
Theorem rename_variables_leaves_frame {tp : Bindings} {acc : Accessors}
  (datafile_in datafile_out : string) (name_map : dict string)
  (w w' : World) (r : Result unit) :
  rename_variables datafile_in datafile_out name_map w = (r, w') ->
  fresh_frames w ->
  page_frames w'
  = page_frames w
    ++ match r with Ok _ => [] | Raise _ => [next_frame w] end
    ++ [S (next_frame w)].
Proof.
  intros H Hfresh. unfold rename_variables, py_with in H.
  cbn [before_yield after_yield temp_frame] in H. rewrite add_frame_run in H.
  unfold bind in H. rewrite add_frame_run in H.
  unfold load_tecplot, lift, write_dataset in H.
  cbn [with_new_frame grid_store page_frames next_frame] in H.
  assert (Hkeep : filter (fun f => negb (Nat.eqb f (next_frame w)))
                    ((page_frames w ++ [next_frame w]) ++ [S (next_frame w)])
                  = page_frames w ++ [S (next_frame w)]).
  { rewrite filter_app, (filter_new_frame _ _ Hfresh). cbn [filter].
    destruct (Nat.eqb_spec (S (next_frame w)) (next_frame w)); [lia | reflexivity]. }
  destruct (grid_store w datafile_in) as [ds|].
  - destruct (rfor_each name_map _ ds) as [ds'|e].
    + cbn in H. injection H as <- <-. cbn. exact Hkeep.
    + injection H as <- <-. cbn. rewrite <- app_assoc. reflexivity.
  - injection H as <- <-. cbn. rewrite <- app_assoc. reflexivity.
Qed.

Lemma rename_variables_leaves_frame_witness :
  (let w := session [("in.plt", pair_sample)] in
   let run := @rename_variables literal_bindings literal_accessors
                "in.plt" "out.plt" [("q", "rho")] w in
   fst run = Ok tt /\ page_frames (snd run) = [1])
  /\ (let w := session [("in.plt", pair_sample)] in
      let run := @rename_variables literal_bindings literal_accessors
                   "in.plt" "out.plt" [("t", "temperature")] w in
      fst run = Raise (TecplotError "No match for t")
      /\ page_frames (snd run) = [0; 1]).
Proof.
  split.
  - split; [reflexivity|].
    apply (@rename_variables_leaves_frame literal_bindings literal_accessors
             "in.plt" "out.plt" [("q", "rho")] (session [("in.plt", pair_sample)])
             _ (Ok tt)).
    + reflexivity.
    + intros f [].
  - split; [reflexivity|].
    apply (@rename_variables_leaves_frame literal_bindings literal_accessors
             "in.plt" "out.plt" [("t", "temperature")]
             (session [("in.plt", pair_sample)])
             _ (Raise (TecplotError "No match for t"))).
    + reflexivity.
    + intros f [].
Defined.

(** With a name map that renames in one step, [rename_variables] writes
    the loaded dataset with every variable under the name the map gives
    it, zones and values untouched. *)
Theorem rename_variables_one_step {tp : Bindings} {acc : Accessors}
  (datafile_in datafile_out : string) (name_map : dict string)
  (w : World) (ds : Dataset) :
  grid_store w datafile_in = Some ds ->
  one_step_map (variable_names ds) name_map ->
  exists w' ds',
    rename_variables datafile_in datafile_out name_map w = (Ok tt, w')
    /\ saved w'
       = saved w ++ [mkSave datafile_out (String.eqb (splitext_ext datafile_out) ".dat")
                            ds' None None]
    /\ variable_names ds' = map (renamed name_map) (variable_names ds)
    /\ zone_list ds' = zone_list ds
    /\ values ds' = values ds.
Proof.
  intros Hload Hmap.
  destruct (rename_loop_one_step Dataset variable_names set_variable_name
              (fun s i n => eq_refl)
              (fun s => zone_list s = zone_list ds /\ values s = values ds)
              name_map (fun s i n H => H) ds Hmap (conj eq_refl eq_refl))
    as [ds' [Hloop [Hnames [Hzones Hvalues]]]].
  eexists. exists ds'. split.
  { unfold rename_variables. erewrite temp_frame_deleted_on_return.
    2: { run_ok (add_frame_run (with_new_frame w)).
         erewrite bind_ok
           by (apply load_tecplot_run; cbn [with_new_frame grid_store]; exact Hload).
         unfold variable_catalog. run_ok Hloop. reflexivity. }
    reflexivity. }
  cbn. repeat split; assumption.
Qed.

Lemma rename_variables_one_step_witness :
  let w := session [("in.plt", pair_sample)] in
  exists w' ds',
    @rename_variables literal_bindings literal_accessors
      "in.plt" "out.plt" [("q", "rho"); ("p", "pressure")] w = (Ok tt, w')
    /\ saved w'
       = saved w ++ [mkSave "out.plt" (String.eqb (splitext_ext "out.plt") ".dat")
                            ds' None None]
    /\ variable_names ds' = ["pressure"; "rho"]
    /\ zone_list ds' = zone_list pair_sample
    /\ values ds' = values pair_sample.
Proof.
  apply (@rename_variables_one_step literal_bindings literal_accessors
           "in.plt" "out.plt" [("q", "rho"); ("p", "pressure")]
           (session [("in.plt", pair_sample)]) pair_sample).
  - reflexivity.
  - split; [|split].
    + cbn. repeat constructor; cbn; intuition discriminate.
    + intros k [<-|[<-|[]]]; (split; [apply literal_bindings_literal|]); reflexivity.
    + intros n' [<-|[<-|[]]] [H|[H|[]]]; discriminate H.
Defined.

(** The renames are applied one after the other, each lookup seeing the
    names the earlier renames left.  A map that exchanges two names
    therefore exchanges them only when the first key names the later
    variable; when it names the earlier one, both renames hit the same
    variable and the names stay as they were. *)
Theorem rename_variables_exchange {tp : Bindings} {acc : Accessors}
  (datafile_in datafile_out : string) (a b : string)
  (w : World) (ds : Dataset) (pre mid post : list string) :
  grid_store w datafile_in = Some ds ->
  literal a -> literal b -> a <> b ->
  NoDup (variable_names ds) ->
  (variable_names ds = pre ++ a :: mid ++ b :: post ->
   exists w' ds',
     rename_variables datafile_in datafile_out [(a, b); (b, a)] w = (Ok tt, w')
     /\ saved w'
        = saved w ++ [mkSave datafile_out (String.eqb (splitext_ext datafile_out) ".dat")
                             ds' None None]
     /\ variable_names ds' = pre ++ a :: mid ++ b :: post)
  /\ (variable_names ds = pre ++ b :: mid ++ a :: post ->
      exists w' ds',
        rename_variables datafile_in datafile_out [(a, b); (b, a)] w = (Ok tt, w')
        /\ saved w'
           = saved w ++ [mkSave datafile_out (String.eqb (splitext_ext datafile_out) ".dat")
                                ds' None None]
        /\ variable_names ds' = pre ++ a :: mid ++ b :: post).
Proof.
  intros Hload Ha Hb Hab Hnd.
  assert (Hrun : forall ds',
            rfor_each [(a, b); (b, a)]
              (fun dataset item =>
                 (var <~ first_match (variable_catalog dataset) (fst item);
                  Ok (set_variable_name dataset (index var) (snd item)))%res) ds
            = Ok ds' ->
            exists w',
              rename_variables datafile_in datafile_out [(a, b); (b, a)] w = (Ok tt, w')
              /\ saved w'
                 = saved w
                   ++ [mkSave datafile_out (String.eqb (splitext_ext datafile_out) ".dat")
                              ds' None None]).
  { intros ds' Hloop. eexists. split.
    { unfold rename_variables. erewrite temp_frame_deleted_on_return.
      2: { run_ok (add_frame_run (with_new_frame w)).
           erewrite bind_ok
             by (apply load_tecplot_run; cbn [with_new_frame grid_store]; exact Hload).
           run_ok Hloop. reflexivity. }
      reflexivity. }
    reflexivity. }
  assert (Hpre : forall x l1 l2, variable_names ds = l1 ++ x :: l2 -> ~ In x l1).
  { intros x l1 l2 Hs Hin. rewrite Hs in Hnd. apply NoDup_remove_2 in Hnd.
    apply Hnd. apply in_or_app. left. exact Hin. }
  split; intros Hs.
  - destruct (rename_step Dataset variable_names set_variable_name
                (fun s i n => eq_refl) ds a b pre (mid ++ b :: post) Hs Ha
                (Hpre _ _ _ Hs)) as [Hstep1 Hnames1].
    assert (Hbpre : ~ In b pre).
    { intros Hin. rewrite Hs in Hnd. apply NoDup_remove_2 in Hnd.
      apply (Hpre b (pre ++ a :: mid) post).
      - rewrite Hs, <- app_assoc. reflexivity.
      - apply in_or_app. left. exact Hin. }
    destruct (rename_step Dataset variable_names set_variable_name
                (fun s i n => eq_refl) (set_variable_name ds (length pre) b)
                b a pre (mid ++ b :: post) Hnames1 Hb Hbpre) as [Hstep2 Hnames2].
    destruct (Hrun (set_variable_name (set_variable_name ds (length pre) b)
                      (length pre) a)) as [w' [Hr Hsaved]].
    { cbn [rfor_each fst snd]. unfold variable_catalog.
      rewrite Hstep1. cbn [rbind]. rewrite Hstep2. reflexivity. }
    exists w'. eexists. split; [exact Hr|]. split; [exact Hsaved | exact Hnames2].
  - assert (Hs' : variable_names ds = (pre ++ b :: mid) ++ a :: post).
    { rewrite Hs, <- app_assoc. reflexivity. }
    destruct (rename_step Dataset variable_names set_variable_name
                (fun s i n => eq_refl) ds a b (pre ++ b :: mid) post Hs' Ha
                (Hpre _ _ _ Hs')) as [Hstep1 Hnames1].
    rewrite <- app_assoc in Hnames1. cbn [app] in Hnames1.
    destruct (rename_step Dataset variable_names set_variable_name
                (fun s i n => eq_refl)
                (set_variable_name ds (length (pre ++ b :: mid)) b)
                b a pre (mid ++ b :: post) Hnames1 Hb (Hpre _ _ _ Hs))
      as [Hstep2 Hnames2].
    destruct (Hrun (set_variable_name
                      (set_variable_name ds (length (pre ++ b :: mid)) b)
                      (length pre) a)) as [w' [Hr Hsaved]].
    { cbn [rfor_each fst snd]. unfold variable_catalog.
      rewrite Hstep1. cbn [rbind]. rewrite Hstep2. reflexivity. }
    exists w'. eexists. split; [exact Hr|]. split; [exact Hsaved | exact Hnames2].
Qed.

Lemma rename_variables_exchange_witness :
  let w := session [("in.plt", pair_sample)] in
  (exists w' ds',
     @rename_variables literal_bindings literal_accessors
       "in.plt" "out.plt" [("p", "q"); ("q", "p")] w = (Ok tt, w')
     /\ saved w'
        = saved w ++ [mkSave "out.plt" (String.eqb (splitext_ext "out.plt") ".dat")
                             ds' None None]
     /\ variable_names ds' = ["p"; "q"])
  /\ (exists w' ds',
        @rename_variables literal_bindings literal_accessors
          "in.plt" "out.plt" [("q", "p"); ("p", "q")] w = (Ok tt, w')
        /\ saved w'
           = saved w ++ [mkSave "out.plt" (String.eqb (splitext_ext "out.plt") ".dat")
                                ds' None None]
        /\ variable_names ds' = ["q"; "p"]).
Proof.
  assert (Hnd : NoDup (variable_names pair_sample)).
  { cbn. repeat constructor; cbn; intuition discriminate. }
  split.
  - apply (proj1 (@rename_variables_exchange literal_bindings literal_accessors
                    "in.plt" "out.plt" "p" "q" (session [("in.plt", pair_sample)])
                    pair_sample [] [] [] eq_refl
                    (literal_bindings_literal "p" eq_refl)
                    (literal_bindings_literal "q" eq_refl)
                    ltac:(discriminate) Hnd)).
    reflexivity.
  - apply (proj2 (@rename_variables_exchange literal_bindings literal_accessors
                    "in.plt" "out.plt" "q" "p" (session [("in.plt", pair_sample)])
                    pair_sample [] [] [] eq_refl
                    (literal_bindings_literal "q" eq_refl)
                    (literal_bindings_literal "p" eq_refl)
                    ltac:(discriminate) Hnd)).
    reflexivity.
Defined.

Lemma zone_names_set ds i n :
  map zone_name (zone_list (set_zone_name ds i n))
  = replace_nth i n (map zone_name (zone_list ds)).
Proof.
  unfold set_zone_name. cbn [zone_list].
  generalize (nth i (zone_list ds) no_zone). intros z.
  revert i. induction (zone_list ds) as [|y l IH]; intros [|i]; cbn; try reflexivity.
  rewrite IH. reflexivity.
Qed.

Lemma zone_shape_set (f : Zone -> nat * list nat * bool) ds i n :
  (forall z m, f (mkZone m (rank z) (dimensions z) (is_ordered z)) = f z) ->
  map f (zone_list (set_zone_name ds i n)) = map f (zone_list ds).
Proof.
  intros Hf. unfold set_zone_name. cbn [zone_list].
  assert (H : forall l d j,
            map f (replace_nth j
                     (mkZone n (rank (nth j l d)) (dimensions (nth j l d))
                        (is_ordered (nth j l d))) l) = map f l).
  { induction l as [|y l IH]; intros d [|j]; cbn; try reflexivity.
    - rewrite Hf. reflexivity.
    - rewrite IH. reflexivity. }
  apply H.
Qed.

(** With a name map that renames in one step, [rename_zones] writes the
    loaded dataset with every zone under the name the map gives it and
    everything else untouched, and the page has the frames it had. *)
Theorem rename_zones_one_step {tp : Bindings} {acc : Accessors}
  (datafile_in datafile_out : string) (name_map : dict string)
  (w : World) (ds : Dataset) :
  grid_store w datafile_in = Some ds ->
  one_step_map (map zone_name (zone_list ds)) name_map ->
  fresh_frames w ->
  exists w' ds',
    rename_zones datafile_in datafile_out name_map w = (Ok tt, w')
    /\ saved w'
       = saved w ++ [mkSave datafile_out (String.eqb (splitext_ext datafile_out) ".dat")
                            ds' None None]
    /\ zone_list ds' = map (renamed_zone name_map) (zone_list ds)
    /\ variable_names ds' = variable_names ds
    /\ values ds' = values ds
    /\ page_frames w' = page_frames w.
Proof.
  intros Hload Hmap Hfresh.
  set (shape := fun z : Zone => (rank z, dimensions z, is_ordered z)).
  destruct (rename_loop_one_step Dataset (fun s => map zone_name (zone_list s))
              set_zone_name zone_names_set
              (fun s => variable_names s = variable_names ds
                        /\ values s = values ds
                        /\ map shape (zone_list s) = map shape (zone_list ds))
              name_map) with (s := ds)
    as [ds' [Hloop [Hnames [Hvars [Hvalues Hshape]]]]].
  { intros s i n [H1 [H2 H3]]. split; [exact H1|]. split; [exact H2|].
    rewrite <- H3. apply zone_shape_set. reflexivity. }
  { exact Hmap. }
  { repeat split. }
  eexists. exists ds'. split.
  { unfold rename_zones. erewrite temp_frame_deleted_on_return.
    2: { erewrite bind_ok
           by (apply load_tecplot_run; cbn [with_new_frame grid_store]; exact Hload).
         unfold zone_catalog. run_ok Hloop. reflexivity. }
    reflexivity. }
  cbn. split; [reflexivity|]. split; [|split; [exact Hvars|split; [exact Hvalues|]]].
  - apply nth_error_ext. intros i. rewrite nth_error_map.
    rewrite map_map in Hnames.
    pose proof (f_equal (fun l => nth_error l i) Hnames) as Hn.
    pose proof (f_equal (fun l => nth_error l i) Hshape) as Hsh.
    cbn beta in Hn, Hsh. rewrite !nth_error_map in Hn, Hsh.
    destruct (nth_error (zone_list ds') i) as [[n1 r1 d1 o1]|],
             (nth_error (zone_list ds) i) as [[n2 r2 d2 o2]|];
      cbn in Hn, Hsh |- *; try discriminate; [|reflexivity].
    unfold renamed_zone, shape in *. cbn in *. congruence.
  - apply filter_new_frame. exact Hfresh.
Qed.

Lemma rename_zones_one_step_witness :
  let w := session [("in.plt", new_sample)] in
  exists w' ds',
    @rename_zones literal_bindings literal_accessors
      "in.plt" "out.plt" [("a", "inlet")] w = (Ok tt, w')
    /\ saved w'
       = saved w ++ [mkSave "out.plt" (String.eqb (splitext_ext "out.plt") ".dat")
                            ds' None None]
    /\ zone_list ds' = [mkZone "inlet" 1 [2] true; mkZone "b" 1 [3] true]
    /\ variable_names ds' = variable_names new_sample
    /\ values ds' = values new_sample
    /\ page_frames w' = page_frames w.
Proof.
  apply (@rename_zones_one_step literal_bindings literal_accessors
           "in.plt" "out.plt" [("a", "inlet")]
           (session [("in.plt", new_sample)]) new_sample).
  - reflexivity.
  - split; [|split].
    + cbn. repeat constructor. intros [].
    + intros k [<-|[]]. split; [apply literal_bindings_literal|]; reflexivity.
    + intros n' [<-|[]] [H|[]]. discriminate H.
  - intros f [].
Defined.

(** ** Slicing: the page is restored, the slices are what is written *)

(** However [slice_surfaces] ends, the page has the frames it had before
    the call; a call that raises has written no file. *)
Theorem slice_surfaces_restores_page {sl : Slicer}
  (slice_file datafile_in datafile_out : string) (w w' : World) (r : Result unit) :
  slice_surfaces slice_file datafile_in datafile_out w = (r, w') ->
  fresh_frames w ->
  page_frames w' = page_frames w
  /\ (forall e, r = Raise e -> saved w' = saved w).
Proof.
  intros H Hfresh. unfold slice_surfaces, bind, lift in H.
  destruct (load_module slice_file) as [config|e0].
  2: { injection H as <- <-. split; [reflexivity | intros; reflexivity]. }
  rewrite add_frame_run in H.
  unfold try_finally, load_tecplot, write_dataset, delete_frame in H.
  cbn [with_new_frame grid_store page_frames next_frame saved] in H.
  pose proof (filter_new_frame _ _ Hfresh) as Hkeep.
  destruct (grid_store w datafile_in) as [ds|].
  2: { injection H as <- <-. cbn. split; [exact Hkeep | intros; reflexivity]. }
  destruct (config_slices config) as [slices|e1].
  2: { injection H as <- <-. cbn. split; [exact Hkeep | intros; reflexivity]. }
  destruct (rfor_each slices extract_one (ds, [])) as [state|e2].
  - injection H as <- <-. cbn. split; [exact Hkeep | intros e He; discriminate He].
  - injection H as <- <-. cbn. split; [exact Hkeep | intros; reflexivity].
Qed.

Lemma slice_surfaces_restores_page_witness :
  let w := session [("surf.plt", new_sample)] in
  (let run := @slice_surfaces sample_slicer "slices.py" "surf.plt" "cut.dat" w in
   page_frames (snd run) = page_frames w
   /\ (forall e, fst run = Raise e -> saved (snd run) = saved w))
  /\ (let run := @slice_surfaces sample_slicer "slices.py" "none.plt" "cut.dat" w in
      page_frames (snd run) = page_frames w
      /\ (forall e, fst run = Raise e -> saved (snd run) = saved w)).
Proof.
  split.
  - apply (@slice_surfaces_restores_page sample_slicer "slices.py" "surf.plt" "cut.dat"
             (session [("surf.plt", new_sample)])).
    + apply surjective_pairing.
    + intros f [].
  - apply (@slice_surfaces_restores_page sample_slicer "slices.py" "none.plt" "cut.dat"
             (session [("surf.plt", new_sample)])).
    + apply surjective_pairing.
    + intros f [].
Defined.

Lemma named_new_zone ds z vals n :
  zone_list (set_zone_name (add_zone ds z vals) (num_zones ds) n)
  = zone_list ds ++ [mkZone n (rank z) (dimensions z) (is_ordered z)].
Proof.
  unfold set_zone_name, add_zone, num_zones. cbn [zone_list].
  rewrite (nth_middle (zone_list ds) [] z no_zone).
  apply (replace_nth_middle (zone_list ds) z _ []).
Qed.

Lemma extract_loop_inv {sl : Slicer} (slices : list SliceDef) :
  forall ds idx ds' idx',
    rfor_each slices extract_one (ds, idx) = Ok (ds', idx') ->
    idx' = idx ++ seq (num_zones ds) (length slices)
    /\ variable_names ds' = variable_names ds
    /\ (exists added, zone_list ds' = zone_list ds ++ added
                      /\ map zone_name added = map slice_name slices)
    /\ (forall sd s, In sd slices -> slice_zones sd = ZStr s -> s = "all").
Proof.
  induction slices as [|sd slices IH]; intros ds idx ds' idx' H.
  - cbn in H. injection H as <- <-. rewrite app_nil_r.
    split; [reflexivity|]. split; [reflexivity|]. split.
    + exists []. rewrite app_nil_r. split; reflexivity.
    + intros sd s [].
  - cbn [rfor_each] in H. apply rbind_ok in H. destruct H as [[ds1 idx1] [Hone H]].
    unfold extract_one in Hone.
    apply rbind_ok in Hone. destruct Hone as [zones [Hspec Hone]].
    apply rbind_ok in Hone. destruct Hone as [[z vals] [_ Hone]].
    cbn [fst snd] in Hone. injection Hone as <- <-.
    destruct (IH _ _ _ _ H) as [Hidx [Hvars [[added [Hzones Hnames]] Hall]]].
    assert (Hnz : num_zones (set_zone_name (add_zone ds z vals) (num_zones ds)
                               (slice_name sd)) = S (num_zones ds)).
    { unfold num_zones at 1. rewrite named_new_zone, length_app. cbn.
      unfold num_zones. lia. }
    rewrite Hnz in Hidx. split.
    { rewrite Hidx, <- app_assoc. reflexivity. }
    split; [exact Hvars|]. split.
    + rewrite named_new_zone in Hzones.
      exists (mkZone (slice_name sd) (rank z) (dimensions z) (is_ordered z) :: added).
      split; [rewrite Hzones, <- app_assoc; reflexivity|].
      cbn. rewrite Hnames. reflexivity.
    + intros sd' s [<-|Hin] Hs; [|exact (Hall sd' s Hin Hs)].
      rewrite Hs in Hspec. destruct (String.eqb_spec s "all"); [assumption|].
      discriminate Hspec.
Qed.

(** A call of [slice_surfaces] that returns has written one file: the
    loaded dataset followed by one new zone per slice definition, named
    as the definitions in their order, of which only the new zones are
    selected for writing.  Every zone specifier given as a string was
    [all]. *)
Theorem slice_surfaces_writes_slices {sl : Slicer}
  (slice_file datafile_in datafile_out : string) (w w' : World) :
  slice_surfaces slice_file datafile_in datafile_out w = (Ok tt, w') ->
  exists ds config slices ds' added,
    grid_store w datafile_in = Some ds
    /\ load_module slice_file = Ok config
    /\ config_slices config = Ok slices
    /\ saved w'
       = saved w
         ++ [mkSave datafile_out (String.eqb (splitext_ext datafile_out) ".dat") ds'
               None (Some (range (num_zones ds) (num_zones ds + length slices)))]
    /\ variable_names ds' = variable_names ds
    /\ zone_list ds' = zone_list ds ++ added
    /\ map zone_name added = map slice_name slices
    /\ (forall sd s, In sd slices -> slice_zones sd = ZStr s -> s = "all").
Proof.
  intros H. unfold slice_surfaces in H.
  apply bind_ok_inv in H. destruct H as [config [w1 [Hcfg H]]].
  apply lift_ok_inv in Hcfg. destruct Hcfg as [Hcfg ->].
  apply bind_ok_inv in H. destruct H as [frame [w2 [Hframe H]]].
  rewrite add_frame_run in Hframe. injection Hframe as <- <-.
  unfold try_finally in H.
  destruct (bind (load_tecplot datafile_in (next_frame w)) _ (with_new_frame w))
    as [[[]|e] w3] eqn:Hbody; [|discriminate H].
  cbn in H. injection H as <-.
  apply bind_ok_inv in Hbody. destruct Hbody as [ds [w4 [Hload Hbody]]].
  apply load_tecplot_ok_inv in Hload. destruct Hload as [Hload ->].
  apply bind_ok_inv in Hbody. destruct Hbody as [slices [w5 [Hsl Hbody]]].
  apply lift_ok_inv in Hsl. destruct Hsl as [Hsl ->].
  apply bind_ok_inv in Hbody. destruct Hbody as [[ds' idx'] [w6 [Hloop Hbody]]].
  apply lift_ok_inv in Hloop. destruct Hloop as [Hloop ->].
  unfold write_dataset in Hbody. injection Hbody as <-.
  destruct (extract_loop_inv _ _ _ _ _ Hloop) as [Hidx [Hvars [[added [Hz Hn]] Hall]]].
  exists ds, config, slices, ds', added.
  split; [exact Hload|]. split; [exact Hcfg|]. split; [exact Hsl|].
  split.
  { cbn. rewrite Hidx. unfold range. cbn [app].
    replace (num_zones ds + length slices - num_zones ds) with (length slices) by lia.
    reflexivity. }
  repeat split; assumption.
Qed.

Lemma slice_surfaces_writes_slices_witness :
  let w := session [("surf.plt", new_sample)] in
  let run := @slice_surfaces sample_slicer "slices.py" "surf.plt" "cut.dat" w in
  exists ds config slices ds' added,
    grid_store w "surf.plt" = Some ds
    /\ @load_module sample_slicer "slices.py" = Ok config
    /\ @config_slices sample_slicer config = Ok slices
    /\ saved (snd run)
       = saved w
         ++ [mkSave "cut.dat" (String.eqb (splitext_ext "cut.dat") ".dat") ds'
               None (Some (range (num_zones ds) (num_zones ds + length slices)))]
    /\ variable_names ds' = variable_names ds
    /\ zone_list ds' = zone_list ds ++ added
    /\ map zone_name added = map slice_name slices
    /\ (forall sd s, In sd slices -> slice_zones sd = ZStr s -> s = "all").
Proof.
  apply (@slice_surfaces_writes_slices sample_slicer "slices.py" "surf.plt" "cut.dat"
           (session [("surf.plt", new_sample)])
           (snd (@slice_surfaces sample_slicer "slices.py" "surf.plt" "cut.dat"
                   (session [("surf.plt", new_sample)])))).
  reflexivity.
Defined.
